(** * Credential vault and sub-account reconciler of bfx-reports-framework

    A shallow embedding of
      - [workers/loc.api/sync/authenticator/index.js]  (class [Authenticator])
      - [workers/loc.api/sync/sub.account/index.js]    (class [SubAccount])
    and the properties their specification states about them.

    JavaScript values are a small universe [JsVal].  The asynchronous,
    throwing methods are computations in a state-and-exception monad [M]
    whose state holds the state of the collaborators (storage, crypto
    provider, upstream API), the in-process session [Map] and the log of
    every call made to a collaborator together with its answer.  The
    collaborators are one function [oracle] from a call and their state to
    an answer (or a rejection) and their new state; the helpers imported
    from modules that are not among the sources are parameters too.
    [SubAccount] calls the [Authenticator] of the first file, as the
    dependency injection wires it. *)

From Stdlib Require Import String Ascii List ZArith Bool Lia Arith.
From Stdlib Require Import DecimalString.
Import ListNotations.
Local Open Scope string_scope.
Local Open Scope list_scope.

(* ===================================================================== *)
(** ** JavaScript values *)
(* ===================================================================== *)

Module Js.

(** Numbers are the integers and [NaN]: identifiers and change counts are
    the only numbers this code inspects.  Strings are strings of code units
    below 256.  An object is its list of own enumerable properties in
    insertion order. *)
#[warnings="-register-all"]
Inductive JsVal : Type :=
| JUndefined
| JNull
| JBool (b : bool)
| JNum (n : Z)
| JNaN
| JStr (s : string)
| JObj (fields : list (string * JsVal))
| JArr (items : list JsVal).

Definition Fields := list (string * JsVal).

(** [!!v] *)
Definition truthy (v : JsVal) : bool :=
  match v with
  | JUndefined | JNull | JNaN => false
  | JBool b => b
  | JNum n => negb (n =? 0)%Z
  | JStr s => negb (s =? "")
  | JObj _ | JArr _ => true
  end.

Inductive JsType := TUndefined | TObject | TBoolean | TNumber | TString.

Definition typeof (v : JsVal) : JsType :=
  match v with
  | JUndefined => TUndefined
  | JNull | JObj _ | JArr _ => TObject
  | JBool _ => TBoolean
  | JNum _ | JNaN => TNumber
  | JStr _ => TString
  end.

Definition is_string (v : JsVal) : bool :=
  match v with JStr _ => true | _ => false end.

Definition is_object (v : JsVal) : bool :=
  match typeof v with TObject => true | _ => false end.

(** [Array.isArray(v)] *)
Definition isArray (v : JsVal) : bool :=
  match v with JArr _ => true | _ => false end.

(** [Number.isInteger(v)] *)
Definition isInteger (v : JsVal) : bool :=
  match v with JNum _ => true | _ => false end.

(** [a && b] and [a || b] on values *)
Definition js_and (a b : JsVal) : JsVal := if truthy a then b else a.
Definition js_or (a b : JsVal) : JsVal := if truthy a then a else b.

(** [v && typeof v === 'string'], the test the code uses for a required
    text field, as a value and as a boolean. *)
Definition str_field (v : JsVal) : JsVal := js_and v (JBool (is_string v)).
Definition valid_str (v : JsVal) : bool := truthy v && is_string v.

(** [a === b].  Two objects (or arrays) are equal only when they are the
    same reference; the values compared here come from separate answers of
    the collaborators, so the comparison of two objects answers [false]. *)
Definition strict_eq (a b : JsVal) : bool :=
  match a, b with
  | JUndefined, JUndefined => true
  | JNull, JNull => true
  | JBool x, JBool y => Bool.eqb x y
  | JNum x, JNum y => (x =? y)%Z
  | JStr x, JStr y => (x =? y)
  | _, _ => false
  end.

(** Structural equality, used for the keys of the session [Map]: the key
    looked up is the value that was stored under. *)
Fixpoint val_eqb (a b : JsVal) {struct a} : bool :=
  match a, b with
  | JUndefined, JUndefined => true
  | JNull, JNull => true
  | JNaN, JNaN => true
  | JBool x, JBool y => Bool.eqb x y
  | JNum x, JNum y => (x =? y)%Z
  | JStr x, JStr y => (x =? y)
  | JObj f, JObj g =>
      (fix go (f g : list (string * JsVal)) {struct f} : bool :=
         match f, g with
         | [], [] => true
         | (k, v) :: f', (k', v') :: g' => (k =? k') && val_eqb v v' && go f' g'
         | _, _ => false
         end) f g
  | JArr l, JArr m =>
      (fix go (l m : list JsVal) {struct l} : bool :=
         match l, m with
         | [], [] => true
         | v :: l', v' :: m' => val_eqb v v' && go l' m'
         | _, _ => false
         end) l m
  | _, _ => false
  end.

(** *** Objects *)

Fixpoint assoc (k : string) (o : Fields) : option JsVal :=
  match o with
  | [] => None
  | (k', v) :: o' => if k =? k' then Some v else assoc k o'
  end.

(** [o.k] for an object given by its property list *)
Definition field (o : Fields) (k : string) : JsVal :=
  match assoc k o with Some v => v | None => JUndefined end.

(** [o.k = v]: an existing property keeps its place, a new one goes last *)
Fixpoint obj_set (k : string) (v : JsVal) (o : Fields) : Fields :=
  match o with
  | [] => [(k, v)]
  | (k', v') :: o' =>
      if k =? k' then (k, v) :: o' else (k', v') :: obj_set k v o'
  end.

(** [{ ...a, ...b }] *)
Definition obj_merge (a b : Fields) : Fields :=
  fold_left (fun acc kv => obj_set (fst kv) (snd kv) acc) b a.

Definition index_key (i : nat) : string :=
  NilEmpty.string_of_uint (Nat.to_uint i).

Fixpoint indexed (i : nat) (l : list JsVal) : Fields :=
  match l with
  | [] => []
  | v :: l' => (index_key i, v) :: indexed (S i) l'
  end.

Fixpoint chars (s : string) : list JsVal :=
  match s with
  | EmptyString => []
  | String c s' => JStr (String c EmptyString) :: chars s'
  end.

(** The own enumerable properties copied by [{ ...v }]: none for
    [undefined], [null], booleans and numbers, the indices for arrays and
    strings. *)
Definition spread (v : JsVal) : Fields :=
  match v with
  | JObj o => o
  | JArr l => indexed 0 l
  | JStr s => indexed 0 (chars s)
  | _ => []
  end.

(** lodash [pick(item, props)] for a list of plain property names, as every
    projection list in this code is: the properties of [item] named in
    [props], in the order of [props]. *)
Definition pick_step (o : Fields) (acc : Fields) (p : JsVal) : Fields :=
  match p with
  | JStr k =>
      match assoc k o with
      | Some v => obj_set k v acc
      | None => acc
      end
  | _ => acc
  end.

Definition pick (o : Fields) (props : list JsVal) : Fields :=
  fold_left (pick_step o) props [].

(** [ToNumber] on the values a change count can be ([None] is [NaN]); text
    is read as a plain decimal integer. *)
Definition digit_val (c : ascii) : option Z :=
  let n := nat_of_ascii c in
  if (48 <=? n)%nat && (n <=? 57)%nat then Some (Z.of_nat (n - 48)) else None.

Fixpoint digits_val (acc : Z) (s : string) : option Z :=
  match s with
  | EmptyString => Some acc
  | String c s' =>
      match digit_val c with
      | Some d => digits_val (10 * acc + d) s'
      | None => None
      end
  end.

Definition to_number (v : JsVal) : option Z :=
  match v with
  | JUndefined | JNaN | JObj _ => None
  | JNull => Some 0%Z
  | JBool b => Some (if b then 1 else 0)%Z
  | JNum n => Some n
  | JStr s => digits_val 0 s
  | JArr [] => Some 0%Z
  | JArr _ => None
  end.

(** [v < 1] *)
Definition lt_one (v : JsVal) : bool :=
  match to_number v with
  | Some n => (n <? 1)%Z
  | None => false
  end.

End Js.
Import Js.

(* ===================================================================== *)
(** ** The password policy *)
(* ===================================================================== *)

Module PassRegEx.

Definition in_range (lo hi : nat) (c : ascii) : bool :=
  let n := nat_of_ascii c in (lo <=? n)%nat && (n <=? hi)%nat.

(** [[a-z]], [[A-Z]], [\d], [[a-zA-Z\d]] *)
Definition lower (c : ascii) : bool := in_range 97 122 c.
Definition upper (c : ascii) : bool := in_range 65 90 c.
Definition digit (c : ascii) : bool := in_range 48 57 c.
Definition alnum (c : ascii) : bool := lower c || upper c || digit c.

(** What [.] refuses without the [s] flag *)
Definition line_terminator (c : ascii) : bool :=
  let n := nat_of_ascii c in (n =? 10)%nat || (n =? 13)%nat.

(** [(?=.*[cls])] at the start of [s]: some character of the class is
    reachable over characters [.] accepts. *)
Fixpoint lookahead (cls : ascii -> bool) (s : string) : bool :=
  match s with
  | EmptyString => false
  | String c s' => cls c || (negb (line_terminator c) && lookahead cls s')
  end.

Fixpoint all_chars (cls : ascii -> bool) (s : string) : bool :=
  match s with
  | EmptyString => true
  | String c s' => cls c && all_chars cls s'
  end.

Fixpoint some_char (cls : ascii -> bool) (s : string) : bool :=
  match s with
  | EmptyString => false
  | String c s' => cls c || some_char cls s'
  end.

(** [[a-zA-Z\d]{8,}$] from the start of [s] *)
Definition body (s : string) : bool :=
  all_chars alnum s && (8 <=? String.length s)%nat.

(** [/^(?=.*[a-z])(?=.*[A-Z])(?=.*\d)[a-zA-Z\d]{8,}$/.test(s)] *)
Definition test (s : string) : bool :=
  lookahead lower s && lookahead upper s && lookahead digit s && body s.

End PassRegEx.

(* ===================================================================== *)
(** ** Collaborators, errors and the log of calls *)
(* ===================================================================== *)

(** What a call can be rejected with: the error classes the two files
    throw, the [TypeError] of reading a property of [undefined] or [null],
    and whatever a collaborator rejects with. *)
Inductive Error : Type :=
| AuthError
| SubAccountCreatingError
| SubAccountUpdatingError
| UserRemovingError
| TypeError
| Rejection (reason : JsVal).

Inductive Res (A : Type) : Type :=
| Ok (a : A)
| Err (e : Error).
Arguments Ok {A} a.
Arguments Err {A} e.

(** [TABLES_NAMES] *)
Inductive Table := USERS | SUB_ACCOUNTS | LEDGERS.

(** Every method of [dao], [crypto] and [rService] the two files call, with
    its arguments. *)
Inductive ExtCall : Type :=
| RCheckAuthInApi (args : JsVal)
| DaoGetUser (filter params : JsVal)
| DaoInsertElemsToDb (table : Table) (auth data : JsVal)
| DaoInsertElemToDb (table : Table) (obj : JsVal)
| DaoUpdateCollBy (table : Table) (filter data : JsVal)
| DaoRemoveElemsFromDb (table : Table) (auth filter : JsVal)
| DaoTransBegin
| DaoTransCommit
| DaoTransRollback
| CryptoEncrypt (decryptedStr password : JsVal)
| CryptoDecrypt (encryptedStr password : JsVal)
| CryptoHashPassword (password : JsVal)
| CryptoVerifyPassword (password hash : JsVal)
| CryptoGenerateJWT (payload : JsVal)
| CryptoVerifyJWT (token : JsVal).

Definition Event : Type := ExtCall * Res JsVal.

(** Calls that change what storage holds. *)
Definition is_write (c : ExtCall) : bool :=
  match c with
  | DaoInsertElemsToDb _ _ _ | DaoInsertElemToDb _ _
  | DaoUpdateCollBy _ _ _ | DaoRemoveElemsFromDb _ _ _
  | DaoTransBegin | DaoTransCommit | DaoTransRollback => true
  | _ => false
  end.

Definition is_storage (c : ExtCall) : bool :=
  match c with
  | DaoGetUser _ _ => true
  | _ => is_write c
  end.

Definition is_crypto (c : ExtCall) : bool :=
  match c with
  | CryptoEncrypt _ _ | CryptoDecrypt _ _ | CryptoHashPassword _
  | CryptoVerifyPassword _ _ | CryptoGenerateJWT _ | CryptoVerifyJWT _ => true
  | _ => false
  end.

(** The collaborators injected into the two classes, and the helpers the
    files import from modules that are not among the sources
    ([../dao/helpers], [../../helpers]). *)
Record Env : Type := {
  Ext : Type;
  oracle : ExtCall -> Ext -> Res JsVal * Ext;
  secretKey : JsVal;                          (* crypto.getSecretKey() *)
  serializeVal : JsVal -> JsVal;
  isSubAccountApiKeys : JsVal -> bool;
  getSubAccountAuthFromAuth : JsVal -> JsVal
}.

(** *** The session [Map]

    The keys are compared by structure.  That is how a [Map] compares
    numbers, strings and the other values it compares by value, the keys
    this code stores under; two objects of equal content are one key
    here and two keys of a [Map]. *)

Definition SessionMap := list (JsVal * JsVal).

Fixpoint map_get (k : JsVal) (m : SessionMap) : option JsVal :=
  match m with
  | [] => None
  | (k', v) :: m' => if val_eqb k k' then Some v else map_get k m'
  end.

Fixpoint map_set (k v : JsVal) (m : SessionMap) : SessionMap :=
  match m with
  | [] => [(k, v)]
  | (k', v') :: m' =>
      if val_eqb k k' then (k', v) :: m' else (k', v') :: map_set k v m'
  end.

Fixpoint map_delete (k : JsVal) (m : SessionMap) : SessionMap :=
  match m with
  | [] => []
  | (k', v') :: m' =>
      if val_eqb k k' then m' else (k', v') :: map_delete k m'
  end.

(** What a run can observe and change: the state of the collaborators, the
    session map and the log of the calls made so far with their answers.
    The log survives a rejection, so that "rejects before any call" can be
    stated. *)
Record WorldOf (E : Type) : Type := {
  ext : E;
  sessions : SessionMap;                       (* this.userSessions *)
  trace : list Event
}.
Arguments ext {E} w.
Arguments sessions {E} w.
Arguments trace {E} w.

(** *** How the methods read their arguments *)

(** [{ x = true } = { ...params }]: the default stands in for [undefined]. *)
Definition with_default (v dflt : JsVal) : JsVal :=
  match v with JUndefined => dflt | _ => v end.

(** [args.auth.k] as the methods read it *)
Definition authField (args : JsVal) (k : string) : JsVal :=
  field (spread (field (spread args) "auth")) k.

Definition paramField (params : JsVal) (k : string) : JsVal :=
  field (spread params) k.

(** [args.params.k] as [createSubAccount] and [updateSubAccount] read it *)
Definition requestParam (args : JsVal) (k : string) : JsVal :=
  field (spread (field (spread args) "params")) k.

(** An entry of the desired list given as a bare pair of keys. *)
Definition raw_keys (subUserAuth : JsVal) : Prop :=
  truthy (js_or (str_field (field (spread subUserAuth) "email"))
                (str_field (field (spread subUserAuth) "token"))) = false
  /\ field (spread subUserAuth) "apiKey" <> JUndefined.

(** *** Kinds of calls *)

(** The calls [verifyUser] can make, and those of its email-and-password
    branch. *)
Definition verify_call (c : ExtCall) : bool :=
  match c with
  | DaoGetUser _ _ | CryptoDecrypt _ _ | CryptoVerifyPassword _ _
  | CryptoVerifyJWT _ => true
  | _ => false
  end.

Definition password_call (c : ExtCall) : bool :=
  match c with
  | DaoGetUser _ _ | CryptoDecrypt _ _ | CryptoVerifyPassword _ _ => true
  | _ => false
  end.

(** The calls [generateAuthJWT] can make. *)
Definition token_call (c : ExtCall) : bool :=
  match c with
  | CryptoEncrypt _ _ | CryptoGenerateJWT _ => true
  | _ => false
  end.

Definition is_sign (c : ExtCall) : bool :=
  match c with CryptoGenerateJWT _ => true | _ => false end.

Definition is_update (c : ExtCall) : bool :=
  match c with DaoUpdateCollBy _ _ _ => true | _ => false end.

Definition is_remove (c : ExtCall) : bool :=
  match c with DaoRemoveElemsFromDb _ _ _ => true | _ => false end.

Definition is_link (c : ExtCall) : bool :=
  match c with DaoInsertElemToDb SUB_ACCOUNTS _ => true | _ => false end.

(** The upstream check of the keys whose [apiKey] is [k]. *)
Definition is_check_of (k : string) (c : ExtCall) : bool :=
  match c with
  | RCheckAuthInApi args => strict_eq (authField args "apiKey") (JStr k)
  | _ => false
  end.

Definition not_update (c : ExtCall) : bool := negb (is_update c).

Definition not_remove (c : ExtCall) : bool := negb (is_remove c).

Definition not_write (c : ExtCall) : bool := negb (is_write c).

(** The calls [signUp] can make. *)
Definition signUp_call (c : ExtCall) : bool :=
  match c with
  | RCheckAuthInApi _ | DaoGetUser _ _ | DaoInsertElemsToDb _ _ _
  | CryptoEncrypt _ _ | CryptoDecrypt _ _ | CryptoHashPassword _
  | CryptoGenerateJWT _ => true
  | _ => false
  end.

Definition any_call (c : ExtCall) : bool := true.

Definition count_calls (P : ExtCall -> bool) (evs : list Event) : nat :=
  length (filter (fun ev => P (fst ev)) evs).

(** *** What the methods hand to their collaborators *)

(** The two calls of [createUser]: the insertion of the row and the read
    of it by email that follows. *)
Definition insertUser (data : JsVal) : ExtCall :=
  DaoInsertElemsToDb USERS JNull (JArr [data]).

Definition rereadUser (data : JsVal) : ExtCall :=
  DaoGetUser (JObj [("email", field (spread data) "email")])
             (JObj [("isNotSubAccount", JBool true)]).

(** [user && typeof user === 'object' && Number.isInteger(user._id)] *)
Definition has_integer_id (user : JsVal) : bool :=
  truthy user && is_object user && isInteger (field (spread user) "_id").

(** The auth object and the parameters [signIn] hands to [verifyUser], the
    upstream check it makes with the keys of the verified row, and the
    update of the row with what upstream answered. *)
Definition signInAuth (args : JsVal) : JsVal :=
  JObj [("auth", JObj [("email", authField args "email");
                       ("password", authField args "password");
                       ("isSubAccount", authField args "isSubAccount");
                       ("jwt", authField args "jwt")])].

Definition signInParams : JsVal :=
  JObj [("isDecryptedApiKeys", JBool true);
        ("isReturnedPassword", JBool true)].

Definition signInCheck (user : JsVal) : ExtCall :=
  RCheckAuthInApi
    (JObj [("auth", JObj [("apiKey", field (spread user) "apiKey");
                          ("apiSecret", field (spread user) "apiSecret")])]).

Definition signInUpdate (env : Env) (params user fromApi : JsVal) : ExtCall :=
  DaoUpdateCollBy USERS
    (JObj [("_id", field (spread user) "_id");
           ("email", field (spread user) "email")])
    (JObj [ ("id", field (spread fromApi) "id");
            ("timezone", field (spread fromApi) "timezone");
            ("username", field (spread fromApi) "username");
            ("email", field (spread fromApi) "email");
            ("active", serializeVal env
               (with_default (paramField params "active") (JBool true)));
            ("isDataFromDb", serializeVal env
               (with_default (paramField params "isDataFromDb")
                  (JBool true))) ]).

(** The session entry [setUserSession] stores. *)
Definition sessionEntry (_id email jwt : JsVal) : JsVal :=
  JObj [("_id", _id); ("email", email); ("jwt", jwt)].

(** The auth object and the parameters [createSubAccount] hands to
    [verifyUser] for the master. *)
Definition masterAuth (args : JsVal) : JsVal :=
  JObj [("auth", JObj [("email", authField args "email");
                       ("password", authField args "password");
                       ("token", authField args "token")])].

Definition masterParams : JsVal :=
  JObj [("projection",
         JArr [JStr "id"; JStr "email"; JStr "apiKey"; JStr "apiSecret";
               JStr "timezone"; JStr "username"; JStr "password"]);
        ("isDecryptedApiKeys", JBool true);
        ("isReturnedPassword", JBool true)].

(** *** The variables of the two loops *)

(** The variables of the loop of [createSubAccount]. *)
Record CreateState : Type := {
  subUsers : list JsVal;
  isSubUserFromMasterCreated : bool;
  subUsersCount : nat
}.

Definition createInit : CreateState :=
  {| subUsers := []; isSubUserFromMasterCreated := false;
     subUsersCount := 0 |}.

(** The variables of the loop of [updateSubAccount]. *)
Record UpdateState : Type := {
  processedSubUsers : list JsVal;
  addedSubUsers : list JsVal
}.

Definition updateInit : UpdateState :=
  {| processedSubUsers := []; addedSubUsers := [] |}.

(** *** A collaborator that replays recorded answers

    Used to run the code on concrete inputs: the state is the list of the
    answers still to give, handed out in order whatever the call. *)

Definition replay (c : ExtCall) (script : list (Res JsVal))
  : Res JsVal * list (Res JsVal) :=
  match script with
  | [] => (Err (Rejection JUndefined), [])
  | r :: rest => (r, rest)
  end.

Definition start (script : list (Res JsVal)) : WorldOf (list (Res JsVal)) :=
  {| ext := script; sessions := []; trace := [] |}.

(** *** Stand-ins for the imported helpers

    [isSubAccountApiKeys] and [getSubAccountAuthFromAuth] of [../../helpers]
    and [serializeVal] of [../dao/helpers] are parameters of the program
    ([Env]).  The concrete runs take these: the keys of a sub-account are
    keys that end in [-sub-account], and booleans are stored as 0 and 1. *)

Definition suffix : string := "-sub-account".

Fixpoint ends_with (s suf : string) : bool :=
  (s =? suf) ||
  match s with
  | EmptyString => false
  | String _ s' => ends_with s' suf
  end.

Definition demo_isSubAccountApiKeys (auth : JsVal) : bool :=
  match field (spread auth) "apiKey", field (spread auth) "apiSecret" with
  | JStr k, JStr s => ends_with k suffix && ends_with s suffix
  | _, _ => false
  end.

Definition demo_getSubAccountAuthFromAuth (auth : JsVal) : JsVal :=
  match field (spread auth) "apiKey", field (spread auth) "apiSecret" with
  | JStr k, JStr s =>
      JObj [("apiKey", JStr (k ++ suffix)); ("apiSecret", JStr (s ++ suffix))]
  | _, _ => JObj (spread auth)
  end.

Definition demo_serializeVal (v : JsVal) : JsVal :=
  match v with
  | JBool true => JNum 1
  | JBool false => JNum 0
  | _ => v
  end.

Definition demo_env : Env := {|
  Ext := list (Res JsVal);
  oracle := replay;
  secretKey := JStr "process-secret";
  serializeVal := demo_serializeVal;
  isSubAccountApiKeys := demo_isSubAccountApiKeys;
  getSubAccountAuthFromAuth := demo_getSubAccountAuthFromAuth
|}.

(** Helpers that take no pair of keys for those of a sub-account, so that
    the loop of [createSubAccount] can be reached. *)
Definition lenient_env : Env := {|
  Ext := list (Res JsVal);
  oracle := replay;
  secretKey := JStr "process-secret";
  serializeVal := demo_serializeVal;
  isSubAccountApiKeys := fun _ => false;
  getSubAccountAuthFromAuth := demo_getSubAccountAuthFromAuth
|}.

(** *** Recorded interactions

    The rows, answers and requests of the concrete runs below. *)

Definition master_row : JsVal :=
  JObj [ ("_id", JNum 1); ("id", JNum 100); ("email", JStr "master@x.io");
         ("apiKey", JStr "enc-master-key");
         ("apiSecret", JStr "enc-master-secret");
         ("timezone", JStr "UTC"); ("username", JStr "master");
         ("passwordHash", JStr "hash-1"); ("isSubAccount", JBool false) ].

Definition upstream_master : JsVal :=
  JObj [ ("id", JNum 100); ("timezone", JStr "UTC");
         ("username", JStr "master"); ("email", JStr "master@x.io") ].

Definition token_payload : JsVal :=
  JObj [ ("_id", JNum 1); ("email", JStr "master@x.io");
         ("encryptedPassword", JStr "enc-password") ].

Definition changes (n : Z) : JsVal := JObj [("changes", JNum n)].

(** [getUser], the two [decrypt] of the keys, [verifyPassword] *)
Definition answers_password : list (Res JsVal) :=
  [ Ok master_row; Ok (JStr "master-key"); Ok (JStr "master-secret");
    Ok (JBool true) ].

(** [verifyJWT], [decrypt] of the password, then as above *)
Definition answers_token : list (Res JsVal) :=
  [ Ok token_payload; Ok (JStr "Passw0rd1") ] ++ answers_password.

Definition auth_password : JsVal :=
  JObj [("auth", JObj [("email", JStr "master@x.io");
                       ("password", JStr "Passw0rd1")])].

Definition auth_token : JsVal :=
  JObj [("auth", JObj [("jwt", JStr "jwt-1")])].

Definition auth_both : JsVal :=
  JObj [("auth", JObj [("email", JStr "master@x.io");
                       ("password", JStr "Passw0rd1");
                       ("jwt", JStr "jwt-1")])].

Definition auth_email_only : JsVal :=
  JObj [("auth", JObj [("email", JStr "master@x.io");
                       ("jwt", JStr "")])].

Definition decrypting : JsVal := JObj [("isDecryptedApiKeys", JBool true)].

Definition payload_plain : JsVal :=
  JObj [("_id", JNum 1); ("email", JStr "a@x.io");
        ("password", JStr "Passw0rd1")].

Definition signup_request (password : string) : JsVal :=
  JObj [("auth", JObj [("apiKey", JStr "key-a"); ("apiSecret", JStr "secret-a");
                       ("password", JStr password)])].

Definition upstream_a : JsVal :=
  JObj [ ("id", JNum 200); ("timezone", JStr "UTC");
         ("username", JStr "alice"); ("email", JStr "a@x.io") ].

Definition new_row (_id : Z) : JsVal :=
  JObj [("_id", JNum _id); ("isSubAccount", JBool false)].

(** The answers to one [signUp]: the upstream check, the search of the
    email (nobody), the four results of crypto, the insertion, the read of
    the new row, the signed token. *)
Definition answers_signUp (upstream : JsVal) (_id : Z) (jwt : string)
  : list (Res JsVal) :=
  [ Ok upstream; Ok JUndefined;
    Ok (JStr "enc-key"); Ok (JStr "enc-secret"); Ok (JStr "enc-password");
    Ok (JStr "hash");
    Ok JUndefined; Ok (new_row _id); Ok (JStr jwt) ].

Definition user_data : JsVal :=
  JObj [("email", JStr "a@x.io"); ("username", JStr "alice")].

(** A sign-in with email and password: the master is verified, upstream
    answers, one row is updated, the password is encrypted and a token
    signed. *)
Definition answers_signIn : list (Res JsVal) :=
  answers_password ++
  [ Ok upstream_master; Ok (changes 1);
    Ok (JStr "enc-password"); Ok (JStr "jwt-2") ].

(** Sub-users as [updateSubAccount] expects to find them on the
    aggregate. *)
Definition sub_user (_id : Z) (key secret : string) : JsVal :=
  JObj [("_id", JNum _id); ("apiKey", JStr key); ("apiSecret", JStr secret)].

Definition aggregate : JsVal :=
  JObj [("_id", JNum 9); ("email", JStr "master@x.io")].

Definition create_request (subAccountApiKeys : JsVal) : JsVal :=
  JObj [("auth", JObj [("email", JStr "master@x.io");
                       ("password", JStr "Passw0rd1")]);
        ("params", JObj [("subAccountApiKeys", subAccountApiKeys)])].

(** The master as [createSubAccount] holds it once verified. *)
Definition verified_master : JsVal :=
  JObj [ ("id", JNum 100); ("email", JStr "master@x.io");
         ("apiKey", JStr "master-key"); ("apiSecret", JStr "master-secret");
         ("timezone", JStr "UTC"); ("username", JStr "master");
         ("password", JStr "Passw0rd1") ].

Definition keys_a : JsVal :=
  JObj [("apiKey", JStr "key-a"); ("apiSecret", JStr "secret-a")].

Definition keys_c : JsVal :=
  JObj [("apiKey", JStr "key-c"); ("apiSecret", JStr "secret-c")].

(** The answers to [createSubAccount] for the desired list [[a; a]]: the
    master is verified, the transaction opened, the aggregate signed up,
    then one sign-up and one link for each entry of the processing list
    (the pair [a], the pair [a] again, the master after its
    verification), and the commit. *)
Definition answers_create_twice : list (Res JsVal) :=
  answers_password
  ++ [Ok JUndefined]
  ++ answers_signUp upstream_master 10 "jwt-10"
  ++ answers_signUp upstream_a 11 "jwt-11" ++ [Ok JUndefined]
  ++ answers_signUp upstream_a 12 "jwt-12" ++ [Ok JUndefined]
  ++ answers_password
  ++ answers_signUp upstream_master 13 "jwt-13" ++ [Ok JUndefined]
  ++ [Ok JUndefined].

(** The same call on a storage that finds, when the pair [a] comes again,
    the row inserted for it a moment before: the second sign-up is
    refused and the transaction rolled back. *)
Definition answers_create_found : list (Res JsVal) :=
  answers_password
  ++ [Ok JUndefined]
  ++ answers_signUp upstream_master 10 "jwt-10"
  ++ answers_signUp upstream_a 11 "jwt-11" ++ [Ok JUndefined]
  ++ [Ok upstream_a; Ok (new_row 11)]
  ++ [Ok JUndefined].

Definition update_request : JsVal :=
  JObj [("auth", JObj [("email", JStr "master@x.io");
                       ("password", JStr "Passw0rd1")]);
        ("params", JObj [("subAccountApiKeys", JArr [keys_c])])].

(** The aggregate of a group with its sub-users (the master and [b]), as
    [updateSubAccount] expects [signIn] to answer it. *)
Definition master_member : JsVal :=
  JObj [ ("_id", JNum 1); ("id", JNum 100); ("email", JStr "master@x.io");
         ("apiKey", JStr "master-key"); ("apiSecret", JStr "master-secret");
         ("password", JStr "Passw0rd1") ].

Definition full_aggregate : JsVal :=
  JObj [ ("_id", JNum 9); ("email", JStr "master@x.io");
         ("apiKey", JStr "master-key-sub-account");
         ("apiSecret", JStr "master-secret-sub-account");
         ("password", JStr "Passw0rd1");
         ("subUsers", JArr [master_member; sub_user 2 "key-b" "secret-b"]) ].

Definition upstream_c : JsVal :=
  JObj [ ("id", JNum 300); ("timezone", JStr "UTC");
         ("username", JStr "carol"); ("email", JStr "c@x.io") ].

(** The answers to [reconcile] for the desired list [[c]]: the sign-up of
    [c] and its link, the verification of the master, the removal of one
    row, the update of the ledgers. *)
Definition answers_reconcile : list (Res JsVal) :=
  answers_signUp upstream_c 3 "jwt-3" ++ [Ok JUndefined]
  ++ answers_password
  ++ [Ok (changes 1); Ok (changes 4)].

Definition is_ledger_update (c : ExtCall) : bool :=
  match c with DaoUpdateCollBy LEDGERS _ _ => true | _ => false end.

(** The data of a session as [createSubAccount] hands it to
    [setUserSession], a later one for the same identity, and a cache that
    holds two sessions. *)
Definition session_data : JsVal :=
  JObj [ ("_id", JNum 1); ("email", JStr "master@x.io");
         ("jwt", JStr "jwt-1"); ("subUsers", JArr []) ].

Definition session_data_later : JsVal :=
  JObj [ ("_id", JNum 1); ("email", JStr "master@x.io");
         ("jwt", JStr "jwt-2") ].

Definition cached (script : list (Res JsVal)) : WorldOf (list (Res JsVal)) :=
  {| ext := script;
     sessions := [ (JNum 1, sessionEntry (JNum 1) (JStr "master@x.io")
                              (JStr "jwt-1"));
                   (JNum 2, sessionEntry (JNum 2) (JStr "b@x.io")
                              (JStr "jwt-b")) ];
     trace := [] |}.

Definition live : JsVal := JObj [("isFilledUsers", JBool true)].

(** A sign-out by email and password, to which storage answers nothing. *)
Definition answers_signOut (res : JsVal) : list (Res JsVal) :=
  [ Ok master_row; Ok (JBool true); Ok res ].


(** A sign-up for an email that storage already holds. *)
Definition answers_registered : list (Res JsVal) :=
  [ Ok upstream_a; Ok (new_row 11) ].

(** A row without sub-users, read with [isFilledSubUsers]: the read, the
    two keys of the row, the two keys of no one. *)
Definition filling : JsVal :=
  JObj [ ("isFilledSubUsers", JBool true); ("password", JStr "Passw0rd1") ].

Definition answers_filling : list (Res JsVal) :=
  [ Ok master_row; Ok (JStr "master-key"); Ok (JStr "master-secret");
    Ok (JStr "nothing"); Ok (JStr "nothing") ].

(** A request to recover the password of a group, and the aggregate and
    the user an authenticator answers. *)
Definition recover_request (isSubAccount : bool) : JsVal :=
  JObj [ ("auth", JObj [ ("apiKey", JStr "master-key");
                         ("apiSecret", JStr "master-secret");
                         ("newPassword", JStr "Passw0rd2");
                         ("isSubAccount", JBool isSubAccount) ]);
         ("params", JObj [("subAccountApiKeys", JArr [keys_a])]) ].

Definition recovered_aggregate : JsVal :=
  JObj [ ("_id", JNum 9); ("email", JStr "master@x.io");
         ("isSubAccount", JBool true); ("token", JStr "jwt-9");
         ("subUsers", JArr [sub_user 2 "key-a" "secret-a"]) ].

(** A request with the keys of a sub-account in its desired list. *)
Definition nested_request : JsVal :=
  create_request
    (JArr [JObj [ ("apiKey", JStr "key-a-sub-account");
                  ("apiSecret", JStr "secret-a-sub-account") ]]).

(** An entry of the desired list that names its identity by a token. *)
Definition token_entry : JsVal := JObj [("token", JStr "jwt-1")].

(** The two keys of one user, decrypted. *)
Definition answers_keys : list (Res JsVal) :=
  [ Ok (JStr "master-key"); Ok (JStr "master-secret") ].

(** Storage answers one user to [getUsers]; its keys are decrypted. *)
Definition all_users : JsVal :=
  JObj [ ("isFilledSubUsers", JBool true); ("password", JStr "Passw0rd1") ].

(** The transaction of [createSubAccount] for the desired list [[a; a]]
    on a storage that finds, when the pair [a] comes again, the row
    inserted for it a moment before; and the aggregate it is asked to
    sign up. *)
Definition answers_found_in_trans : list (Res JsVal) :=
  [Ok JUndefined]
  ++ answers_signUp upstream_master 10 "jwt-10"
  ++ answers_signUp upstream_a 11 "jwt-11" ++ [Ok JUndefined]
  ++ [Ok upstream_a; Ok (new_row 11)]
  ++ [Ok JUndefined].

Definition aggregate_auth : JsVal :=
  JObj [ ("id", JNum 100); ("email", JStr "master@x.io");
         ("apiKey", JStr "master-key-sub-account");
         ("apiSecret", JStr "master-secret-sub-account");
         ("timezone", JStr "UTC"); ("username", JStr "master");
         ("password", JStr "Passw0rd1") ].

(** A request that names the caller by a token only. *)
Definition token_request : JsVal :=
  JObj [("auth", JObj [("token", JStr "jwt-1")]);
        ("params", JObj [("subAccountApiKeys", JArr [keys_a])])].

(** A member of the recovered group, and a user that is not one. *)
Definition recovered_member : JsVal := sub_user 2 "key-a" "secret-a".

Definition recovered_stranger : JsVal := sub_user 7 "key-z" "secret-z".


(** The group of [master_member] and [b] at the end of the loop of
    [updateSubAccount]: as it was, and with [b] left out and [c] added. *)
Definition group_members : list JsVal :=
  [master_member; sub_user 2 "key-b" "secret-b"].

Definition group_unchanged : UpdateState :=
  {| processedSubUsers := group_members; addedSubUsers := [] |}.

Definition group_changed : UpdateState :=
  {| processedSubUsers := [master_member; sub_user 3 "key-c" "secret-c"];
     addedSubUsers := [sub_user 3 "key-c" "secret-c"] |}.


(** *** Trades, an audit and ledgers of position 42 *)

Definition trade_of (orderID execPrice : Z) : JsVal :=
  JObj [("orderID", JNum orderID); ("execPrice", JNum execPrice)].

Definition position_of (status : string) (amount : Z) : JsVal :=
  JObj [("status", JStr status); ("amount", JNum amount)].

Definition trades_two_orders : JsVal :=
  JArr [trade_of 11 105; trade_of 12 99].

Definition trades_one_order : JsVal :=
  JArr [trade_of 11 105; trade_of 11 104].

Definition audit_closed_active : JsVal :=
  JObj [("res", JArr [position_of "CLOSED" 0; position_of "ACTIVE" 3])].

Definition audit_active_only : JsVal :=
  JObj [("res", JArr [position_of "ACTIVE" 3; position_of "ACTIVE" 2])].

Definition audit_null_first : JsVal :=
  JObj [("res", JArr [JNull; position_of "CLOSED" 0;
                      position_of "ACTIVE" 3])].

Definition ledgers_settled : JsVal :=
  JArr [ JObj [("description", JStr "Trading fees for 3.0 BTC")];
         JObj [("description",
                JStr "Position #42 closed, Settlement @ 105.5")] ].


(** *** The desired list that names the master alone *)

Definition keys_master : JsVal :=
  JObj [("apiKey", JStr "master-key"); ("apiSecret", JStr "master-secret")].

(** The answers to the loop of [createSubAccount] over the pair of the
    master and the master itself: the sign-up of the pair and its link,
    the verification of the master, a second sign-up and link. *)
Definition answers_master_loop : list (Res JsVal) :=
  answers_signUp upstream_master 11 "jwt-11" ++ [Ok JUndefined]
  ++ answers_password
  ++ answers_signUp upstream_master 12 "jwt-12" ++ [Ok JUndefined].

(** The answers to [createSubAccount] for the desired list made of the
    pair of the master: the master is verified, the transaction opened,
    the aggregate signed up, the loop answered as above, and the
    commit. *)
Definition answers_master_alone : list (Res JsVal) :=
  answers_password
  ++ [Ok JUndefined]
  ++ answers_signUp upstream_master 10 "jwt-10"
  ++ answers_master_loop
  ++ [Ok JUndefined].

(** The same call on a storage that finds, at the last entry, the row
    inserted for the pair a moment before: the second sign-up is refused
    and the transaction rolled back. *)
Definition answers_master_found : list (Res JsVal) :=
  answers_password
  ++ [Ok JUndefined]
  ++ answers_signUp upstream_master 10 "jwt-10"
  ++ answers_signUp upstream_master 11 "jwt-11" ++ [Ok JUndefined]
  ++ answers_password
  ++ [Ok upstream_master; Ok (new_row 11)]
  ++ [Ok JUndefined].

Definition is_rollback (c : ExtCall) : bool :=
  match c with DaoTransRollback => true | _ => false end.

Definition is_commit (c : ExtCall) : bool :=
  match c with DaoTransCommit => true | _ => false end.

(* ===================================================================== *)
(** ** The monad of the asynchronous methods *)
(* ===================================================================== *)

Declare Scope m_scope.
Delimit Scope m_scope with m.

Section Program.

Variable env : Env.

Definition World : Type := WorldOf (Ext env).

Definition M (A : Type) : Type := World -> Res A * World.

Definition ret {A} (a : A) : M A := fun w => (Ok a, w).

Definition throw {A} (e : Error) : M A := fun w => (Err e, w).

Definition bind {A B} (m : M A) (k : A -> M B) : M B :=
  fun w =>
    match m w with
    | (Ok a, w') => k a w'
    | (Err e, w') => (Err e, w')
    end.

Notation "x <- m ;; k" := (bind m (fun x => k))
  (at level 100, m at next level, right associativity) : m_scope.
Notation "m1 ;;; m2" := (bind m1 (fun _ => m2))
  (at level 100, right associativity) : m_scope.
Local Open Scope m_scope.

(** [await collaborator.method(args)] *)
Definition call (c : ExtCall) : M JsVal :=
  fun w =>
    let (r, e') := oracle env c (ext w) in
    (r, {| ext := e'; sessions := sessions w;
           trace := trace w ++ [(c, r)] |}).

(** [const { a, b } = v]: reading properties of [undefined] or [null]
    throws.  The properties read in these two files are own properties
    ([length] and inherited ones are never asked for), so what is read of
    any other value is what [{ ...v }] would hold. *)
Definition destructure (v : JsVal) : M Fields :=
  match v with
  | JUndefined | JNull => throw TypeError
  | _ => ret (spread v)
  end.

(** [v.k] *)
Definition get (v : JsVal) (k : string) : M JsVal :=
  o <- destructure v ;; ret (field o k).

(** [await Promise.all(promises)]: every call is issued, in the order of
    the array; the rejection that comes first in that order is the one
    reported. *)
Fixpoint promise_all (ms : list (M JsVal)) : M (list JsVal) :=
  match ms with
  | [] => ret []
  | m :: ms' =>
      fun w =>
        let (r, w1) := m w in
        let (rs, w2) := promise_all ms' w1 in
        (match r, rs with
         | Ok a, Ok l => Ok (a :: l)
         | Err e, _ => Err e
         | Ok _, Err e => Err e
         end, w2)
  end.

(* ===================================================================== *)
(** ** Authenticator *)
(* ===================================================================== *)

(** [isSecurePassword (password)]: [this.passRegEx.test(password)]; its
    callers pass a string. *)
Definition isSecurePassword (password : JsVal) : bool :=
  match password with
  | JStr s => PassRegEx.test s
  | _ => false
  end.

Definition pick_item (props : list JsVal) (item : JsVal) : JsVal :=
  if negb (truthy item) || negb (is_object item)
  then item
  else JObj (pick (spread item) props).

(** [excludeProps (data, props)] *)
Definition excludeProps (data props : JsVal) : JsVal :=
  match props with
  | JArr (p :: ps) =>
      match data with
      | JArr l => JArr (map (pick_item (p :: ps)) l)
      | _ => pick_item (p :: ps) data
      end
  | _ => data
  end.

Definition decrypt_calls (password : JsVal) (users : list JsVal)
  : list (M JsVal) :=
  flat_map (fun user =>
    [ call (CryptoDecrypt (field (spread user) "apiKey") password);
      call (CryptoDecrypt (field (spread user) "apiSecret") password) ])
    users.

Fixpoint with_keys (users keys : list JsVal) : list JsVal :=
  match users with
  | [] => []
  | user :: users' =>
      JObj (obj_set "apiSecret" (nth 1 keys JUndefined)
             (obj_set "apiKey" (nth 0 keys JUndefined) (spread user)))
      :: with_keys users' (skipn 2 keys)
  end.

(** [decryptApiKeys (password, users)] *)
Definition decryptApiKeys (password users : JsVal) : M JsVal :=
  let _users := match users with JArr l => l | _ => [users] end in
  decryptedApiKeys <- promise_all (decrypt_calls password _users) ;;
  let res := with_keys _users decryptedApiKeys in
  ret (match users with
       | JArr _ => JArr res
       | _ => nth 0 res JUndefined
       end).

(** [getUser (filter, params)] *)
Definition getUser (filter params : JsVal) : M JsVal :=
  let p := spread params in
  let isFilledSubUsers := field p "isFilledSubUsers" in
  let projection := field p "projection" in
  let password := field p "password" in
  _user <- call (DaoGetUser filter params) ;;
  let user := excludeProps _user projection in
  if negb (truthy password) || negb (is_string password)
  then ret user
  else
    decryptedUser <- decryptApiKeys password user ;;
    if negb (truthy isFilledSubUsers)
    then ret decryptedUser
    else
      let subUsers := field (spread decryptedUser) "subUsers" in
      decryptedSubUsers <- decryptApiKeys password subUsers ;;
      ret (JObj (obj_set "subUsers" decryptedSubUsers (spread decryptedUser))).

Definition pwdParam (isDecryptedApiKeys password : JsVal) : Fields :=
  if truthy isDecryptedApiKeys then [("password", password)] else [].

(** The branch of [verifyUser] taken for an email and a password. *)
Definition verifyByPassword
  (email password isSubAccount projection isFilledSubUsers
   isDecryptedApiKeys isReturnedPassword : JsVal) : M JsVal :=
  _user <- getUser
    (JObj [("email", email)])
    (JObj (obj_merge
       [ ("isNotSubAccount", JBool (negb (truthy isSubAccount)));
         ("isSubAccount", isSubAccount);
         ("isFilledSubUsers", isFilledSubUsers) ]
       (pwdParam isDecryptedApiKeys password))) ;;
  let passwordHash := field (spread _user) "passwordHash" in
  let user := excludeProps _user projection in
  call (CryptoVerifyPassword password passwordHash) ;;;
  ret (JObj (obj_set "password"
               (if truthy isReturnedPassword then password else JNull)
               (spread user))).

(** The branch of [verifyUser] taken for a token. *)
Definition verifyByToken
  (jwt projection isFilledSubUsers isDecryptedApiKeys
   isReturnedPassword : JsVal) : M JsVal :=
  payload <- call (CryptoVerifyJWT jwt) ;;
  pl <- destructure payload ;;
  let _id := field pl "_id" in
  let emailFromJWT := field pl "email" in
  let encryptedPassword := field pl "encryptedPassword" in
  decryptedPassword <- call (CryptoDecrypt encryptedPassword (secretKey env)) ;;
  _user <- getUser
    (JObj [("_id", _id); ("email", emailFromJWT)])
    (JObj (obj_merge
       [ ("isFilledSubUsers", isFilledSubUsers) ]
       (pwdParam isDecryptedApiKeys decryptedPassword))) ;;
  let passwordHash := field (spread _user) "passwordHash" in
  call (CryptoVerifyPassword decryptedPassword passwordHash) ;;;
  let user := JObj (obj_set "password"
                      (if truthy isReturnedPassword
                       then decryptedPassword else JNull)
                      (spread _user)) in
  ret (excludeProps user projection).

(** [verifyUser (args, params)] *)
Definition verifyUser (args params : JsVal) : M JsVal :=
  let auth := spread (field (spread args) "auth") in
  let email := field auth "email" in
  let password := field auth "password" in
  let isSubAccount := field auth "isSubAccount" in
  let jwt := field auth "jwt" in
  let p := spread params in
  let projection := field p "projection" in
  let isFilledSubUsers := field p "isFilledSubUsers" in
  let isDecryptedApiKeys := field p "isDecryptedApiKeys" in
  let isReturnedPassword := field p "isReturnedPassword" in
  if valid_str email && valid_str password
  then verifyByPassword email password isSubAccount projection
         isFilledSubUsers isDecryptedApiKeys isReturnedPassword
  else if valid_str jwt
  then verifyByToken jwt projection isFilledSubUsers isDecryptedApiKeys
         isReturnedPassword
  else throw AuthError.

(** [createUser (data)] *)
Definition createUser (data : JsVal) : M JsVal :=
  let email := field (spread data) "email" in
  call (DaoInsertElemsToDb USERS JNull (JArr [data])) ;;;
  user <- getUser (JObj [("email", email)])
                  (JObj [("isNotSubAccount", JBool true)]) ;;
  if negb (truthy user) || negb (is_object user)
     || negb (isInteger (field (spread user) "_id"))
  then throw AuthError
  else ret user.

(** [setUserSession (data)] *)
Definition setUserSession (data : JsVal) : M unit :=
  let d := spread data in
  let _id := field d "_id" in
  fun w =>
    (Ok tt,
     {| ext := ext w;
        sessions := map_set _id
          (JObj [("_id", _id); ("email", field d "email");
                 ("jwt", field d "jwt")])
          (sessions w);
        trace := trace w |}).

(** [removeUserSessionById (id)] *)
Definition removeUserSessionById (id : JsVal) : M unit :=
  fun w =>
    (Ok tt,
     {| ext := ext w;
        sessions := map_delete id (sessions w);
        trace := trace w |}).

(** [generateAuthJWT (payload)] *)
Definition generateAuthJWT (payload : JsVal) : M JsVal :=
  let p := spread payload in
  let _id := field p "_id" in
  let email := field p "email" in
  let encryptedPassword := field p "encryptedPassword" in
  let password := field p "password" in
  let jwt := field p "jwt" in
  if valid_str email
  then
    if valid_str encryptedPassword
    then call (CryptoGenerateJWT
                 (JObj [("_id", _id); ("email", email);
                        ("encryptedPassword", encryptedPassword)]))
    else if valid_str password
    then
      encryptedPassword' <- call (CryptoEncrypt password (secretKey env)) ;;
      call (CryptoGenerateJWT
              (JObj [("_id", _id); ("email", email);
                     ("encryptedPassword", encryptedPassword')]))
    else throw AuthError
  else if valid_str jwt
  then ret jwt
  else throw AuthError.


(** The first test of [signUp]: a key, a secret or a password that is not
    a non-empty string, a password the policy refuses, or the keys of a
    sub-account. *)
Definition signUpRefused (args : JsVal) : bool :=
  let auth := spread (field (spread args) "auth") in
  let apiKey := field auth "apiKey" in
  let apiSecret := field auth "apiSecret" in
  let password := field auth "password" in
  negb (valid_str apiKey)
  || negb (valid_str apiSecret)
  || negb (valid_str password)
  || negb (isSecurePassword password)
  || isSubAccountApiKeys env
       (JObj [("apiKey", apiKey); ("apiSecret", apiSecret)]).

(** [signUp] past its first test. *)
Definition signUpAccepted (args params : JsVal) : M JsVal :=
  let auth := spread (field (spread args) "auth") in
  let apiKey := field auth "apiKey" in
  let apiSecret := field auth "apiSecret" in
  let password := field auth "password" in
  let p := spread params in
  let active := with_default (field p "active") (JBool true) in
  let isDataFromDb := with_default (field p "isDataFromDb") (JBool true) in
  fromApi <- call (RCheckAuthInApi args) ;;
  prof <- destructure fromApi ;;
  let email := field prof "email" in
  let timezone := field prof "timezone" in
  let username := field prof "username" in
  let id := field prof "id" in
  userFromDb <- getUser (JObj [("email", email)])
                        (JObj [("isNotSubAccount", JBool true)]) ;;
  if negb (truthy email)
     || negb (is_string email)
     || (truthy userFromDb && is_object userFromDb
         && isInteger (field (spread userFromDb) "_id"))
  then throw AuthError
  else
    encrypted <- promise_all
      [ call (CryptoEncrypt apiKey password);
        call (CryptoEncrypt apiSecret password);
        call (CryptoEncrypt password (secretKey env));
        call (CryptoHashPassword password) ] ;;
    let encryptedApiKey := nth 0 encrypted JUndefined in
    let encryptedApiSecret := nth 1 encrypted JUndefined in
    let encryptedPassword := nth 2 encrypted JUndefined in
    let passwordHash := nth 3 encrypted JUndefined in
    user <- createUser
      (JObj [ ("email", email);
              ("timezone", timezone);
              ("username", username);
              ("id", id);
              ("apiKey", encryptedApiKey);
              ("apiSecret", encryptedApiSecret);
              ("active", serializeVal env active);
              ("isDataFromDb", serializeVal env isDataFromDb);
              ("passwordHash", passwordHash) ]) ;;
    let _id := field (spread user) "_id" in
    let isSubAccount := field (spread user) "isSubAccount" in
    jwt <- generateAuthJWT
      (JObj [("_id", _id); ("email", email);
             ("encryptedPassword", encryptedPassword)]) ;;
    setUserSession
      (JObj [("_id", _id); ("email", email); ("jwt", jwt)]) ;;;
    ret (JObj [("email", email); ("isSubAccount", isSubAccount);
               ("jwt", jwt)]).

(** [signUp (args, params)] *)
Definition signUp (args params : JsVal) : M JsVal :=
  if signUpRefused args
  then throw AuthError
  else signUpAccepted args params.

(** [(email && typeof email === 'string') || emailFromApi !== emailFromDb
     ? emailFromApi : null] *)
Definition freshEmail (email emailFromApi emailFromDb : JsVal) : JsVal :=
  if valid_str email || negb (strict_eq emailFromApi emailFromDb)
  then emailFromApi
  else JNull.

(** [res && res.changes < 1] *)
Definition no_changes (res : JsVal) : bool :=
  truthy res && lt_one (field (spread res) "changes").

(** [signIn (args, params)] *)
Definition signIn (args params : JsVal) : M JsVal :=
  let auth := spread (field (spread args) "auth") in
  let email := field auth "email" in
  let password := field auth "password" in
  let isSubAccount := field auth "isSubAccount" in
  let jwt := field auth "jwt" in
  let p := spread params in
  let active := with_default (field p "active") (JBool true) in
  let isDataFromDb := with_default (field p "isDataFromDb") (JBool true) in
  user <- verifyUser
    (JObj [("auth", JObj [("email", email); ("password", password);
                          ("isSubAccount", isSubAccount); ("jwt", jwt)])])
    (JObj [("isDecryptedApiKeys", JBool true);
           ("isReturnedPassword", JBool true)]) ;;
  let u := spread user in
  let _id := field u "_id" in
  let emailFromDb := field u "email" in
  let isSubAccountFromDb := field u "isSubAccount" in
  let apiKey := field u "apiKey" in
  let apiSecret := field u "apiSecret" in
  let decryptedPassword := field u "password" in
  fromApi <- call (RCheckAuthInApi
    (JObj [("auth", JObj [("apiKey", apiKey); ("apiSecret", apiSecret)])])) ;;
  prof <- destructure fromApi ;;
  let id := field prof "id" in
  let timezone := field prof "timezone" in
  let username := field prof "username" in
  let emailFromApi := field prof "email" in
  res <- call (DaoUpdateCollBy USERS
    (JObj [("_id", _id); ("email", emailFromDb)])
    (JObj [ ("id", id);
            ("timezone", timezone);
            ("username", username);
            ("email", emailFromApi);
            ("active", serializeVal env active);
            ("isDataFromDb", serializeVal env isDataFromDb) ])) ;;
  if no_changes res
  then throw AuthError
  else
    resJWT <- generateAuthJWT
      (JObj [ ("_id", _id);
              ("email", freshEmail email emailFromApi emailFromDb);
              ("password", decryptedPassword);
              ("jwt", jwt) ]) ;;
    setUserSession
      (JObj [("_id", _id); ("email", emailFromApi); ("jwt", resJWT)]) ;;;
    ret (JObj [("email", emailFromApi);
               ("isSubAccount", isSubAccountFromDb);
               ("jwt", resJWT)]).

(** [signOut (args, params)] *)
Definition signOut (args params : JsVal) : M JsVal :=
  let auth := spread (field (spread args) "auth") in
  let email := field auth "email" in
  let password := field auth "password" in
  let isSubAccount := field auth "isSubAccount" in
  let jwt := field auth "jwt" in
  let active := with_default (field (spread params) "active") (JBool false) in
  user <- verifyUser
    (JObj [("auth", JObj [("email", email); ("password", password);
                          ("isSubAccount", isSubAccount); ("jwt", jwt)])])
    JUndefined ;;
  let _id := field (spread user) "_id" in
  let emailFromDb := field (spread user) "email" in
  res <- call (DaoUpdateCollBy USERS
    (JObj [("_id", _id); ("email", emailFromDb)])
    (JObj [("active", serializeVal env active)])) ;;
  if no_changes res
  then throw AuthError
  else
    removeUserSessionById _id ;;;
    ret (JBool true).

(* ===================================================================== *)
(** ** SubAccount *)
(* ===================================================================== *)

(** Modelled from the spec: [dao.executeQueriesInTrans], the transaction
    scope of the storage gateway, is not among the source files.
    "[runInTransaction(work)]: executes [work] with a handle that routes
    all its own storage calls into one atomic unit; on exception anywhere
    inside [work], all effects are rolled back; on normal return, all
    effects commit together."  Opening, committing and rolling back are
    calls to storage, which decides what they do to its state; the
    rejection of [work] is the rejection of the whole. *)
Definition executeQueriesInTrans {A} (work : M A) : M A :=
  call DaoTransBegin ;;;
  fun w =>
    match work w with
    | (Ok a, w') => (call DaoTransCommit ;;; ret a) w'
    | (Err e, w') => (Err e, snd (call DaoTransRollback w'))
    end.

(** [a.apiKey === b.apiKey && a.apiSecret === b.apiSecret] *)
Definition same_creds (a b : JsVal) : M bool :=
  ak <- get a "apiKey" ;;
  bk <- get b "apiKey" ;;
  if strict_eq ak bk
  then
    asec <- get a "apiSecret" ;;
    bsec <- get b "apiSecret" ;;
    ret (strict_eq asec bsec)
  else ret false.

(** [l.some(p)], [l.every(p)], [l.find(p)], [l.filter(p)], [l.map(f)] for
    callbacks that may throw *)
Fixpoint someM (p : JsVal -> M bool) (l : list JsVal) : M bool :=
  match l with
  | [] => ret false
  | x :: l' => b <- p x ;; if b then ret true else someM p l'
  end.

Fixpoint everyM (p : JsVal -> M bool) (l : list JsVal) : M bool :=
  match l with
  | [] => ret true
  | x :: l' => b <- p x ;; if b then everyM p l' else ret false
  end.

Fixpoint findM (p : JsVal -> M bool) (l : list JsVal) : M JsVal :=
  match l with
  | [] => ret JUndefined
  | x :: l' => b <- p x ;; if b then ret x else findM p l'
  end.

Fixpoint filterM (p : JsVal -> M bool) (l : list JsVal) : M (list JsVal) :=
  match l with
  | [] => ret []
  | x :: l' =>
      b <- p x ;;
      r <- filterM p l' ;;
      ret (if b then x :: r else r)
  end.

Fixpoint mapM (f : JsVal -> M JsVal) (l : list JsVal) : M (list JsVal) :=
  match l with
  | [] => ret []
  | x :: l' => y <- f x ;; r <- mapM f l' ;; ret (y :: r)
  end.

Definition items (v : JsVal) : list JsVal :=
  match v with JArr l => l | _ => [] end.

(** The projection both loops ask [verifyUser] for. *)
Definition subUserProjection : JsVal :=
  JArr [JStr "_id"; JStr "id"; JStr "email"; JStr "apiKey";
        JStr "apiSecret"; JStr "timezone"; JStr "username"].

(** The credentials an entry of the processing list stands for: checked
    in storage when it carries an email or a token, as given otherwise.
    The first component is [isAuthCheckedInDb]. *)
Definition resolveAuth (subUserAuth : JsVal) : M (JsVal * JsVal) :=
  let e := spread subUserAuth in
  let apiKey := field e "apiKey" in
  let apiSecret := field e "apiSecret" in
  let password := field e "password" in
  let email := field e "email" in
  let token := field e "token" in
  let isAuthCheckedInDb := js_or (str_field email) (str_field token) in
  auth <- (if truthy isAuthCheckedInDb
           then verifyUser
                  (JObj [("auth", JObj [("email", email);
                                        ("password", password);
                                        ("token", token)])])
                  (JObj [("projection", subUserProjection);
                         ("isDecryptedApiKeys", JBool true);
                         ("isNotInTrans", JBool true)])
           else ret (JObj [("apiKey", apiKey); ("apiSecret", apiSecret)])) ;;
  ret (isAuthCheckedInDb, auth).

(** [signUp] of one sub-user, as both loops call it. *)
Definition signUpSubUser
  (auth password isAuthCheckedInDb masterUser : JsVal) : M JsVal :=
  masterUserId <- get masterUser "id" ;;
  signUp
    (JObj [("auth", JObj (obj_set "password" password (spread auth)))])
    (JObj [ ("isDisabledApiKeysVerification", isAuthCheckedInDb);
            ("isReturnedFullUserData", JBool true);
            ("isNotSetSession", JBool true);
            ("isSubUser", JBool true);
            ("isNotInTrans", JBool true);
            ("masterUserId", masterUserId) ]).

(** [insertElemToDb (SUB_ACCOUNTS, { masterUserId, subUserId })] *)
Definition insertLink (_id subUser : JsVal) : M unit :=
  subUserId <- get subUser "_id" ;;
  call (DaoInsertElemToDb SUB_ACCOUNTS
          (JObj [("masterUserId", _id); ("subUserId", subUserId)])) ;;;
  ret tt.

(** One turn of [for (const subUserAuth of subUsersAuth)] in
    [createSubAccount]; [total] is [subUsersAuth.length]. *)
Definition createStep
  (masterUser _subAccountPassword _id : JsVal) (total : nat)
  (st : CreateState) (subUserAuth : JsVal) : M CreateState :=
  let count := S (subUsersCount st) in
  let isLastSubUser := (total =? count)%nat in
  ra <- resolveAuth subUserAuth ;;
  let isAuthCheckedInDb := fst ra in
  let auth := snd ra in
  guard <- (if isLastSubUser && isSubUserFromMasterCreated st
            then
              same <- same_creds masterUser auth ;;
              ret (same && (length (subUsers st) =? 1)%nat)
            else ret false) ;;
  if guard
  then throw SubAccountCreatingError
  else
    dup <- someM (same_creds auth) (subUsers st) ;;
    if dup
    then ret {| subUsers := subUsers st;
                isSubUserFromMasterCreated := isSubUserFromMasterCreated st;
                subUsersCount := count |}
    else
      subUser <- signUpSubUser auth _subAccountPassword isAuthCheckedInDb
                   masterUser ;;
      insertLink _id subUser ;;;
      fromMaster <- same_creds masterUser subUser ;;
      ret {| subUsers := subUsers st ++ [subUser];
             isSubUserFromMasterCreated :=
               if fromMaster then true else isSubUserFromMasterCreated st;
             subUsersCount := count |}.

Fixpoint createLoop
  (masterUser _subAccountPassword _id : JsVal) (total : nat)
  (subUsersAuth : list JsVal) (st : CreateState) : M CreateState :=
  match subUsersAuth with
  | [] => ret st
  | subUserAuth :: rest =>
      st' <- createStep masterUser _subAccountPassword _id total st
               subUserAuth ;;
      createLoop masterUser _subAccountPassword _id total rest st'
  end.

(** The callback given to [executeQueriesInTrans] by [createSubAccount]. *)
Definition createSubAccountTrans
  (masterUser _subAccountPassword subAccount : JsVal)
  (subAccountApiKeys : list JsVal) : M JsVal :=
  subAccountUser <- signUp
    (JObj [("auth", subAccount)])
    (JObj [ ("isDisabledApiKeysVerification", JBool true);
            ("isReturnedFullUserData", JBool true);
            ("isNotSetSession", JBool true);
            ("isSubAccount", JBool true);
            ("isNotInTrans", JBool true) ]) ;;
  su <- destructure subAccountUser ;;
  let _id := field su "_id" in
  let email := field su "email" in
  let token := field su "token" in
  let subUsersAuth := subAccountApiKeys ++ [masterUser] in
  st <- createLoop masterUser _subAccountPassword _id
          (length subUsersAuth) subUsersAuth createInit ;;
  setUserSession
    (JObj (obj_set "subUsers" (JArr (subUsers st)) (spread subAccountUser))) ;;;
  ret (JObj [("email", email); ("isSubAccount", JBool true);
             ("token", token)]).

(** The projection [createSubAccount] asks for the master. *)
Definition masterProjection : JsVal :=
  JArr [JStr "id"; JStr "email"; JStr "apiKey"; JStr "apiSecret";
        JStr "timezone"; JStr "username"; JStr "password"].

(** [isSubAccountApiKeys(masterUser) || !Array.isArray(subAccountApiKeys)
     || subAccountApiKeys.length === 0
     || subAccountApiKeys.some(isSubAccountApiKeys)] *)
Definition badCreateRequest (masterUser subAccountApiKeys : JsVal) : bool :=
  isSubAccountApiKeys env masterUser
  || negb (isArray subAccountApiKeys)
  || (length (items subAccountApiKeys) =? 0)%nat
  || existsb (isSubAccountApiKeys env) (items subAccountApiKeys).

(** [createSubAccount (args)] *)
Definition createSubAccount (args : JsVal) : M JsVal :=
  let a := spread args in
  let auth := spread (field a "auth") in
  let params := spread (field a "params") in
  let email := field auth "email" in
  let password := field auth "password" in
  let token := field auth "token" in
  let subAccountPassword := field params "subAccountPassword" in
  let subAccountApiKeys := field params "subAccountApiKeys" in
  masterUser <- verifyUser
    (JObj [("auth", JObj [("email", email); ("password", password);
                          ("token", token)])])
    (JObj [("projection", masterProjection);
           ("isDecryptedApiKeys", JBool true);
           ("isReturnedPassword", JBool true)]) ;;
  _subAccountPassword <-
    (if valid_str subAccountPassword
     then ret subAccountPassword
     else get masterUser "password") ;;
  if badCreateRequest masterUser subAccountApiKeys
  then throw SubAccountCreatingError
  else
    let subAccount :=
      JObj (obj_set "password" _subAccountPassword
              (obj_merge (spread masterUser)
                 (spread (getSubAccountAuthFromAuth env masterUser)))) in
    executeQueriesInTrans
      (createSubAccountTrans masterUser _subAccountPassword subAccount
         (items subAccountApiKeys)).

(** [subUsers.find(cb)] on whatever [subUsers] is *)
Definition find_in (subUsers : JsVal) (cb : JsVal -> M bool) : M JsVal :=
  match subUsers with
  | JArr l => findM cb l
  | _ => throw TypeError
  end.

(** One turn of [for (const subUserAuth of subUsersAuth)] in
    [updateSubAccount]. *)
Definition updateStep
  (subAccountUser masterUser _id subUsers : JsVal)
  (st : UpdateState) (subUserAuth : JsVal) : M UpdateState :=
  ra <- resolveAuth subUserAuth ;;
  let isAuthCheckedInDb := fst ra in
  let auth := snd ra in
  existedSubUser <- find_in subUsers (same_creds auth) ;;
  let isSubUserExisted :=
    js_and existedSubUser (JBool (is_object existedSubUser)) in
  isSubUserAddingSkiped <-
    (if truthy isSubUserExisted
     then ret true
     else
       isMaster <- same_creds masterUser auth ;;
       if isMaster
       then ret true
       else someM (same_creds auth) (processedSubUsers st)) ;;
  if isSubUserAddingSkiped
  then
    ret (if truthy isSubUserExisted
         then {| processedSubUsers := processedSubUsers st ++ [existedSubUser];
                 addedSubUsers := addedSubUsers st |}
         else st)
  else
    password <- get subAccountUser "password" ;;
    subUser <- signUpSubUser auth password isAuthCheckedInDb masterUser ;;
    insertLink _id subUser ;;;
    ret {| processedSubUsers := processedSubUsers st ++ [subUser];
           addedSubUsers := addedSubUsers st ++ [subUser] |}.

Fixpoint updateLoop
  (subAccountUser masterUser _id subUsers : JsVal)
  (subUsersAuth : list JsVal) (st : UpdateState) : M UpdateState :=
  match subUsersAuth with
  | [] => ret st
  | subUserAuth :: rest =>
      st' <- updateStep subAccountUser masterUser _id subUsers st
               subUserAuth ;;
      updateLoop subAccountUser masterUser _id subUsers rest st'
  end.

(** [subUsers.filter(subUser => processedSubUsers.every(p =>
      p.apiKey !== subUser.apiKey || p.apiSecret !== subUser.apiSecret))] *)
Definition removingOf (subUsers processed : list JsVal) : M (list JsVal) :=
  filterM (fun subUser =>
    everyM (fun p => same <- same_creds p subUser ;; ret (negb same))
           processed)
    subUsers.

(** What [updateSubAccount] does once its loop is over: the removal of the
    sub-users left out, the invalidation of the ledger balances, the
    session and the answer. *)
Definition updateFinish
  (subAccountUser _id email token : JsVal) (subUsers : list JsVal)
  (st : UpdateState) : M JsVal :=
  removingSubUsers <- removingOf subUsers (processedSubUsers st) ;;
  (if (0 <? length removingSubUsers)%nat
   then
     ids <- mapM (fun u => get u "_id") removingSubUsers ;;
     removingRes <- call (DaoRemoveElemsFromDb USERS JNull
       (JObj [("$in", JObj [("_id", JArr ids)])])) ;;
     if no_changes removingRes
     then throw UserRemovingError
     else ret tt
   else ret tt) ;;;
  (if (0 <? length (addedSubUsers st))%nat
      || (0 <? length removingSubUsers)%nat
   then
     call (DaoUpdateCollBy LEDGERS
             (JObj [("user_id", _id)])
             (JObj [("_isBalanceRecalced", JNull)])) ;;;
     ret tt
   else ret tt) ;;;
  setUserSession
    (JObj (obj_set "subUsers" (JArr (processedSubUsers st))
             (spread subAccountUser))) ;;;
  ret (JObj [("email", email); ("isSubAccount", JBool true);
             ("token", token)]).

(** [!isSubAccountApiKeys(subAccountUser)
     || !Array.isArray(subAccountApiKeys)
     || subAccountApiKeys.length === 0
     || subAccountApiKeys.some(isSubAccountApiKeys)] *)
Definition badUpdateRequest (subAccountUser subAccountApiKeys : JsVal) : bool :=
  negb (isSubAccountApiKeys env subAccountUser)
  || negb (isArray subAccountApiKeys)
  || (length (items subAccountApiKeys) =? 0)%nat
  || existsb (isSubAccountApiKeys env) (items subAccountApiKeys).

(** What [updateSubAccount] does with the signed-in group aggregate. *)
Definition reconcile (subAccountUser subAccountApiKeys : JsVal) : M JsVal :=
  if badUpdateRequest subAccountUser subAccountApiKeys
  then throw SubAccountUpdatingError
  else
    su <- destructure subAccountUser ;;
    let _id := field su "_id" in
    let email := field su "email" in
    let token := field su "token" in
    let subUsers := field su "subUsers" in
    masterUser <- find_in subUsers
      (fun subUser =>
         ret (strict_eq (field (spread subUser) "email") email)) ;;
    let subUsersAuth := items subAccountApiKeys ++ [masterUser] in
    st <- updateLoop subAccountUser masterUser _id subUsers subUsersAuth
            updateInit ;;
    updateFinish subAccountUser _id email token (items subUsers) st.

(** The callback given to [executeQueriesInTrans] by [updateSubAccount]. *)
Definition updateSubAccountTrans
  (subAccountAuth subAccountApiKeys : JsVal) : M JsVal :=
  subAccountUser <- signIn
    (JObj [("auth", JObj (obj_set "isSubAccount" (JBool true)
                            (spread subAccountAuth)))])
    (JObj [ ("isReturnedUser", JBool true);
            ("isNotInTrans", JBool true);
            ("isNotSetSession", JBool true) ]) ;;
  reconcile subAccountUser subAccountApiKeys.

(** [updateSubAccount (args)] *)
Definition updateSubAccount (args : JsVal) : M JsVal :=
  let a := spread args in
  let subAccountAuth := field a "auth" in
  let subAccountApiKeys := field (spread (field a "params")) "subAccountApiKeys" in
  executeQueriesInTrans
    (updateSubAccountTrans subAccountAuth subAccountApiKeys).

(* ===================================================================== *)
(** ** What a run adds to the log *)
(* ===================================================================== *)

(** From [w] to [w'] exactly the calls [evs] were made. *)
Definition added (w w' : World) (evs : list Event) : Prop :=
  trace w' = trace w ++ evs.

Definition all_calls (P : ExtCall -> bool) (evs : list Event) : bool :=
  forallb (fun ev => P (fst ev)) evs.

(** From [w] to [w'] the session map was left alone and only calls that
    satisfy [P] were made. *)
Definition logs (P : ExtCall -> bool) (w w' : World) : Prop :=
  sessions w' = sessions w /\
  exists evs, added w w' evs /\ all_calls P evs = true.

(** Every run of [m] is such. *)
Definition steady {A} (P : ExtCall -> bool) (m : M A) : Prop :=
  forall w, logs P w (snd (m w)).

(** Every run of [m] only makes calls that satisfy [P]. *)
Definition only_calls {A} (P : ExtCall -> bool) (m : M A) : Prop :=
  forall w, exists evs, added w (snd (m w)) evs /\ all_calls P evs = true.

(** [signUp] answers with exactly an email, a flag and a token. *)
Definition signUp_shape (v : JsVal) : Prop :=
  exists email isSubAccount jwt,
    v = JObj [("email", email); ("isSubAccount", isSubAccount); ("jwt", jwt)].

(** A storage answer that reports that no row was affected. *)
Definition zero_changes (res : JsVal) : Prop :=
  exists o, res = JObj o /\ field o "changes" = JNum 0.


(** Every run of [m] leaves the world as it found it. *)
Definition pure_run {A} (m : M A) : Prop :=
  forall w r w1, m w = (r, w1) -> w1 = w.

(* ===================================================================== *)
(** ** The session cache, [getUsers] and [recoverPassword] *)
(* ===================================================================== *)

(** [this.userSessions.get(id)] *)
Definition session_of (id : JsVal) (w : World) : JsVal :=
  match map_get id (sessions w) with
  | Some userSession => userSession
  | None => JUndefined
  end.

(** [getUserSessionById (id, params)] *)
Definition getUserSessionById (id params : JsVal) : M JsVal :=
  fun w =>
    let isFilledUsers := field (spread params) "isFilledUsers" in
    let userSession := session_of id w in
    let jwt := field (spread userSession) "jwt" in
    (if truthy (js_and isFilledUsers jwt)
     then
       user <- verifyUser
         (JObj [("auth", JObj [("jwt", jwt)])])
         (JObj [("isDecryptedApiKeys", JBool true)]) ;;
       ret (JObj (obj_set "jwt" jwt
                    (obj_merge (spread userSession) (spread user))))
     else
       ret (if truthy userSession && is_object userSession
            then JObj (spread userSession)
            else userSession)) w.

(** A promise in an array given to [Promise.all] later: its calls are
    issued when it is made, its outcome is looked at when it is awaited. *)
Definition started (m : M JsVal) : M (Res JsVal) :=
  fun w => let (r, w1) := m w in (Ok r, w1).

(** [await Promise.all(promises)] for promises already made: the
    rejection that comes first in the order of the array is the one
    reported. *)
Fixpoint settled (promises : list (Res JsVal)) : M (list JsVal) :=
  match promises with
  | [] => ret []
  | Ok v :: rest => vs <- settled rest ;; ret (v :: vs)
  | Err e :: _ => throw e
  end.

(** The test of the [filter] over [emailPasswordsMap] in [getUsers]. *)
Definition usableEmailPwd (emailPwd : JsVal) : bool :=
  let e := spread emailPwd in
  valid_str (field e "password") && valid_str (field e "email").

(** [filteredEmailPwdsMap] *)
Definition filteredEmailPwdsMap (params : JsVal) : list JsVal :=
  let emailPasswordsMap := field (spread params) "emailPasswordsMap" in
  filter usableEmailPwd
    (match emailPasswordsMap with
     | JArr l => l
     | _ => [emailPasswordsMap]
     end).

(** [filteredEmailPwdsMap.find(({ email: pwdEmail }) => pwdEmail === email)] *)
Definition passwordEntry (pwds : list JsVal) (email : JsVal) : option JsVal :=
  find (fun emailPwd => strict_eq (field (spread emailPwd) "email") email) pwds.

(** The callback of [decryptedUsers.map] in [getUsers], user after user:
    the entry of the user's email is looked up, which throws when there is
    none, and the decryption of the sub-users is started. *)
Fixpoint subUsersPromises (pwds users : list JsVal) : M (list (Res JsVal)) :=
  match users with
  | [] => ret []
  | user :: rest =>
      let u := spread user in
      match passwordEntry pwds (field u "email") with
      | None => throw TypeError
      | Some emailPwd =>
          promise <- started (decryptApiKeys
                                (field (spread emailPwd) "password")
                                (field u "subUsers")) ;;
          promises <- subUsersPromises pwds rest ;;
          ret (promise :: promises)
      end
  end.

(** [decryptedUsers.map((user, i) =>
      ({ ...user, subUsers: decryptedSubUsers[i] }))] *)
Fixpoint withSubUsers (users decryptedSubUsers : list JsVal) : list JsVal :=
  match users with
  | [] => []
  | user :: rest =>
      JObj (obj_set "subUsers" (nth 0 decryptedSubUsers JUndefined)
              (spread user))
      :: withSubUsers rest (skipn 1 decryptedSubUsers)
  end.

Section GetUsers.

(** [this.dao.getUsers]: the one method of storage that only [getUsers]
    calls.  It is taken as it is injected, as any computation. *)
Variable daoGetUsers : JsVal -> JsVal -> M JsVal.

(** [getUsers (filter, params)] *)
Definition getUsers (filter params : JsVal) : M JsVal :=
  let p := spread params in
  let isFilledSubUsers := field p "isFilledSubUsers" in
  let password := field p "password" in
  let projection := field p "projection" in
  _users <- daoGetUsers filter params ;;
  let users := excludeProps _users projection in
  if negb (truthy password) || negb (is_string password)
  then ret users
  else
    decryptedUsers <- decryptApiKeys password users ;;
    if negb (truthy isFilledSubUsers)
    then ret decryptedUsers
    else
      match decryptedUsers with
      | JArr l =>
          promises <- subUsersPromises (filteredEmailPwdsMap params) l ;;
          decryptedSubUsers <- settled promises ;;
          ret (JArr (withSubUsers l decryptedSubUsers))
      | _ => throw TypeError                 (* no [map] to call *)
      end.

End GetUsers.

(** A storage whose [getUsers] answers [users] whatever it is asked. *)
Definition getUsersAnswers (users : JsVal) : JsVal -> JsVal -> M JsVal :=
  fun _ _ => ret users.

(** *** [SubAccount.recoverPassword] *)

(** [!isSubAccount || !Array.isArray(subAccountApiKeys)
     || subAccountApiKeys.length === 0] *)
Definition badRecoverRequest (args : JsVal) : bool :=
  negb (truthy (authField args "isSubAccount"))
  || negb (isArray (requestParam args "subAccountApiKeys"))
  || (length (items (requestParam args "subAccountApiKeys")) =? 0)%nat.

(** What [recoverPassword] hands to the authenticator for one entry of
    its processing list. *)
Definition recoverSubUserArgs
  (newPassword isNotProtected subUserAuth : JsVal) : JsVal :=
  let e := spread subUserAuth in
  JObj [("auth", JObj [ ("apiKey", field e "apiKey");
                        ("apiSecret", field e "apiSecret");
                        ("newPassword", newPassword);
                        ("isNotProtected", isNotProtected) ])].

Definition recoverSubUserParams : JsVal :=
  JObj [ ("isReturnedUser", JBool true); ("isNotInTrans", JBool true);
         ("isSubUser", JBool true) ].

Definition recoverAggregateParams : JsVal :=
  JObj [ ("isReturnedUser", JBool true); ("isNotInTrans", JBool true) ].

(** [subUsers.every(subUser => refreshedSubUser._id !== subUser._id)] *)
Definition isNotExistInDb (subUsers : list JsVal) (refreshedSubUser : JsVal)
  : M bool :=
  everyM (fun subUser =>
            _id <- get refreshedSubUser "_id" ;;
            ret (negb (strict_eq _id (field (spread subUser) "_id"))))
         subUsers.

(** The caller's own pair of keys, the last entry of the processing
    list. *)
Definition ownKeys (args : JsVal) : JsVal :=
  JObj [ ("apiKey", authField args "apiKey");
         ("apiSecret", authField args "apiSecret") ].

Section RecoverPassword.

(** [this.authenticator.recoverPassword].  The class of
    [authenticator/index.js] has no method of that name; [SubAccount] is
    given its authenticator by injection, and the method is taken as any
    computation. *)
Variable authenticatorRecoverPassword : JsVal -> JsVal -> M JsVal.

(** One turn of [for (const subUserAuth of subUsersAuth)] in
    [recoverPassword]. *)
Definition recoverStep
  (subUsers : list JsVal) (newPassword isNotProtected subUserAuth : JsVal)
  : M unit :=
  refreshedSubUser <- authenticatorRecoverPassword
    (recoverSubUserArgs newPassword isNotProtected subUserAuth)
    recoverSubUserParams ;;
  missing <- isNotExistInDb subUsers refreshedSubUser ;;
  if missing then throw AuthError else ret tt.

Fixpoint recoverLoop
  (subUsers : list JsVal) (newPassword isNotProtected : JsVal)
  (subUsersAuth : list JsVal) : M unit :=
  match subUsersAuth with
  | [] => ret tt
  | subUserAuth :: rest =>
      recoverStep subUsers newPassword isNotProtected subUserAuth ;;;
      recoverLoop subUsers newPassword isNotProtected rest
  end.

(** The callback given to [executeQueriesInTrans] by [recoverPassword]. *)
Definition recoverPasswordTrans (args : JsVal) : M JsVal :=
  subAccount <- authenticatorRecoverPassword args recoverAggregateParams ;;
  let s := spread subAccount in
  let subUsers := field s "subUsers" in
  if negb (isArray subUsers) || (length (items subUsers) =? 0)%nat
  then throw AuthError
  else
    recoverLoop (items subUsers)
      (authField args "newPassword") (authField args "isNotProtected")
      (items (requestParam args "subAccountApiKeys") ++ [ownKeys args]) ;;;
    ret (JObj [ ("email", field s "email");
                ("isSubAccount", field s "isSubAccount");
                ("token", field s "token") ]).

(** [recoverPassword (args)] *)
Definition recoverPassword (args : JsVal) : M JsVal :=
  if badRecoverRequest args
  then throw AuthError
  else executeQueriesInTrans (recoverPasswordTrans args).

(** Every entry of the processing list was answered by the authenticator
    with a user whose [_id] is that of one of [subUsers], from [w] to
    [w']. *)
Inductive refreshed
  (subUsers : list JsVal) (newPassword isNotProtected : JsVal)
  : list JsVal -> World -> World -> Prop :=
| refreshed_none w : refreshed subUsers newPassword isNotProtected [] w w
| refreshed_one subUserAuth rest user w w1 w' :
    authenticatorRecoverPassword
      (recoverSubUserArgs newPassword isNotProtected subUserAuth)
      recoverSubUserParams w = (Ok user, w1) ->
    existsb (fun subUser =>
               strict_eq (field (spread user) "_id")
                         (field (spread subUser) "_id")) subUsers = true ->
    refreshed subUsers newPassword isNotProtected rest w1 w' ->
    refreshed subUsers newPassword isNotProtected (subUserAuth :: rest) w w'.

End RecoverPassword.

(** An authenticator whose [recoverPassword] answers [aggregate] when it
    is asked for the group and [member] when it is asked for a
    sub-user. *)
Definition recoverAnswers (aggregate member : JsVal)
  : JsVal -> JsVal -> M JsVal :=
  fun _ params =>
    ret (if truthy (field (spread params) "isSubUser")
         then member else aggregate).

(** *** Properties of runs *)

Definition is_decrypt (c : ExtCall) : bool :=
  match c with CryptoDecrypt _ _ => true | _ => false end.

(** A session map as a [Map] is: no key twice. *)
Fixpoint unique_keys (m : SessionMap) : bool :=
  match m with
  | [] => true
  | (k, _) :: m' =>
      negb (existsb (fun kv => val_eqb k (fst kv)) m') && unique_keys m'
  end.

(** The two calls [decryptApiKeys] makes for one user, and the user it
    answers once they are answered. *)
Definition key_calls (password user : JsVal) : list ExtCall :=
  [ CryptoDecrypt (field (spread user) "apiKey") password;
    CryptoDecrypt (field (spread user) "apiSecret") password ].

Definition key_events (password : JsVal) (uk : JsVal * (JsVal * JsVal))
  : list Event :=
  [ (CryptoDecrypt (field (spread (fst uk)) "apiKey") password,
     Ok (fst (snd uk)));
    (CryptoDecrypt (field (spread (fst uk)) "apiSecret") password,
     Ok (snd (snd uk))) ].

Definition decrypted (uk : JsVal * (JsVal * JsVal)) : JsVal :=
  JObj (obj_set "apiSecret" (snd (snd uk))
          (obj_set "apiKey" (fst (snd uk)) (spread (fst uk)))).

(** The calls [getUser] can make. *)
Definition lookup_call (c : ExtCall) : bool :=
  match c with
  | DaoGetUser _ _ | CryptoDecrypt _ _ => true
  | _ => false
  end.

(** The parameters the two branches of [verifyUser] hand to [getUser]. *)
Definition passwordLookupParams (args params : JsVal) : JsVal :=
  JObj (obj_merge
    [ ("isNotSubAccount",
       JBool (negb (truthy (authField args "isSubAccount"))));
      ("isSubAccount", authField args "isSubAccount");
      ("isFilledSubUsers", paramField params "isFilledSubUsers") ]
    (pwdParam (paramField params "isDecryptedApiKeys")
       (authField args "password"))).


(** What [signUp] asks storage and writes to it: the search of the
    upstream email, and the row it hands to [createUser]. *)
Definition signUpLookup (fromApi : JsVal) : ExtCall :=
  DaoGetUser (JObj [("email", field (spread fromApi) "email")])
             (JObj [("isNotSubAccount", JBool true)]).

Definition signUpRow
  (params fromApi encryptedApiKey encryptedApiSecret passwordHash : JsVal)
  : JsVal :=
  JObj [ ("email", field (spread fromApi) "email");
         ("timezone", field (spread fromApi) "timezone");
         ("username", field (spread fromApi) "username");
         ("id", field (spread fromApi) "id");
         ("apiKey", encryptedApiKey);
         ("apiSecret", encryptedApiSecret);
         ("active", serializeVal env
            (with_default (paramField params "active") (JBool true)));
         ("isDataFromDb", serializeVal env
            (with_default (paramField params "isDataFromDb") (JBool true)));
         ("passwordHash", passwordHash) ].

(** The update [signOut] sends to storage for the verified [user]. *)
Definition signOutUpdate (params user : JsVal) : ExtCall :=
  DaoUpdateCollBy USERS
    (JObj [("_id", field (spread user) "_id");
           ("email", field (spread user) "email")])
    (JObj [("active", serializeVal env
              (with_default (paramField params "active") (JBool false)))]).

(** The reads of the row [signOut] makes through [verifyUser], which it
    calls without parameters: by the email of the caller, or by the [_id]
    and the email of the payload of the token. *)
Definition signOutLookup (args : JsVal) : ExtCall :=
  DaoGetUser
    (JObj [("email", authField args "email")])
    (JObj [ ("isNotSubAccount",
             JBool (negb (truthy (authField args "isSubAccount"))));
            ("isSubAccount", authField args "isSubAccount");
            ("isFilledSubUsers", JUndefined) ]).

Definition tokenLookup (payload : JsVal) : ExtCall :=
  DaoGetUser
    (JObj [ ("_id", field (spread payload) "_id");
            ("email", field (spread payload) "email") ])
    (JObj [("isFilledSubUsers", JUndefined)]).

(** The parameters [createSubAccount] hands to [signUp] for the
    aggregate of the group. *)
Definition aggregateParams : JsVal :=
  JObj [ ("isDisabledApiKeysVerification", JBool true);
         ("isReturnedFullUserData", JBool true);
         ("isNotSetSession", JBool true);
         ("isSubAccount", JBool true);
         ("isNotInTrans", JBool true) ].

(** [_subAccountPassword] of [createSubAccount], for a master verified by
    the password of the caller. *)
Definition subAccountPasswordOf (args : JsVal) : JsVal :=
  if valid_str (requestParam args "subAccountPassword")
  then requestParam args "subAccountPassword"
  else authField args "password".

(** No password but [password] is hashed. *)
Definition hashes_only (password : JsVal) (c : ExtCall) : bool :=
  match c with
  | CryptoHashPassword p => val_eqb p password
  | _ => true
  end.

(** The two writes of the last block of [updateSubAccount]: the removal
    of the rows of the sub-users left out, and the invalidation of the
    balances of the ledgers of the group. *)
Definition removalOf (removingSubUsers : list JsVal) : ExtCall :=
  DaoRemoveElemsFromDb USERS JNull
    (JObj [("$in",
            JObj [("_id",
                   JArr (map (fun subUser => field (spread subUser) "_id")
                             removingSubUsers))])]).

Definition ledgerInvalidation (_id : JsVal) : ExtCall :=
  DaoUpdateCollBy LEDGERS
    (JObj [("user_id", _id)])
    (JObj [("_isBalanceRecalced", JNull)]).

(** Every run of [m] keeps the sessions it found. *)
Definition keeps_sessions {A} (m : M A) : Prop :=
  forall w k, map_get k (sessions w) <> None ->
              map_get k (sessions (snd (m w))) <> None.

(** A run of [m] that is rejected leaves the session map as it was. *)
Definition rejects_quietly {A} (m : M A) : Prop :=
  forall w e w', m w = (Err e, w') -> sessions w' = sessions w.

(* ===================================================================== *)
(** ** The close price of a position ([unnamed/part_000]) *)
(* ===================================================================== *)

(** [String(v)], as the template literal and [RegExp.prototype.test] turn
    a value into text. *)
Fixpoint to_string (v : JsVal) : string :=
  match v with
  | JUndefined => "undefined"
  | JNull => "null"
  | JBool true => "true"
  | JBool false => "false"
  | JNum n => NilEmpty.string_of_int (Z.to_int n)
  | JNaN => "NaN"
  | JStr s => s
  | JObj _ => "[object Object]"
  | JArr l =>
      (fix join (l : list JsVal) : string :=
         match l with
         | [] => ""
         | x :: rest =>
             let text := match x with
                         | JUndefined | JNull => ""
                         | _ => to_string x
                         end in
             match rest with
             | [] => text
             | _ => (text ++ "," ++ join rest)%string
             end
         end) l
  end.

(** A character of the pattern against a character of the text under the
    flag [i]: both are compared in upper case, and the characters of the
    pattern are ASCII. *)
Definition upper_of (c : ascii) : ascii :=
  if PassRegEx.lower c then ascii_of_nat (nat_of_ascii c - 32) else c.

Definition same_letter (p c : ascii) : bool :=
  Ascii.eqb (upper_of p) (upper_of c).

(** The text left once the literal [pat] is read off the start of [s]. *)
Fixpoint starts_with (pat s : string) : option string :=
  match pat with
  | EmptyString => Some s
  | String p pat' =>
      match s with
      | String c s' => if same_letter p c then starts_with pat' s' else None
      | EmptyString => None
      end
  end.

(** [.*word] from the start of [s]: [word] starts after some characters
    that [.] accepts. *)
Fixpoint dots_then (word s : string) : bool :=
  match starts_with word s with
  | Some _ => true
  | None =>
      match s with
      | String c s' => negb (PassRegEx.line_terminator c) && dots_then word s'
      | EmptyString => false
      end
  end.

(** [new RegExp(`#${id}.*settlement`, 'gi').test(s)] on a fresh
    expression (every test made here starts at index 0): the pattern
    matches from some place of [s]. *)
Fixpoint marker_test (marker s : string) : bool :=
  match starts_with marker s with
  | Some rest => dots_then "settlement" rest
  | None => false
  end
  || match s with
     | String _ s' => marker_test marker s'
     | EmptyString => false
     end.

(** [`#${id}`] for the identifier of a position, a safe integer (the
    template writes it in plain digits). *)
Definition marker_of (id : Z) : string :=
  ("#" ++ NilEmpty.string_of_int (Z.to_int id))%string.

(** [_isContainedPosStatus (positions, status)]: no position is an
    object with that status. *)
Definition _isContainedPosStatus (positions : list JsVal) (status : string)
  : bool :=
  forallb (fun pos =>
             negb (truthy pos)
             || negb (is_object pos)
             || negb (strict_eq (field (spread pos) "status") (JStr status)))
          positions.

(** Some position is an object with that status. *)
Definition has_status (positions : list JsVal) (status : string) : bool :=
  existsb (fun pos =>
             truthy pos && is_object pos
             && strict_eq (field (spread pos) "status") (JStr status))
          positions.

(** The first test of the function: no trades, or an audit without both
    a closed and an active position. *)
Definition nothingToPrice (trades positionsAudit : JsVal) : bool :=
  negb (isArray trades)
  || (length (items trades) =? 0)%nat
  || negb (isArray positionsAudit)
  || (length (items positionsAudit) <? 2)%nat
  || _isContainedPosStatus (items positionsAudit) "CLOSED"
  || _isContainedPosStatus (items positionsAudit) "ACTIVE".

(** The second test: the two last trades are of different orders. *)
Definition closedByTrade (trades : JsVal) : bool :=
  let t0 := nth 0 (items trades) JUndefined in
  let t1 := nth 1 (items trades) JUndefined in
  (1 <? length (items trades))%nat
  && truthy t0 && is_object t0
  && truthy t1 && is_object t1
  && truthy (field (spread t0) "orderID")
  && negb (strict_eq (field (spread t0) "orderID")
                     (field (spread t1) "orderID")).

(** The test of [ledgers.find]. *)
Definition settles (id : Z) (ledger : JsVal) : bool :=
  truthy ledger && is_object ledger
  && marker_test (marker_of id)
       (to_string (field (spread ledger) "description")).

(** What the function asks its collaborators. *)
Definition tradesQuery (auth symbol end_ : JsVal) : JsVal :=
  JObj [ ("auth", auth);
         ("params", JObj [ ("symbol", symbol); ("end", end_);
                           ("limit", JNum 2) ]) ].

Definition auditQuery (auth : JsVal) (id : Z) : JsVal :=
  JObj [ ("auth", auth);
         ("params", JObj [ ("id", JArr [JNum id]); ("limit", JNum 2);
                           ("notThrowError", JBool true);
                           ("notCheckNextPage", JBool true) ]) ].

Definition ledgersQuery (auth end_ : JsVal) : JsVal :=
  JObj [ ("auth", auth); ("params", JObj [("end", end_)]) ].

Definition priced (closePrice sumAmount : JsVal) : JsVal :=
  JObj [("closePrice", closePrice); ("sumAmount", sumAmount)].

Section ClosePrice.

(** [dao.findInCollBy] and [rService.getPositionsAudit], as they are
    injected: any computations. *)
Variable findInCollBy : JsVal -> JsVal -> M JsVal.
Variable getPositionsAudit : JsVal -> JsVal -> M JsVal.

(** [positionsAudit.find(pos => pos.status === 'ACTIVE')] *)
Definition activePositionOf (positionsAudit : JsVal) : M JsVal :=
  findM (fun pos =>
           status <- get pos "status" ;;
           ret (strict_eq status (JStr "ACTIVE")))
        (items positionsAudit).

(** The function the module exports, for the [auth], [symbol] and [end]
    of its argument and the [id] of a position, an integer. *)
Definition closePriceOf (auth symbol end_ : JsVal) (id : Z) : M JsVal :=
  trades <- findInCollBy (JStr "_getTrades") (tradesQuery auth symbol end_) ;;
  audit <- getPositionsAudit JNull (auditQuery auth id) ;;
  positionsAudit <- get audit "res" ;;
  if nothingToPrice trades positionsAudit
  then ret (priced JNull JNull)
  else if closedByTrade trades
  then
    activePosition <- activePositionOf positionsAudit ;;
    let closePrice :=
      field (spread (nth 0 (items trades) JUndefined)) "execPrice" in
    sumAmount <- get activePosition "amount" ;;
    ret (priced closePrice sumAmount)
  else
    _ledgers <- findInCollBy (JStr "_getLedgers") (ledgersQuery auth end_) ;;
    let ledgers := items _ledgers in
    let closedPosition :=
      match find (settles id) ledgers with
      | Some ledger => ledger
      | None => JUndefined
      end in
    let description := field (spread closedPosition) "description" in
    let closePrice :=
      if truthy closedPosition && is_object closedPosition
         && truthy description && is_string description
      then description
      else JNull in
    ret (priced closePrice JNull).

End ClosePrice.

(** A storage that answers [trades] for the trades and [ledgers] for the
    ledgers, and an upstream that answers [audit]. *)
Definition collAnswers (trades ledgers : JsVal) : JsVal -> JsVal -> M JsVal :=
  fun method _ =>
    ret (if strict_eq method (JStr "_getTrades") then trades else ledgers).

Definition auditAnswers (audit : JsVal) : JsVal -> JsVal -> M JsVal :=
  fun _ _ => ret audit.

(** [s] holds the marker of the position and, further on the same line,
    the word, in any letter case. *)
Definition mentions_settlement (id : Z) (s : string) : Prop :=
  exists before between word after,
    s = (before ++ marker_of id ++ between ++ word ++ after)%string /\
    PassRegEx.all_chars (fun c => negb (PassRegEx.line_terminator c))
      between = true /\
    starts_with "settlement" word = Some "".

(** A text without letters, such as the marker of a position. *)
Definition no_letters (s : string) : bool :=
  PassRegEx.all_chars
    (fun c => negb (PassRegEx.lower c) && negb (PassRegEx.upper c)) s.

(** [positionsAudit.find(pos => pos.status === 'ACTIVE')] when no
    position read is [undefined] or [null]. *)
Definition firstActive (positions : list JsVal) : option JsVal :=
  find (fun pos => strict_eq (field (spread pos) "status") (JStr "ACTIVE"))
       positions.


(** A decryption under the password [password]. *)
Definition decrypt_under (password : JsVal) (c : ExtCall) : bool :=
  match c with
  | CryptoDecrypt _ p => val_eqb p password
  | _ => false
  end.

(** A key of a session [Map] that is compared by value. *)
Definition primitive (v : JsVal) : bool :=
  match v with
  | JObj _ | JArr _ => false
  | _ => true
  end.

(* ===================================================================== *)
(** ** Running the monad *)
(* ===================================================================== *)

Lemma bind_run {A B} (m : M A) (k : A -> M B) w r w' :
  bind m k w = (r, w') ->
  (exists a w1, m w = (Ok a, w1) /\ k a w1 = (r, w')) \/
  (exists e, m w = (Err e, w') /\ r = Err e).
Proof.
  unfold bind. destruct (m w) as [[a | e] w1].
  - intros H. left. exists a, w1. split; [reflexivity | exact H].
  - intros H. inversion H; subst. right. exists e. split; reflexivity.
Qed.

Lemma bind_ok {A B} (m : M A) (k : A -> M B) w a w1 :
  m w = (Ok a, w1) -> bind m k w = k a w1.
Proof. unfold bind. intros ->. reflexivity. Qed.

Lemma bind_err {A B} (m : M A) (k : A -> M B) w e w1 :
  m w = (Err e, w1) -> bind m k w = (Err e, w1).
Proof. unfold bind. intros ->. reflexivity. Qed.

Lemma call_run c w r w1 :
  call c w = (r, w1) ->
  oracle env c (ext w) = (r, ext w1) /\
  sessions w1 = sessions w /\
  trace w1 = trace w ++ [(c, r)].
Proof.
  unfold call. destruct (oracle env c (ext w)) as [r0 e'].
  intros H. inversion H; subst. simpl. repeat split; reflexivity.
Qed.

Lemma destructure_run v w r w1 :
  destructure v w = (r, w1) ->
  w1 = w /\
  ((r = Err TypeError /\ (v = JUndefined \/ v = JNull)) \/
   (r = Ok (spread v) /\ v <> JUndefined /\ v <> JNull)).
Proof.
  destruct v; cbn; intros H; inversion H; subst; split; auto;
    try (left; split; auto; fail);
    right; repeat split; congruence.
Qed.

Lemma destructure_obj o w : destructure (JObj o) w = (Ok o, w).
Proof. reflexivity. Qed.

Lemma get_obj o k w : get (JObj o) k w = (Ok (field o k), w).
Proof. reflexivity. Qed.

(** *** [logs] and [steady] *)

Lemma logs_refl P w : logs P w w.
Proof.
  split; [reflexivity |]. exists []. split; [| reflexivity].
  unfold added. now rewrite app_nil_r.
Qed.

Lemma logs_trans P w w1 w2 : logs P w w1 -> logs P w1 w2 -> logs P w w2.
Proof.
  intros [Hs1 [e1 [Ht1 Hp1]]] [Hs2 [e2 [Ht2 Hp2]]]. split.
  - congruence.
  - exists (e1 ++ e2). unfold added, all_calls in *. split.
    + rewrite Ht2, Ht1. now rewrite app_assoc.
    + rewrite forallb_app. apply andb_true_intro. split; assumption.
Qed.

Lemma logs_weaken (P Q : ExtCall -> bool) w w' :
  (forall c, P c = true -> Q c = true) -> logs P w w' -> logs Q w w'.
Proof.
  intros HPQ [Hs [evs [Ht Hp]]]. split; [exact Hs |].
  exists evs. split; [exact Ht |].
  unfold all_calls in *. rewrite forallb_forall in *.
  intros ev Hin. apply HPQ. now apply Hp.
Qed.

Lemma steady_ret {A} P (a : A) : steady P (ret a).
Proof. intros w. apply logs_refl. Qed.

Lemma steady_throw {A} P e : steady P (@throw A e).
Proof. intros w. apply logs_refl. Qed.

Lemma steady_bind {A B} P (m : M A) (k : A -> M B) :
  steady P m -> (forall a, steady P (k a)) -> steady P (bind m k).
Proof.
  intros Hm Hk w. unfold bind. specialize (Hm w).
  destruct (m w) as [[a | e] w1]; simpl in *.
  - eapply logs_trans; [exact Hm | apply Hk].
  - exact Hm.
Qed.

Lemma steady_call P c : P c = true -> steady P (call c).
Proof.
  intros Hc w. unfold call. destruct (oracle env c (ext w)) as [r e'].
  simpl. split; [reflexivity |]. exists [(c, r)]. split; [reflexivity |].
  unfold all_calls. simpl. now rewrite Hc.
Qed.

Lemma steady_destructure P v : steady P (destructure v).
Proof. destruct v; intros w; apply logs_refl. Qed.

Lemma steady_get P v k : steady P (get v k).
Proof.
  unfold get. apply steady_bind; [apply steady_destructure |].
  intros a. apply steady_ret.
Qed.

Lemma steady_if {A} P (b : bool) (m1 m2 : M A) :
  steady P m1 -> steady P m2 -> steady P (if b then m1 else m2).
Proof. destruct b; auto. Qed.

Lemma steady_promise_all P ms :
  Forall (steady P) ms -> steady P (promise_all ms).
Proof.
  induction 1 as [| m ms Hm _ IH]; intros w; simpl.
  - apply logs_refl.
  - specialize (Hm w). destruct (m w) as [r w1]. simpl in Hm.
    specialize (IH w1). destruct (promise_all ms w1) as [rs w2].
    simpl in *. eapply logs_trans; eauto.
Qed.

Lemma steady_only {A} P (m : M A) : steady P m -> only_calls P m.
Proof. intros H w. exact (proj2 (H w)). Qed.

Lemma steady_run {A} P (m : M A) w r w' :
  steady P m -> m w = (r, w') -> logs P w w'.
Proof. intros H E. specialize (H w). now rewrite E in H. Qed.

(** *** The methods that only read *)

Section Readers.

Variable P : ExtCall -> bool.
Hypothesis P_decrypt : forall c k, P (CryptoDecrypt c k) = true.
Hypothesis P_getUser : forall f p, P (DaoGetUser f p) = true.
Hypothesis P_verifyPassword : forall p h, P (CryptoVerifyPassword p h) = true.

Lemma steady_decrypt_calls password users :
  Forall (steady P) (decrypt_calls password users).
Proof.
  unfold decrypt_calls. induction users as [| u us IH]; simpl.
  - constructor.
  - constructor; [apply steady_call, P_decrypt |].
    constructor; [apply steady_call, P_decrypt | exact IH].
Qed.

Lemma steady_decryptApiKeys password users :
  steady P (decryptApiKeys password users).
Proof.
  unfold decryptApiKeys. apply steady_bind.
  - apply steady_promise_all, steady_decrypt_calls.
  - intros keys. apply steady_ret.
Qed.

Lemma steady_getUser filter params : steady P (getUser filter params).
Proof.
  unfold getUser. apply steady_bind; [apply steady_call, P_getUser |].
  intros _user. apply steady_if; [apply steady_ret |].
  apply steady_bind; [apply steady_decryptApiKeys |].
  intros du. apply steady_if; [apply steady_ret |].
  apply steady_bind; [apply steady_decryptApiKeys |].
  intros ds. apply steady_ret.
Qed.

Lemma steady_verifyByPassword e p s pr f d r :
  steady P (verifyByPassword e p s pr f d r).
Proof.
  unfold verifyByPassword. apply steady_bind; [apply steady_getUser |].
  intros u. apply steady_bind; [apply steady_call, P_verifyPassword |].
  intros _. apply steady_ret.
Qed.

Hypothesis P_verifyJWT : forall t, P (CryptoVerifyJWT t) = true.

Lemma steady_verifyByToken j pr f d r :
  steady P (verifyByToken j pr f d r).
Proof.
  unfold verifyByToken. apply steady_bind; [apply steady_call, P_verifyJWT |].
  intros pl. apply steady_bind; [apply steady_destructure |].
  intros o. apply steady_bind; [apply steady_call, P_decrypt |].
  intros dp. apply steady_bind; [apply steady_getUser |].
  intros u. apply steady_bind; [apply steady_call, P_verifyPassword |].
  intros _. apply steady_ret.
Qed.

Lemma steady_verifyUser args params : steady P (verifyUser args params).
Proof.
  unfold verifyUser. apply steady_if; [apply steady_verifyByPassword |].
  apply steady_if; [apply steady_verifyByToken | apply steady_throw].
Qed.

End Readers.

Lemma steady_generateAuthJWT P payload :
  (forall p k, P (CryptoEncrypt p k) = true) ->
  (forall p, P (CryptoGenerateJWT p) = true) ->
  steady P (generateAuthJWT payload).
Proof.
  intros He Hg. unfold generateAuthJWT.
  apply steady_if.
  - apply steady_if; [apply steady_call, Hg |].
    apply steady_if; [| apply steady_throw].
    apply steady_bind; [apply steady_call, He |].
    intros c. apply steady_call, Hg.
  - apply steady_if; [apply steady_ret | apply steady_throw].
Qed.

(** *** [only_calls] *)

Lemma only_ret {A} P (a : A) : only_calls P (ret a).
Proof. apply steady_only, steady_ret. Qed.

Lemma only_throw {A} P e : only_calls P (@throw A e).
Proof. apply steady_only, steady_throw. Qed.

Lemma only_bind {A B} P (m : M A) (k : A -> M B) :
  only_calls P m -> (forall a, only_calls P (k a)) -> only_calls P (bind m k).
Proof.
  intros Hm Hk w. unfold bind. specialize (Hm w).
  destruct (m w) as [[a | e] w1]; simpl in *; [| exact Hm].
  destruct Hm as [e1 [Ht1 Hp1]]. destruct (Hk a w1) as [e2 [Ht2 Hp2]].
  exists (e1 ++ e2). unfold added, all_calls in *. split.
  - rewrite Ht2, Ht1. now rewrite app_assoc.
  - rewrite forallb_app. apply andb_true_intro. split; assumption.
Qed.

Lemma only_if {A} P (b : bool) (m1 m2 : M A) :
  only_calls P m1 -> only_calls P m2 -> only_calls P (if b then m1 else m2).
Proof. destruct b; auto. Qed.

Lemma only_setUserSession P data : only_calls P (setUserSession data).
Proof.
  intros w. exists []. split; [| reflexivity].
  unfold added. simpl. now rewrite app_nil_r.
Qed.

Lemma only_removeUserSessionById P id : only_calls P (removeUserSessionById id).
Proof.
  intros w. exists []. split; [| reflexivity].
  unfold added. simpl. now rewrite app_nil_r.
Qed.

Lemma steady_createUser P data :
  (forall t a d, P (DaoInsertElemsToDb t a d) = true) ->
  (forall f p, P (DaoGetUser f p) = true) ->
  (forall c k, P (CryptoDecrypt c k) = true) ->
  steady P (createUser data).
Proof.
  intros Hi Hg Hd. unfold createUser.
  apply steady_bind; [apply steady_call, Hi |]. intros _.
  apply steady_bind; [now apply steady_getUser |]. intros u.
  apply steady_if; [apply steady_throw | apply steady_ret].
Qed.

Lemma only_signUp args params : only_calls signUp_call (signUp args params).
Proof.
  unfold signUp. apply only_if; [apply only_throw |].
  unfold signUpAccepted.
  apply only_bind; [now apply steady_only, steady_call |]. intros fromApi.
  apply only_bind; [apply steady_only, steady_destructure |]. intros prof.
  apply only_bind; [now apply steady_only, steady_getUser |]. intros u.
  apply only_if; [apply only_throw |].
  apply only_bind.
  { apply steady_only, steady_promise_all.
    repeat (constructor; [now apply steady_call |]). constructor. }
  intros enc.
  apply only_bind; [now apply steady_only, steady_createUser |]. intros user.
  apply only_bind; [now apply steady_only, steady_generateAuthJWT |].
  intros jwt.
  apply only_bind; [apply only_setUserSession |]. intros _.
  apply only_ret.
Qed.

(* ===================================================================== *)
(** ** The password policy *)
(* ===================================================================== *)

Lemma alnum_not_line_terminator c :
  PassRegEx.alnum c = true -> PassRegEx.line_terminator c = false.
Proof.
  destruct c as [[] [] [] [] [] [] [] []]; vm_compute; congruence.
Qed.

Lemma lookahead_alnum cls s :
  PassRegEx.all_chars PassRegEx.alnum s = true ->
  PassRegEx.lookahead cls s = PassRegEx.some_char cls s.
Proof.
  induction s as [| c s IH]; simpl; [reflexivity |].
  intros H. apply andb_true_iff in H. destruct H as [Hc Hs].
  rewrite (alnum_not_line_terminator _ Hc), IH by assumption.
  reflexivity.
Qed.

Lemma passRegEx_test_iff s :
  PassRegEx.test s = true <->
  (8 <= String.length s
   /\ PassRegEx.all_chars PassRegEx.alnum s = true
   /\ PassRegEx.some_char PassRegEx.lower s = true
   /\ PassRegEx.some_char PassRegEx.upper s = true
   /\ PassRegEx.some_char PassRegEx.digit s = true).
Proof.
  unfold PassRegEx.test, PassRegEx.body. split.
  - intros H.
    apply andb_true_iff in H. destruct H as [H Hbody].
    apply andb_true_iff in H. destruct H as [H Hd].
    apply andb_true_iff in H. destruct H as [Hl Hu].
    apply andb_true_iff in Hbody. destruct Hbody as [Hall Hlen].
    rewrite lookahead_alnum in Hl, Hu, Hd by assumption.
    repeat split; try assumption. now apply Nat.leb_le.
  - intros (Hlen & Hall & Hl & Hu & Hd).
    rewrite !lookahead_alnum by assumption.
    rewrite Hl, Hu, Hd, Hall. apply Nat.leb_le in Hlen. now rewrite Hlen.
Qed.

(* ===================================================================== *)
(** ** verifyUser *)
(* ===================================================================== *)

Lemma verifyUser_by_password args params :
  valid_str (authField args "email")
  && valid_str (authField args "password") = true ->
  verifyUser args params =
  verifyByPassword (authField args "email") (authField args "password")
    (authField args "isSubAccount")
    (paramField params "projection") (paramField params "isFilledSubUsers")
    (paramField params "isDecryptedApiKeys")
    (paramField params "isReturnedPassword").
Proof.
  unfold verifyUser, authField, paramField. cbv zeta.
  intros Hp. rewrite Hp. reflexivity.
Qed.

Lemma verifyUser_by_token args params :
  valid_str (authField args "email")
  && valid_str (authField args "password") = false ->
  valid_str (authField args "jwt") = true ->
  verifyUser args params =
  verifyByToken (authField args "jwt")
    (paramField params "projection") (paramField params "isFilledSubUsers")
    (paramField params "isDecryptedApiKeys")
    (paramField params "isReturnedPassword").
Proof.
  unfold verifyUser, authField, paramField. cbv zeta.
  intros Hp Hj. rewrite Hp, Hj. reflexivity.
Qed.

Lemma verifyUser_ok_obj args params w user w' :
  verifyUser args params w = (Ok user, w') -> exists o, user = JObj o.
Proof.
  unfold verifyUser.
  destruct (valid_str _ && valid_str _).
  - unfold verifyByPassword. intros H.
    apply bind_run in H.
    destruct H as [(u & w1 & _ & H) | (e & _ & Habs)]; [| discriminate].
    apply bind_run in H.
    destruct H as [(ok & w2 & _ & H) | (e & _ & Habs)]; [| discriminate].
    inversion H; subst. eauto.
  - destruct (valid_str _); [| discriminate].
    unfold verifyByToken. intros H.
    repeat (apply bind_run in H;
            destruct H as [(? & ? & _ & H) | (? & _ & Habs)];
            [| discriminate]).
    inversion H; subst. unfold excludeProps.
    destruct (field (spread params) "projection") as [| | | | | | | [| p ps]];
      eauto.
    unfold pick_item. simpl. eauto.
Qed.

(** C3.  A [verifyUser] call whose auth object holds neither a non-empty
    string email together with a non-empty string password nor a non-empty
    string jwt rejects with [AuthError] and leaves everything as it was: no
    call to storage or crypto is made.  Otherwise exactly one of the two
    branches runs: the email-and-password one when that pair is there, the
    token one when it is not and a jwt is. *)
Theorem verifyUser_one_path_or_reject (args params : JsVal) :
  let email := authField args "email" in
  let password := authField args "password" in
  let jwt := authField args "jwt" in
  (valid_str email && valid_str password = false ->
   valid_str jwt = false ->
   forall w, verifyUser args params w = (Err AuthError, w))
  /\
  (valid_str email && valid_str password = true ->
   verifyUser args params =
   verifyByPassword email password (authField args "isSubAccount")
     (paramField params "projection") (paramField params "isFilledSubUsers")
     (paramField params "isDecryptedApiKeys")
     (paramField params "isReturnedPassword"))
  /\
  (valid_str email && valid_str password = false ->
   valid_str jwt = true ->
   verifyUser args params =
   verifyByToken jwt
     (paramField params "projection") (paramField params "isFilledSubUsers")
     (paramField params "isDecryptedApiKeys")
     (paramField params "isReturnedPassword")).
Proof.
  cbv zeta. split; [| split].
  - unfold verifyUser, authField. intros Hp Hj w. rewrite Hp, Hj. reflexivity.
  - apply verifyUser_by_password.
  - apply verifyUser_by_token.
Qed.

(* ===================================================================== *)
(** ** generateAuthJWT *)
(* ===================================================================== *)

(** C7.  [generateAuthJWT] branches three ways on its payload.  With a
    non-empty string email it signs one token: over the encrypted password
    of the payload when there is one, else over the plaintext password
    encrypted under the process secret first; with neither it rejects with
    [AuthError] without any call; and a successful run has made exactly one
    signing call, its last, whose answer is the token.  Without such an
    email it answers the jwt of the payload unchanged, without any call,
    when that is a non-empty string, and rejects with [AuthError]
    otherwise. *)
Theorem generateAuthJWT_three_way (payload : JsVal) :
  let p := spread payload in
  let _id := field p "_id" in
  let email := field p "email" in
  let encryptedPassword := field p "encryptedPassword" in
  let password := field p "password" in
  let jwt := field p "jwt" in
  let signing c :=
    CryptoGenerateJWT
      (JObj [("_id", _id); ("email", email); ("encryptedPassword", c)]) in
  (valid_str email = true ->
     (valid_str encryptedPassword = true ->
      generateAuthJWT payload = call (signing encryptedPassword))
     /\
     (valid_str encryptedPassword = false -> valid_str password = true ->
      generateAuthJWT payload =
      (c <- call (CryptoEncrypt password (secretKey env)) ;;
       call (signing c)))
     /\
     (valid_str encryptedPassword = false -> valid_str password = false ->
      forall w, generateAuthJWT payload w = (Err AuthError, w))
     /\
     (forall w token w',
        generateAuthJWT payload w = (Ok token, w') ->
        exists evs c,
          added w w' (evs ++ [(signing c, Ok token)]) /\
          count_calls is_sign (evs ++ [(signing c, Ok token)]) = 1))
  /\
  (valid_str email = false ->
     (valid_str jwt = true ->
      forall w, generateAuthJWT payload w = (Ok jwt, w))
     /\
     (valid_str jwt = false ->
      forall w, generateAuthJWT payload w = (Err AuthError, w))).
Proof.
  cbv zeta. unfold generateAuthJWT. split; intros He; rewrite He.
  - split; [| split; [| split]].
    + intros Hc. rewrite Hc. reflexivity.
    + intros Hc Hp. rewrite Hc, Hp. reflexivity.
    + intros Hc Hp w. rewrite Hc, Hp. reflexivity.
    + intros w token w'.
      destruct (valid_str (field (spread payload) "encryptedPassword")).
      * intros H. apply call_run in H. destruct H as (_ & _ & Ht).
        exists [], (field (spread payload) "encryptedPassword").
        split; [exact Ht | reflexivity].
      * destruct (valid_str (field (spread payload) "password"));
          [| discriminate].
        intros H. apply bind_run in H.
        destruct H as [(c & w1 & Hc & H) | (e & _ & Habs)]; [| discriminate].
        apply call_run in Hc. destruct Hc as (_ & _ & Ht1).
        apply call_run in H. destruct H as (_ & _ & Ht2).
        exists [(CryptoEncrypt (field (spread payload) "password")
                   (secretKey env), Ok c)], c.
        split; [| reflexivity].
        unfold added. rewrite Ht2, Ht1. now rewrite <- app_assoc.
  - split; intros Hj w; rewrite Hj; reflexivity.
Qed.

(* ===================================================================== *)
(** ** signUp *)
(* ===================================================================== *)

Lemma signUp_refused args params w :
  signUpRefused args = true -> signUp args params w = (Err AuthError, w).
Proof. unfold signUp. intros ->. reflexivity. Qed.

Lemma signUp_weak_password args :
  isSecurePassword (authField args "password") = false ->
  signUpRefused args = true.
Proof.
  unfold signUpRefused, authField. cbv zeta. intros ->.
  simpl. now rewrite !orb_true_r.
Qed.

Lemma signUp_first_call args params w :
  signUpRefused args = false ->
  exists r evs,
    added w (snd (signUp args params w)) ((RCheckAuthInApi args, r) :: evs).
Proof.
  intros Hr. unfold signUp. rewrite Hr. unfold signUpAccepted.
  match goal with
  | |- context [bind (call ?c) ?k] => set (rest := k)
  end.
  unfold bind. destruct (call (RCheckAuthInApi args) w) as [r w1] eqn:Hc.
  apply call_run in Hc. destruct Hc as (_ & _ & Ht).
  exists r. destruct r as [fromApi | e].
  - assert (Hrest : only_calls any_call (rest fromApi)).
    { (* the continuation, run from any world, only appends to the log *)
      subst rest. cbv beta.
      apply only_bind; [apply steady_only, steady_destructure |]. intros prof.
      apply only_bind; [now apply steady_only, steady_getUser |]. intros u.
      apply only_if; [apply only_throw |].
      apply only_bind.
      { apply steady_only, steady_promise_all.
        repeat (constructor; [now apply steady_call |]). constructor. }
      intros enc.
      apply only_bind; [now apply steady_only, steady_createUser |].
      intros user.
      apply only_bind; [now apply steady_only, steady_generateAuthJWT |].
      intros jwt.
      apply only_bind; [apply only_setUserSession |]. intros _.
      apply only_ret. }
    destruct (Hrest w1) as [evs [Hadd _]]. exists evs.
    unfold added in *. rewrite Hadd, Ht. now rewrite <- app_assoc.
  - exists []. exact Ht.
Qed.

(** C9 (as the code has it).  The policy accepts exactly the passwords of
    at least eight characters, all of them ASCII letters or digits, with
    at least one lowercase letter, one uppercase letter and one digit.
    [signUp] rejects every other password with [AuthError] before any
    call to a collaborator; and for an accepted one (with usable keys that
    are not those of a sub-account) it goes on to its first call, the
    upstream check of the keys. *)
Theorem signUp_password_policy :
  (forall s,
     isSecurePassword (JStr s) = true <->
     (8 <= String.length s
      /\ PassRegEx.all_chars PassRegEx.alnum s = true
      /\ PassRegEx.some_char PassRegEx.lower s = true
      /\ PassRegEx.some_char PassRegEx.upper s = true
      /\ PassRegEx.some_char PassRegEx.digit s = true))
  /\
  (forall args params w,
     isSecurePassword (authField args "password") = false ->
     signUp args params w = (Err AuthError, w))
  /\
  (forall args params w,
     valid_str (authField args "apiKey") = true ->
     valid_str (authField args "apiSecret") = true ->
     isSubAccountApiKeys env
       (JObj [("apiKey", authField args "apiKey");
              ("apiSecret", authField args "apiSecret")]) = false ->
     valid_str (authField args "password") = true ->
     isSecurePassword (authField args "password") = true ->
     exists r evs,
       added w (snd (signUp args params w))
         ((RCheckAuthInApi args, r) :: evs)).
Proof.
  split; [| split].
  - intros s. apply passRegEx_test_iff.
  - intros args params w H. now apply signUp_refused, signUp_weak_password.
  - intros args params w Hk Hs Hsub Hv Hp. apply signUp_first_call.
    unfold signUpRefused. unfold authField in *. cbv zeta.
    now rewrite Hk, Hs, Hv, Hp, Hsub.
Qed.

Ltac norm_app :=
  repeat first [rewrite <- app_assoc | rewrite app_nil_r | progress simpl].

Ltac run_ok H a w1 Ha :=
  apply bind_run in H;
  destruct H as [(a & w1 & Ha & H) | (? & _ & ?)]; [| discriminate].

Lemma added_refl (w : World) : added w w [].
Proof. unfold added. now rewrite app_nil_r. Qed.

Lemma added_trans {w w1 w2 : World} {e1 e2} :
  added w w1 e1 -> added w1 w2 e2 -> added w w2 (e1 ++ e2).
Proof. unfold added. intros H1 H2. rewrite H2, H1. now rewrite app_assoc. Qed.

Lemma call_added c w r w1 : call c w = (r, w1) -> added w w1 [(c, r)].
Proof. intros H. now apply call_run in H. Qed.

Lemma steady_added {A} P (m : M A) w r w1 :
  steady P m -> m w = (r, w1) ->
  exists evs, added w w1 evs /\ all_calls P evs = true.
Proof. intros Hs Hr. exact (proj2 (steady_run P m w r w1 Hs Hr)). Qed.

Lemma steady_sessions {A} P (m : M A) w r w1 :
  steady P m -> m w = (r, w1) -> sessions w1 = sessions w.
Proof. intros Hs Hr. exact (proj1 (steady_run P m w r w1 Hs Hr)). Qed.

(** [getUser] without a password in its parameters is the read alone. *)
Lemma getUser_plain filter params w :
  valid_str (paramField params "password") = false ->
  paramField params "projection" = JUndefined ->
  getUser filter params w = call (DaoGetUser filter params) w.
Proof.
  unfold getUser, paramField, valid_str. intros Hp Hpr. rewrite Hpr.
  assert (Hc : negb (truthy (field (spread params) "password"))
               || negb (is_string (field (spread params) "password")) = true).
  { destruct (truthy _), (is_string _); simpl in *; congruence. }
  rewrite Hc. unfold bind, excludeProps, ret.
  destruct (call (DaoGetUser filter params) w) as [[u | e] w1]; reflexivity.
Qed.

Lemma createUser_unfold data w :
  createUser data w =
  (call (insertUser data) ;;;
   user <- call (rereadUser data) ;;
   if has_integer_id user then ret user else throw AuthError) w.
Proof.
  unfold createUser, insertUser, rereadUser, has_integer_id, bind.
  destruct (call _ w) as [[ins | e] w1]; [| reflexivity].
  rewrite getUser_plain by reflexivity.
  destruct (call _ w1) as [[user | e] w2]; [| reflexivity].
  destruct (truthy user), (is_object user), (isInteger _); reflexivity.
Qed.

Lemma createUser_ok data w user w' :
  createUser data w = (Ok user, w') ->
  has_integer_id user = true /\
  exists ins w1,
    call (insertUser data) w = (Ok ins, w1) /\
    call (rereadUser data) w1 = (Ok user, w').
Proof.
  rewrite createUser_unfold. intros H.
  run_ok H ins w1 Hins. run_ok H u w2 Hre.
  destruct (has_integer_id u) eqn:Hid; [| discriminate].
  inversion H; subst. split; [exact Hid |]. eauto.
Qed.

Lemma createUser_bad_reread data w ins w1 user w2 :
  call (insertUser data) w = (Ok ins, w1) ->
  call (rereadUser data) w1 = (Ok user, w2) ->
  has_integer_id user = false ->
  createUser data w = (Err AuthError, w2).
Proof.
  intros Hins Hre Hid. rewrite createUser_unfold.
  erewrite bind_ok by exact Hins. erewrite bind_ok by exact Hre.
  now rewrite Hid.
Qed.

Lemma promise_all_steady_added P ms w r w1 :
  Forall (steady P) ms -> promise_all ms w = (r, w1) ->
  exists evs, added w w1 evs /\ all_calls P evs = true.
Proof.
  intros Hs Hr. eapply steady_added; [| exact Hr].
  now apply steady_promise_all.
Qed.

(** A successful [signUp] has, among its calls, the insertion of a row
    followed at once by a read of it that answered a row with an integer
    [_id]. *)
Lemma signUp_ok_reread args params w res w' :
  signUp args params w = (Ok res, w') ->
  exists data ins user before after,
    added w w'
      (before ++ [(insertUser data, Ok ins); (rereadUser data, Ok user)]
              ++ after) /\
    has_integer_id user = true.
Proof.
  unfold signUp. destruct (signUpRefused args); [discriminate |].
  unfold signUpAccepted. intros H.
  run_ok H fromApi w1 Hchk. apply call_added in Hchk.
  run_ok H prof w2 Hprof.
  apply destructure_run in Hprof. destruct Hprof as [-> _].
  run_ok H userFromDb w3 Hpre.
  eapply steady_added in Hpre; [| now apply (steady_getUser any_call)].
  destruct Hpre as (e_pre & Hpre & _).
  match type of H with
  | (if ?c then _ else _) _ = _ => destruct c; [discriminate |]
  end.
  run_ok H enc w4 Henc.
  eapply promise_all_steady_added with (P := any_call) in Henc;
    [| repeat (constructor; [now apply steady_call |]); constructor].
  destruct Henc as (e_enc & Henc & _).
  run_ok H user w5 Hcreate.
  apply createUser_ok in Hcreate.
  destruct Hcreate as (Hid & ins & w45 & Hins & Hre).
  apply call_added in Hins. apply call_added in Hre.
  run_ok H jwt w6 Hjwt.
  eapply steady_added in Hjwt;
    [| now apply (steady_generateAuthJWT any_call)].
  destruct Hjwt as (e_jwt & Hjwt & _).
  run_ok H u w7 Hset. inversion H; subst. clear H.
  assert (Hset' : added w6 w' []).
  { unfold setUserSession in Hset. inversion Hset; subst.
    unfold added. simpl. now rewrite app_nil_r. }
  match type of Hins with
  | added _ _ [(insertUser ?d, _)] => exists d
  end.
  exists ins, user, ((RCheckAuthInApi args, Ok fromApi) :: e_pre ++ e_enc),
    e_jwt.
  split; [| exact Hid].
  pose proof (added_trans Hchk Hpre) as H1.
  pose proof (added_trans H1 Henc) as H2.
  pose proof (added_trans H2 Hins) as H3.
  pose proof (added_trans H3 Hre) as H4.
  pose proof (added_trans H4 Hjwt) as H5.
  pose proof (added_trans H5 Hset') as H6.
  unfold added in *. rewrite H6. f_equal. norm_app. reflexivity.
Qed.

(** C6.  [createUser] inserts the row and reads it back by email.  It
    answers only a row read back that is an object with an integer
    [_id]; when the read answers anything else it rejects with
    [AuthError].  So a successful [signUp] always has that insertion
    followed by a read that found a row with an integer [_id]. *)
Theorem createUser_rereads_integer_id :
  (forall data w user w',
     createUser data w = (Ok user, w') ->
     has_integer_id user = true /\
     exists ins, added w w' [(insertUser data, Ok ins);
                             (rereadUser data, Ok user)])
  /\
  (forall data w ins w1 user w2,
     call (insertUser data) w = (Ok ins, w1) ->
     call (rereadUser data) w1 = (Ok user, w2) ->
     has_integer_id user = false ->
     createUser data w = (Err AuthError, w2))
  /\
  (forall args params w res w',
     signUp args params w = (Ok res, w') ->
     exists data ins user before after,
       added w w'
         (before ++ [(insertUser data, Ok ins); (rereadUser data, Ok user)]
                 ++ after) /\
       has_integer_id user = true).
Proof.
  split; [| split].
  - intros data w user w' H. apply createUser_ok in H.
    destruct H as (Hid & ins & w1 & Hins & Hre). split; [exact Hid |].
    exists ins. apply call_added in Hins. apply call_added in Hre.
    exact (added_trans Hins Hre).
  - apply createUser_bad_reread.
  - apply signUp_ok_reread.
Qed.

(* ===================================================================== *)
(** ** Zero-row answers of storage *)
(* ===================================================================== *)

Lemma added_inj {w w' : World} {e1 e2} : added w w' e1 -> added w w' e2 -> e1 = e2.
Proof.
  unfold added. intros H1 H2. rewrite H1 in H2. now apply app_inv_head in H2.
Qed.

Lemma in_all_calls P evs ev :
  all_calls P evs = true -> In ev evs -> P (fst ev) = true.
Proof.
  unfold all_calls. rewrite forallb_forall. intros H Hin. now apply H.
Qed.

(** An answer that is not truthy is not taken for a failure. *)
Lemma no_changes_falsy res : truthy res = false -> no_changes res = false.
Proof. unfold no_changes. now intros ->. Qed.

Lemma zero_changes_no_changes res : zero_changes res -> no_changes res = true.
Proof.
  intros (o & -> & Hc). unfold no_changes. simpl. now rewrite Hc.
Qed.

(** A computation of the shape
    [a <- pre ;; res <- call (c a) ;; if bad res then throw e else post]
    in which no other call is of the kind [Q] of the guarded one: whenever
    a call of that kind got a [bad] answer, the run was rejected with
    [e]. *)
Lemma guarded_call_rejects {A B} (Q : ExtCall -> bool)
  (pre : M A) (c : A -> ExtCall) (bad : JsVal -> bool) (e : Error)
  (post : A -> JsVal -> M B) :
  only_calls (fun x => negb (Q x)) pre ->
  (forall a res, only_calls (fun x => negb (Q x)) (post a res)) ->
  forall w r w' evs c' res',
    (a <- pre ;; res <- call (c a) ;;
     if bad res then throw e else post a res) w = (r, w') ->
    added w w' evs ->
    In (c', Ok res') evs -> Q c' = true -> bad res' = true ->
    r = Err e.
Proof.
  intros Hpre Hpost w r w' evs c' res' Hrun Hadd Hin HQ Hbad.
  assert (Hno : forall l, all_calls (fun x => negb (Q x)) l = true ->
                          ~ In (c', Ok res') l).
  { intros l Hl Hl'. apply (in_all_calls _ _ _ Hl) in Hl'. simpl in Hl'.
    rewrite HQ in Hl'. discriminate. }
  unfold bind in Hrun. destruct (Hpre w) as (e1 & Ha1 & Hp1).
  destruct (pre w) as [[a | e0] w1]; simpl in Ha1.
  - destruct (call (c a) w1) as [[res | e0] w2] eqn:Hc;
      apply call_added in Hc.
    + destruct (bad res) eqn:Hb.
      * now inversion Hrun.
      * destruct (Hpost a res w2) as (e2 & Ha2 & Hp2).
        rewrite Hrun in Ha2. simpl in Ha2.
        pose proof (added_trans (added_trans Ha1 Hc) Ha2) as Hall.
        rewrite (added_inj Hadd Hall) in Hin.
        apply in_app_or in Hin. destruct Hin as [Hin | Hin];
          [| now apply Hno in Hin].
        apply in_app_or in Hin. destruct Hin as [Hin | [Hin | []]];
          [now apply Hno in Hin |].
        inversion Hin; subst. congruence.
    + inversion Hrun; subst.
      pose proof (added_trans Ha1 Hc) as Hall.
      rewrite (added_inj Hadd Hall) in Hin.
      apply in_app_or in Hin. destruct Hin as [Hin | [Hin | []]];
        [now apply Hno in Hin | discriminate].
  - inversion Hrun; subst. rewrite (added_inj Hadd Ha1) in Hin.
    now apply Hno in Hin.
Qed.

(** [signIn] and [signOut] have that shape around their update. *)
Lemma signIn_guarded args params :
  exists (pre : M (JsVal * Fields)) c post,
    only_calls not_update pre /\
    (forall a res, only_calls not_update (post a res)) /\
    forall w,
      signIn args params w =
      (a <- pre ;; res <- call (c a) ;;
       if no_changes res then throw AuthError else post a res) w.
Proof.
  exists
    (user <- verifyUser
       (JObj [("auth", JObj [("email", authField args "email");
                             ("password", authField args "password");
                             ("isSubAccount", authField args "isSubAccount");
                             ("jwt", authField args "jwt")])])
       (JObj [("isDecryptedApiKeys", JBool true);
              ("isReturnedPassword", JBool true)]) ;;
     fromApi <- call (RCheckAuthInApi
       (JObj [("auth", JObj [("apiKey", field (spread user) "apiKey");
                             ("apiSecret", field (spread user) "apiSecret")])])) ;;
     prof <- destructure fromApi ;;
     ret (user, prof)).
  exists (fun a =>
    DaoUpdateCollBy USERS
      (JObj [("_id", field (spread (fst a)) "_id");
             ("email", field (spread (fst a)) "email")])
      (JObj [ ("id", field (snd a) "id");
              ("timezone", field (snd a) "timezone");
              ("username", field (snd a) "username");
              ("email", field (snd a) "email");
              ("active", serializeVal env
                 (with_default (paramField params "active") (JBool true)));
              ("isDataFromDb", serializeVal env
                 (with_default (paramField params "isDataFromDb")
                    (JBool true))) ])).
  exists (fun a res =>
    resJWT <- generateAuthJWT
      (JObj [ ("_id", field (spread (fst a)) "_id");
              ("email", freshEmail (authField args "email")
                          (field (snd a) "email")
                          (field (spread (fst a)) "email"));
              ("password", field (spread (fst a)) "password");
              ("jwt", authField args "jwt") ]) ;;
    setUserSession
      (JObj [("_id", field (spread (fst a)) "_id");
             ("email", field (snd a) "email"); ("jwt", resJWT)]) ;;;
    ret (JObj [("email", field (snd a) "email");
               ("isSubAccount", field (spread (fst a)) "isSubAccount");
               ("jwt", resJWT)])).
  split; [| split].
  - apply only_bind; [now apply steady_only, steady_verifyUser |]. intros u.
    apply only_bind; [now apply steady_only, steady_call |]. intros f.
    apply only_bind; [apply steady_only, steady_destructure |]. intros p.
    apply only_ret.
  - intros a res.
    apply only_bind; [now apply steady_only, steady_generateAuthJWT |].
    intros j. apply only_bind; [apply only_setUserSession |]. intros _.
    apply only_ret.
  - intros w. unfold signIn, authField, paramField, bind.
    destruct (verifyUser _ _ w) as [[user | e] w1]; [| reflexivity].
    destruct (call _ w1) as [[fromApi | e] w2]; [| reflexivity].
    destruct (destructure fromApi w2) as [[prof | e] w3]; reflexivity.
Qed.

Lemma signOut_guarded args params :
  exists (pre : M JsVal) c post,
    only_calls not_update pre /\
    (forall a res, only_calls not_update (post a res)) /\
    forall w,
      signOut args params w =
      (a <- pre ;; res <- call (c a) ;;
       if no_changes res then throw AuthError else post a res) w.
Proof.
  exists
    (verifyUser
       (JObj [("auth", JObj [("email", authField args "email");
                             ("password", authField args "password");
                             ("isSubAccount", authField args "isSubAccount");
                             ("jwt", authField args "jwt")])])
       JUndefined).
  exists (fun user =>
    DaoUpdateCollBy USERS
      (JObj [("_id", field (spread user) "_id");
             ("email", field (spread user) "email")])
      (JObj [("active", serializeVal env
                (with_default (paramField params "active") (JBool false)))])).
  exists (fun user res =>
    removeUserSessionById (field (spread user) "_id") ;;; ret (JBool true)).
  split; [| split].
  - now apply steady_only, steady_verifyUser.
  - intros a res. apply only_bind; [apply only_removeUserSessionById |].
    intros _. apply only_ret.
  - intros w. reflexivity.
Qed.

Lemma signIn_zero_changes args params w r w' evs f d res :
  signIn args params w = (r, w') -> added w w' evs ->
  In (DaoUpdateCollBy USERS f d, Ok res) evs -> zero_changes res ->
  r = Err AuthError.
Proof.
  destruct (signIn_guarded args params) as (pre & c & post & Hpre & Hpost & E).
  rewrite E. intros Hrun Hadd Hin Hz.
  eapply (guarded_call_rejects is_update pre c no_changes AuthError post);
    eauto using zero_changes_no_changes.
Qed.

Lemma signOut_zero_changes args params w r w' evs f d res :
  signOut args params w = (r, w') -> added w w' evs ->
  In (DaoUpdateCollBy USERS f d, Ok res) evs -> zero_changes res ->
  r = Err AuthError.
Proof.
  destruct (signOut_guarded args params) as (pre & c & post & Hpre & Hpost & E).
  rewrite E. intros Hrun Hadd Hin Hz.
  eapply (guarded_call_rejects is_update pre c no_changes AuthError post);
    eauto using zero_changes_no_changes.
Qed.

(** *** Computations that call nobody *)

Lemma pure_ret {A} (a : A) : pure_run (ret a).
Proof. intros w r w1 H. now inversion H. Qed.

Lemma pure_throw {A} e : pure_run (@throw A e).
Proof. intros w r w1 H. now inversion H. Qed.

Lemma pure_bind {A B} (m : M A) (k : A -> M B) :
  pure_run m -> (forall a, pure_run (k a)) -> pure_run (bind m k).
Proof.
  intros Hm Hk w r w1 H. apply bind_run in H.
  destruct H as [(a & w0 & Ha & H) | (e & Ha & _)].
  - apply Hm in Ha. subst. now apply Hk in H.
  - now apply Hm in Ha.
Qed.

Lemma pure_if {A} (b : bool) (m1 m2 : M A) :
  pure_run m1 -> pure_run m2 -> pure_run (if b then m1 else m2).
Proof. destruct b; auto. Qed.

Lemma pure_destructure v : pure_run (destructure v).
Proof. intros w r w1 H. now apply destructure_run in H. Qed.

Lemma pure_get v k : pure_run (get v k).
Proof.
  unfold get. apply pure_bind; [apply pure_destructure |].
  intros o. apply pure_ret.
Qed.

Lemma pure_same_creds a b : pure_run (same_creds a b).
Proof.
  unfold same_creds.
  apply pure_bind; [apply pure_get |]. intros ak.
  apply pure_bind; [apply pure_get |]. intros bk.
  apply pure_if; [| apply pure_ret].
  apply pure_bind; [apply pure_get |]. intros asec.
  apply pure_bind; [apply pure_get |]. intros bsec. apply pure_ret.
Qed.

Lemma pure_someM p l : (forall x, pure_run (p x)) -> pure_run (someM p l).
Proof.
  intros Hp. induction l as [| x l IH]; simpl; [apply pure_ret |].
  apply pure_bind; [apply Hp |]. intros b.
  apply pure_if; [apply pure_ret | exact IH].
Qed.

Lemma pure_everyM p l : (forall x, pure_run (p x)) -> pure_run (everyM p l).
Proof.
  intros Hp. induction l as [| x l IH]; simpl; [apply pure_ret |].
  apply pure_bind; [apply Hp |]. intros b.
  apply pure_if; [exact IH | apply pure_ret].
Qed.

Lemma pure_findM p l : (forall x, pure_run (p x)) -> pure_run (findM p l).
Proof.
  intros Hp. induction l as [| x l IH]; simpl; [apply pure_ret |].
  apply pure_bind; [apply Hp |]. intros b.
  apply pure_if; [apply pure_ret | exact IH].
Qed.

Lemma pure_filterM p l : (forall x, pure_run (p x)) -> pure_run (filterM p l).
Proof.
  intros Hp. induction l as [| x l IH]; simpl; [apply pure_ret |].
  apply pure_bind; [apply Hp |]. intros b.
  apply pure_bind; [exact IH |]. intros r. apply pure_ret.
Qed.

Lemma pure_mapM f l : (forall x, pure_run (f x)) -> pure_run (mapM f l).
Proof.
  intros Hf. induction l as [| x l IH]; simpl; [apply pure_ret |].
  apply pure_bind; [apply Hf |]. intros y.
  apply pure_bind; [exact IH |]. intros r. apply pure_ret.
Qed.

Lemma pure_removingOf subUsers processed :
  pure_run (removingOf subUsers processed).
Proof.
  unfold removingOf. apply pure_filterM. intros u.
  apply pure_everyM. intros p.
  apply pure_bind; [apply pure_same_creds |]. intros b. apply pure_ret.
Qed.

Lemma pure_steady {A} P (m : M A) : pure_run m -> steady P m.
Proof.
  intros Hm w. destruct (m w) as [r w1] eqn:E. apply Hm in E. subst.
  apply logs_refl.
Qed.

(** What follows the removal in [updateFinish]. *)
Lemma only_updateFinish_tail (b : bool) _id data (res : JsVal) :
  only_calls not_remove
    ((if b
      then call (DaoUpdateCollBy LEDGERS
                   (JObj [("user_id", _id)])
                   (JObj [("_isBalanceRecalced", JNull)])) ;;; ret tt
      else ret tt) ;;;
     setUserSession data ;;; ret res).
Proof.
  apply only_bind.
  - apply only_if; [| apply only_ret].
    apply only_bind; [now apply steady_only, steady_call |].
    intros _. apply only_ret.
  - intros _. apply only_bind; [apply only_setUserSession |].
    intros _. apply only_ret.
Qed.

Lemma updateFinish_zero_changes su _id email token subUsers st w r w' evs
  a f res :
  updateFinish su _id email token subUsers st w = (r, w') ->
  added w w' evs ->
  In (DaoRemoveElemsFromDb USERS a f, Ok res) evs -> zero_changes res ->
  r = Err UserRemovingError.
Proof.
  unfold updateFinish. intros Hrun Hadd Hin Hz.
  apply bind_run in Hrun.
  destruct Hrun as [(removing & w1 & Hrem & Hrun) | (e & Hrem & _)].
  2: { apply pure_removingOf in Hrem. subst w'.
       rewrite (added_inj Hadd (added_refl w)) in Hin. destruct Hin. }
  apply pure_removingOf in Hrem. subst w1.
  destruct (0 <? length removing)%nat.
  - set (pre := mapM (fun u => get u "_id") removing).
    set (c := fun ids : list JsVal =>
                DaoRemoveElemsFromDb USERS JNull
                  (JObj [("$in", JObj [("_id", JArr ids)])])).
    set (post := fun (_ : list JsVal) (_ : JsVal) =>
      (if (0 <? length (addedSubUsers st))%nat || true
       then call (DaoUpdateCollBy LEDGERS
                    (JObj [("user_id", _id)])
                    (JObj [("_isBalanceRecalced", JNull)])) ;;; ret tt
       else ret tt) ;;;
      setUserSession
        (JObj (obj_set "subUsers" (JArr (processedSubUsers st)) (spread su))) ;;;
      ret (JObj [("email", email); ("isSubAccount", JBool true);
                 ("token", token)])).
    eapply (guarded_call_rejects is_remove pre c no_changes
              UserRemovingError post);
      eauto using zero_changes_no_changes.
    + apply steady_only, pure_steady, pure_mapM. intros u. apply pure_get.
    + intros ids rr. apply only_updateFinish_tail.
    + rewrite <- Hrun. subst pre c post. unfold bind.
      destruct (mapM _ removing w) as [[ids | e] w1]; [| reflexivity].
      destruct (call _ w1) as [[rr | e] w2]; [| reflexivity].
      destruct (no_changes rr); reflexivity.
  - match type of Hrun with
    | bind (ret tt) (fun _ => ?m) w = _ =>
        change (m w = (r, w')) in Hrun;
        destruct (only_updateFinish_tail
                    ((0 <? length (addedSubUsers st))%nat || false) _id
                    (JObj (obj_set "subUsers" (JArr (processedSubUsers st))
                             (spread su)))
                    (JObj [("email", email); ("isSubAccount", JBool true);
                           ("token", token)]) w) as (e2 & Ha2 & Hp2)
    end.
    rewrite Hrun in Ha2. simpl in Ha2.
    rewrite (added_inj Hadd Ha2) in Hin.
    apply (in_all_calls _ _ _ Hp2) in Hin. discriminate.
Qed.

(** C1.  Whenever storage answers the profile update of [signIn] or the
    deactivation update of [signOut] with a result that reports zero
    changes, the call is rejected with [AuthError]; and whenever it
    answers the removal of the sub-users that [updateSubAccount] leaves
    out with such a result, that is rejected with [UserRemovingError].
    No run in which one of these calls reported zero changes ends in
    success. *)
Theorem zero_changes_is_an_error :
  (forall args params w r w' evs f d res,
     signIn args params w = (r, w') -> added w w' evs ->
     In (DaoUpdateCollBy USERS f d, Ok res) evs -> zero_changes res ->
     r = Err AuthError)
  /\
  (forall args params w r w' evs f d res,
     signOut args params w = (r, w') -> added w w' evs ->
     In (DaoUpdateCollBy USERS f d, Ok res) evs -> zero_changes res ->
     r = Err AuthError)
  /\
  (forall subAccountUser _id email token subUsers st w r w' evs a f res,
     updateFinish subAccountUser _id email token subUsers st w = (r, w') ->
     added w w' evs ->
     In (DaoRemoveElemsFromDb USERS a f, Ok res) evs -> zero_changes res ->
     r = Err UserRemovingError).
Proof.
  split; [| split].
  - apply signIn_zero_changes.
  - apply signOut_zero_changes.
  - apply updateFinish_zero_changes.
Qed.

(* ===================================================================== *)
(** ** signIn *)
(* ===================================================================== *)

Lemma val_eqb_refl : forall v, val_eqb v v = true.
Proof.
  fix IH 1. intros [| | b | n | | s | fields | items]; simpl;
    try reflexivity.
  - apply Bool.eqb_reflx.
  - apply Z.eqb_refl.
  - apply String.eqb_refl.
  - revert fields. fix IHf 1. intros [| [k v] fields]; [reflexivity |].
    rewrite String.eqb_refl, IH, IHf. reflexivity.
  - revert items. fix IHl 1. intros [| v items]; [reflexivity |].
    rewrite IH, IHl. reflexivity.
Qed.

Lemma map_get_set k v m : map_get k (map_set k v m) = Some v.
Proof.
  induction m as [| [k' v'] m IH]; simpl.
  - now rewrite val_eqb_refl.
  - destruct (val_eqb k k') eqn:E; simpl; rewrite E; [reflexivity | exact IH].
Qed.

(** When the email handed to [generateAuthJWT] by [signIn] is a usable
    one: upstream answered a non-empty string, and the caller gave an
    email or upstream's differs from the stored one. *)
Lemma freshEmail_valid email emailFromApi emailFromDb :
  valid_str (freshEmail email emailFromApi emailFromDb) =
  (valid_str email || negb (strict_eq emailFromApi emailFromDb))
  && valid_str emailFromApi.
Proof.
  unfold freshEmail.
  destruct (valid_str email || negb (strict_eq emailFromApi emailFromDb));
    reflexivity.
Qed.

Lemma setUserSession_run data w r w' :
  setUserSession data w = (r, w') ->
  trace w' = trace w /\
  sessions w' =
  map_set (field (spread data) "_id")
    (sessionEntry (field (spread data) "_id") (field (spread data) "email")
       (field (spread data) "jwt"))
    (sessions w).
Proof. unfold setUserSession. intros H. inversion H; subst. now split. Qed.

(** The token [generateAuthJWT] answers in [signIn]: signed anew over the
    password encrypted under the process secret when the email of the
    payload is a non-empty string, the token of the payload otherwise. *)
Lemma generateAuthJWT_signIn _id email password jwt w token w' :
  generateAuthJWT
    (JObj [("_id", _id); ("email", email); ("password", password);
           ("jwt", jwt)]) w = (Ok token, w') ->
  if valid_str email
  then exists c,
         added w w'
           [(CryptoEncrypt password (secretKey env), Ok c);
            (CryptoGenerateJWT
               (JObj [("_id", _id); ("email", email);
                      ("encryptedPassword", c)]), Ok token)]
  else w' = w /\ token = jwt /\ valid_str jwt = true.
Proof.
  unfold generateAuthJWT. simpl spread.
  change (field _ "_id") with _id. change (field _ "email") with email.
  change (field _ "password") with password.
  change (field _ "jwt") with jwt.
  change (field _ "encryptedPassword") with JUndefined.
  destruct (valid_str email).
  - simpl. destruct (valid_str password); [| discriminate].
    intros H. run_ok H c w1 Hc.
    apply call_added in Hc. apply call_added in H.
    exists c. exact (added_trans Hc H).
  - destruct (valid_str jwt); [| discriminate].
    intros H. inversion H; subst. auto.
Qed.

Lemma verifyUser_logs args params w r w1 :
  verifyUser args params w = (r, w1) -> logs verify_call w w1.
Proof.
  apply steady_run. now apply steady_verifyUser.
Qed.

Lemma generateAuthJWT_logs payload w r w1 :
  generateAuthJWT payload w = (r, w1) -> logs token_call w w1.
Proof.
  apply steady_run. now apply steady_generateAuthJWT.
Qed.

Lemma signIn_ok args params w res w' :
  signIn args params w = (Ok res, w') ->
  exists user w1 fromApi updRes resJWT before after,
    let _id := field (spread user) "_id" in
    let emailFromDb := field (spread user) "email" in
    let emailFromApi := field (spread fromApi) "email" in
    let fresh := freshEmail (authField args "email") emailFromApi emailFromDb in
    verifyUser (signInAuth args) signInParams w = (Ok user, w1) /\
    added w w'
      (before ++
       [(signInCheck user, Ok fromApi);
        (signInUpdate env params user fromApi, Ok updRes)] ++ after) /\
    res = JObj [("email", emailFromApi);
                ("isSubAccount", field (spread user) "isSubAccount");
                ("jwt", resJWT)] /\
    sessions w' = map_set _id (sessionEntry _id emailFromApi resJWT)
                    (sessions w) /\
    (if valid_str fresh
     then exists c,
            after =
            [(CryptoEncrypt (field (spread user) "password") (secretKey env),
              Ok c);
             (CryptoGenerateJWT
                (JObj [("_id", _id); ("email", emailFromApi);
                       ("encryptedPassword", c)]), Ok resJWT)]
     else after = [] /\ resJWT = authField args "jwt"
          /\ valid_str resJWT = true).
Proof.
  unfold signIn. intros H.
  run_ok H user w1 Hv. pose proof Hv as Hv'.
  run_ok H fromApi w2 Hchk.
  run_ok H prof w3 Hprof.
  apply destructure_run in Hprof. destruct Hprof as [-> Hprof].
  destruct Hprof as [[Habs _] | [Hprof _]]; [discriminate |].
  inversion Hprof; subst prof. clear Hprof.
  run_ok H updRes w4 Hupd.
  destruct (no_changes updRes); [discriminate |].
  run_ok H resJWT w5 Hjwt.
  run_ok H u w6 Hset. inversion H; subst. clear H.
  apply setUserSession_run in Hset. destruct Hset as [Htr Hss].
  simpl in Hss.
  apply verifyUser_logs in Hv'. destruct Hv' as (Hs1 & before & Hbefore & _).
  apply call_run in Hchk. destruct Hchk as (_ & Hs2 & Ht2).
  apply call_run in Hupd. destruct Hupd as (_ & Hs4 & Ht4).
  pose proof (proj1 (generateAuthJWT_logs _ _ _ _ Hjwt)) as Hs5.
  apply generateAuthJWT_signIn in Hjwt.
  assert (Hafter : exists after, added w4 w5 after /\
    (if valid_str (freshEmail (authField args "email")
                     (field (spread fromApi) "email")
                     (field (spread user) "email"))
     then exists c,
            after =
            [(CryptoEncrypt (field (spread user) "password") (secretKey env),
              Ok c);
             (CryptoGenerateJWT
                (JObj [("_id", field (spread user) "_id");
                       ("email", field (spread fromApi) "email");
                       ("encryptedPassword", c)]), Ok resJWT)]
     else after = [] /\ resJWT = authField args "jwt"
          /\ valid_str resJWT = true)).
  { unfold authField in *.
    destruct (valid_str (freshEmail _ _ _)) eqn:Hfresh.
    - destruct Hjwt as (c & Hc).
      assert (Hfe : freshEmail
                (field (spread (field (spread args) "auth")) "email")
                (field (spread fromApi) "email")
                (field (spread user) "email")
              = field (spread fromApi) "email").
      { revert Hfresh. unfold freshEmail.
        destruct (_ || _); [reflexivity | discriminate]. }
      rewrite Hfe in Hc. eexists. split; [exact Hc |]. eauto.
    - destruct Hjwt as (-> & -> & Hj). exists []. split; [apply added_refl |].
      auto. }
  destruct Hafter as (after & Ha & Hcase).
  exists user, w1, fromApi, updRes, resJWT, before, after. cbv zeta.
  split; [exact Hv |]. split; [| split; [reflexivity | split]].
  - unfold added in *. rewrite Htr, Ha, Ht4, Ht2, Hbefore.
    unfold signInCheck, signInUpdate, paramField. norm_app. reflexivity.
  - rewrite Hss, Hs5, Hs4, Hs2, Hs1. reflexivity.
  - exact Hcase.
Qed.

(** C8 (as the code has it).  After a successful [signIn] the update of
    the row of the verified identity with the external id, timezone,
    username and email that upstream has just answered was sent to
    storage, the session entry of the identity holds the upstream email
    and the token answered, and that token is signed anew (over the id,
    the upstream email and the password encrypted under the process
    secret) when the caller gave an email or the upstream email differs
    from the stored one; otherwise no token is signed and the jwt the
    caller gave comes back unchanged. *)
Theorem signIn_refreshes_identity (args params : JsVal) w res w' :
  signIn args params w = (Ok res, w') ->
  exists user w1 fromApi updRes resJWT before after,
    let _id := field (spread user) "_id" in
    let emailFromDb := field (spread user) "email" in
    let emailFromApi := field (spread fromApi) "email" in
    let fresh := freshEmail (authField args "email") emailFromApi emailFromDb in
    verifyUser (signInAuth args) signInParams w = (Ok user, w1) /\
    added w w'
      (before ++
       [(signInCheck user, Ok fromApi);
        (signInUpdate env params user fromApi, Ok updRes)] ++ after) /\
    res = JObj [("email", emailFromApi);
                ("isSubAccount", field (spread user) "isSubAccount");
                ("jwt", resJWT)] /\
    map_get _id (sessions w') = Some (sessionEntry _id emailFromApi resJWT) /\
    (if valid_str fresh
     then exists c,
            after =
            [(CryptoEncrypt (field (spread user) "password") (secretKey env),
              Ok c);
             (CryptoGenerateJWT
                (JObj [("_id", _id); ("email", emailFromApi);
                       ("encryptedPassword", c)]), Ok resJWT)]
     else after = [] /\ resJWT = authField args "jwt"
          /\ valid_str resJWT = true).
Proof.
  intros H. apply signIn_ok in H.
  destruct H as (user & w1 & fromApi & updRes & resJWT & before & after & H).
  cbv zeta in H. destruct H as (Hv & Hadd & Hres & Hss & Hcase).
  exists user, w1, fromApi, updRes, resJWT, before, after. cbv zeta.
  repeat (split; [assumption |]). split; [| exact Hcase].
  rewrite Hss. apply map_get_set.
Qed.

(* ===================================================================== *)
(** ** createSubAccount *)
(* ===================================================================== *)

Lemma verify_call_not_write c : verify_call c = true -> not_write c = true.
Proof. destruct c; simpl; intros H; try discriminate; reflexivity. Qed.

Lemma badCreateRequest_no_list masterUser keys :
  isArray keys = false \/ items keys = [] ->
  badCreateRequest masterUser keys = true.
Proof.
  unfold badCreateRequest. intros [H | H]; rewrite H; simpl;
    now rewrite ?orb_true_r.
Qed.

(** Without a list of desired sub-users [createSubAccount] is over once
    the master is verified. *)
Lemma createSubAccount_no_list args w :
  isArray (requestParam args "subAccountApiKeys") = false
  \/ items (requestParam args "subAccountApiKeys") = [] ->
  (forall masterUser w1,
     verifyUser (masterAuth args) masterParams w = (Ok masterUser, w1) ->
     createSubAccount args w = (Err SubAccountCreatingError, w1))
  /\
  (forall r w',
     createSubAccount args w = (r, w') ->
     (exists e, r = Err e) /\
     exists evs, added w w' evs /\ all_calls not_write evs = true).
Proof.
  intros Hbad.
  assert (Hstep : forall masterUser w1,
     verifyUser (masterAuth args) masterParams w = (Ok masterUser, w1) ->
     createSubAccount args w = (Err SubAccountCreatingError, w1)).
  { intros masterUser w1 Hv.
    destruct (verifyUser_ok_obj _ _ _ _ _ Hv) as (o & ->).
    unfold createSubAccount.
    change (verifyUser _ _ w) with (verifyUser (masterAuth args) masterParams w).
    erewrite bind_ok by exact Hv.
    match goal with
    | |- bind (if ?c then _ else _) _ _ = _ => destruct c
    end; (erewrite bind_ok by reflexivity);
      fold (requestParam args "subAccountApiKeys");
      now rewrite badCreateRequest_no_list. }
  split; [exact Hstep |].
  intros r w' Hrun.
  destruct (verifyUser (masterAuth args) masterParams w)
    as [[masterUser | e] w1] eqn:Hv.
  - rewrite (Hstep _ _ eq_refl) in Hrun. inversion Hrun; subst.
    split; [eauto |].
    apply verifyUser_logs in Hv. destruct Hv as (_ & evs & Hadd & Hall).
    exists evs. split; [exact Hadd |].
    unfold all_calls in *. rewrite forallb_forall in *.
    intros ev Hin. apply verify_call_not_write. now apply Hall.
  - unfold createSubAccount in Hrun.
    change (verifyUser _ _ w) with (verifyUser (masterAuth args) masterParams w)
      in Hrun.
    erewrite bind_err in Hrun by exact Hv. inversion Hrun; subst.
    split; [eauto |].
    apply verifyUser_logs in Hv. destruct Hv as (_ & evs & Hadd & Hall).
    exists evs. split; [exact Hadd |].
    unfold all_calls in *. rewrite forallb_forall in *.
    intros ev Hin. apply verify_call_not_write. now apply Hall.
Qed.

(** The guard of the loop: at the last entry, with the flag set, the
    credentials of the master resolved again and one sub-user registered,
    the turn throws before anything is registered. *)
Lemma createStep_guard masterUser pw _id st last w chk auth w1 :
  resolveAuth last w = (Ok (chk, auth), w1) ->
  isSubUserFromMasterCreated st = true ->
  same_creds masterUser auth w1 = (Ok true, w1) ->
  length (subUsers st) = 1 ->
  createStep masterUser pw _id (S (subUsersCount st)) st last w =
  (Err SubAccountCreatingError, w1).
Proof.
  intros Hres Hflag Hsame Hlen. unfold createStep.
  erewrite bind_ok by exact Hres. simpl fst. simpl snd.
  rewrite Nat.eqb_refl, Hflag. simpl andb.
  erewrite bind_ok.
  2: { erewrite bind_ok by exact Hsame. rewrite Hlen. reflexivity. }
  reflexivity.
Qed.

(** What a turn of the loop that does not throw does to its variables:
    nothing but the count when the entry is skipped, one sub-user more
    otherwise, with the flag set if it has the credentials of the
    master. *)
Lemma createStep_ok masterUser pw _id total st entry w st' w' :
  createStep masterUser pw _id total st entry w = (Ok st', w') ->
  (subUsers st' = subUsers st /\
   isSubUserFromMasterCreated st' = isSubUserFromMasterCreated st)
  \/
  (exists subUser fromMaster w1 w2,
     subUsers st' = subUsers st ++ [subUser] /\
     same_creds masterUser subUser w1 = (Ok fromMaster, w2) /\
     isSubUserFromMasterCreated st' =
     if fromMaster then true else isSubUserFromMasterCreated st).
Proof.
  unfold createStep. intros H.
  run_ok H ra w1 Hra. run_ok H guard w2 Hg.
  destruct guard; [discriminate |].
  run_ok H dup w3 Hdup. destruct dup.
  - inversion H; subst. left. split; reflexivity.
  - run_ok H subUser w4 Hsu. run_ok H u w5 Hlink.
    run_ok H fromMaster w6 Hfm. inversion H; subst. right.
    exists subUser, fromMaster, w5, w'. simpl. repeat split. exact Hfm.
Qed.

Lemma executeQueriesInTrans_rejects {A} (work : M A) w b w1 e w2 :
  call DaoTransBegin w = (Ok b, w1) ->
  work w1 = (Err e, w2) ->
  exists r w3,
    executeQueriesInTrans work w = (Err e, w3) /\
    added w2 w3 [(DaoTransRollback, r)].
Proof.
  intros Hb Hw. unfold executeQueriesInTrans.
  erewrite bind_ok by exact Hb. rewrite Hw.
  destruct (call DaoTransRollback w2) as [r w3] eqn:Hr.
  exists r, w3. split; [reflexivity |]. now apply call_added in Hr.
Qed.

Lemma createSubAccountTrans_loop_rejects
  masterUser pw subAccount keys w subAccountUser w1 e w2 :
  signUp (JObj [("auth", subAccount)])
    (JObj [ ("isDisabledApiKeysVerification", JBool true);
            ("isReturnedFullUserData", JBool true);
            ("isNotSetSession", JBool true);
            ("isSubAccount", JBool true);
            ("isNotInTrans", JBool true) ]) w = (Ok subAccountUser, w1) ->
  createLoop masterUser pw (field (spread subAccountUser) "_id")
    (length (keys ++ [masterUser])) (keys ++ [masterUser]) createInit w1
  = (Err e, w2) ->
  createSubAccountTrans masterUser pw subAccount keys w = (Err e, w2).
Proof.
  intros Hs Hl. unfold createSubAccountTrans.
  erewrite bind_ok by exact Hs.
  assert (Hd : destructure subAccountUser w1 = (Ok (spread subAccountUser), w1)).
  { unfold signUp in Hs. destruct (signUpRefused _); [discriminate |].
    unfold signUpAccepted in Hs.
    repeat (let a := fresh "a" in let w0 := fresh "w0" in
            let Ha := fresh "Ha" in
            first [ run_ok Hs a w0 Ha
                  | match type of Hs with
                    | (if ?c then _ else _) _ = _ =>
                        destruct c; [discriminate |]
                    end ]).
    inversion Hs; subst. reflexivity. }
  erewrite bind_ok by exact Hd.
  erewrite bind_err by exact Hl. reflexivity.
Qed.

(** *** What [signUp] answers, and what the loop can find in it *)

Lemma signUp_ok_shape args params w v w' :
  signUp args params w = (Ok v, w') -> signUp_shape v.
Proof.
  unfold signUp. destruct (signUpRefused _); [discriminate |].
  unfold signUpAccepted. intros Hs.
  repeat (let a := fresh "a" in let w0 := fresh "w0" in
          let Ha := fresh "Ha" in
          first [ run_ok Hs a w0 Ha
                | match type of Hs with
                  | (if ?c then _ else _) _ = _ =>
                      destruct c; [discriminate |]
                  end ]).
  inversion Hs; subst. unfold signUp_shape. eauto.
Qed.

(** Credentials with an [apiKey] never compare equal to an answer of
    [signUp], which has none. *)
Lemma same_creds_shape o v w :
  field o "apiKey" <> JUndefined -> signUp_shape v ->
  same_creds (JObj o) v w = (Ok false, w).
Proof.
  intros Hk (e & i & j & ->). unfold same_creds.
  erewrite bind_ok by apply get_obj. erewrite bind_ok by apply get_obj.
  change (field [("email", e); ("isSubAccount", i); ("jwt", j)] "apiKey")
    with JUndefined.
  destruct (field o "apiKey"); try reflexivity. congruence.
Qed.

Lemma someM_same_creds_shape o l w :
  field o "apiKey" <> JUndefined -> Forall signUp_shape l ->
  someM (same_creds (JObj o)) l w = (Ok false, w).
Proof.
  intros Hk Hl. induction Hl as [| v l Hv _ IH]; simpl; [reflexivity |].
  erewrite bind_ok by (now apply same_creds_shape). exact IH.
Qed.

Lemma resolveAuth_raw subUserAuth w :
  raw_keys subUserAuth ->
  resolveAuth subUserAuth w =
  (Ok (js_or (str_field (field (spread subUserAuth) "email"))
             (str_field (field (spread subUserAuth) "token")),
       JObj [("apiKey", field (spread subUserAuth) "apiKey");
             ("apiSecret", field (spread subUserAuth) "apiSecret")]), w).
Proof.
  intros [Hraw _]. unfold resolveAuth. rewrite Hraw. reflexivity.
Qed.

(** One turn of the loop on a bare pair of keys, with only answers of
    [signUp] registered so far: if it does not throw, it has registered
    one more sub-user.  The entry is never skipped. *)
Lemma createStep_registers masterUser pw _id total st entry w st' w' :
  raw_keys entry -> Forall signUp_shape (subUsers st) ->
  createStep masterUser pw _id total st entry w = (Ok st', w') ->
  exists subUser,
    signUp_shape subUser /\ subUsers st' = subUsers st ++ [subUser].
Proof.
  intros Hraw Hshape. unfold createStep.
  erewrite bind_ok by (now apply resolveAuth_raw). simpl fst. simpl snd.
  intros H. run_ok H guard w1 Hg.
  assert (w1 = w).
  { revert Hg. apply pure_if; [| apply pure_ret].
    apply pure_bind; [apply pure_same_creds |]. intros b. apply pure_ret. }
  subst w1. destruct guard; [discriminate |].
  erewrite bind_ok in H.
  2: { apply someM_same_creds_shape; [| exact Hshape].
       simpl. exact (proj2 Hraw). }
  run_ok H subUser w2 Hsu. unfold signUpSubUser in Hsu.
  run_ok Hsu mid w3 Hmid. apply signUp_ok_shape in Hsu.
  run_ok H u w4 Hlink. run_ok H fm w5 Hfm. inversion H; subst.
  exists subUser. split; [exact Hsu | reflexivity].
Qed.

(** So a run of the loop over bare pairs of keys that does not throw has
    registered one sub-user for each of them, equal pairs included. *)
Lemma createLoop_registers_all masterUser pw _id total entries :
  Forall raw_keys entries ->
  forall st w st' w',
    Forall signUp_shape (subUsers st) ->
    createLoop masterUser pw _id total entries st w = (Ok st', w') ->
    Forall signUp_shape (subUsers st') /\
    length (subUsers st') = length (subUsers st) + length entries.
Proof.
  induction 1 as [| entry entries Hraw _ IH]; intros st w st' w' Hshape Hrun.
  - inversion Hrun; subst. split; [exact Hshape | simpl; lia].
  - simpl in Hrun. run_ok Hrun st1 w1 Hstep.
    destruct (createStep_registers _ _ _ _ _ _ _ _ _ Hraw Hshape Hstep)
      as (subUser & Hsu & Heq).
    assert (Hshape1 : Forall signUp_shape (subUsers st1)).
    { rewrite Heq. apply Forall_app. split; [exact Hshape |].
      constructor; [exact Hsu | constructor]. }
    destruct (IH _ _ _ _ Hshape1 Hrun) as (Hs' & Hlen).
    split; [exact Hs' |]. rewrite Hlen, Heq, length_app. simpl. lia.
Qed.

Lemma count_calls_app P e1 e2 :
  count_calls P (e1 ++ e2) = count_calls P e1 + count_calls P e2.
Proof. unfold count_calls. now rewrite filter_app, length_app. Qed.

Lemma count_calls_none P Q evs :
  (forall c, Q c = true -> P c = false) ->
  all_calls Q evs = true -> count_calls P evs = 0.
Proof.
  intros HQ. unfold all_calls, count_calls.
  induction evs as [| ev evs IH]; simpl; [reflexivity |].
  intros H. apply andb_true_iff in H. destruct H as [Hev Hevs].
  rewrite (HQ _ Hev). now apply IH.
Qed.

Lemma only_run {A} P (m : M A) w r w' :
  only_calls P m -> m w = (r, w') ->
  exists evs, added w w' evs /\ all_calls P evs = true.
Proof. intros H E. specialize (H w). now rewrite E in H. Qed.

(** A turn of the loop on a bare pair of keys that does not throw has
    written exactly one link. *)
Lemma createStep_links masterUser pw _id total st entry w st' w' :
  raw_keys entry -> Forall signUp_shape (subUsers st) ->
  createStep masterUser pw _id total st entry w = (Ok st', w') ->
  exists evs, added w w' evs /\ count_calls is_link evs = 1.
Proof.
  intros Hraw Hshape. unfold createStep.
  erewrite bind_ok by (now apply resolveAuth_raw). simpl fst. simpl snd.
  intros H. run_ok H guard w1 Hg.
  assert (w1 = w).
  { revert Hg. apply pure_if; [| apply pure_ret].
    apply pure_bind; [apply pure_same_creds |]. intros b. apply pure_ret. }
  subst w1. destruct guard; [discriminate |].
  erewrite bind_ok in H.
  2: { apply someM_same_creds_shape; [| exact Hshape].
       simpl. exact (proj2 Hraw). }
  run_ok H subUser w2 Hsu. unfold signUpSubUser in Hsu.
  run_ok Hsu mid w3 Hmid. apply pure_get in Hmid. subst w3.
  eapply only_run in Hsu; [| apply only_signUp].
  destruct Hsu as (e_su & Ha_su & Hp_su).
  run_ok H u w4 Hlink. unfold insertLink in Hlink.
  run_ok Hlink sid w5 Hsid. apply pure_get in Hsid. subst w5.
  run_ok Hlink ans w6 Hcall. inversion Hlink; subst w6. clear Hlink.
  apply call_added in Hcall.
  run_ok H fm w7 Hfm. apply pure_same_creds in Hfm. subst w7.
  inversion H; subst. clear H.
  eexists. split; [exact (added_trans Ha_su Hcall) |].
  rewrite count_calls_app.
  rewrite (count_calls_none is_link signUp_call e_su); [reflexivity | | exact Hp_su].
  intros c Hc. destruct c; simpl in *; try discriminate; reflexivity.
Qed.

(** So a run of the loop over bare pairs of keys that does not throw has
    written one link for each of them, whatever the collaborators answer:
    two for a pair given twice. *)
Lemma createLoop_links masterUser pw _id total entries :
  Forall raw_keys entries ->
  forall st w st' w',
    Forall signUp_shape (subUsers st) ->
    createLoop masterUser pw _id total entries st w = (Ok st', w') ->
    exists evs, added w w' evs /\ count_calls is_link evs = length entries.
Proof.
  induction 1 as [| entry entries Hraw _ IH]; intros st w st' w' Hshape Hrun.
  - inversion Hrun; subst. exists []. split; [apply added_refl | reflexivity].
  - simpl in Hrun. run_ok Hrun st1 w1 Hstep.
    destruct (createStep_registers _ _ _ _ _ _ _ _ _ Hraw Hshape Hstep)
      as (subUser & Hsu & Heq).
    destruct (createStep_links _ _ _ _ _ _ _ _ _ Hraw Hshape Hstep)
      as (e1 & Ha1 & Hc1).
    assert (Hshape1 : Forall signUp_shape (subUsers st1)).
    { rewrite Heq. apply Forall_app. split; [exact Hshape |].
      constructor; [exact Hsu | constructor]. }
    destruct (IH _ _ _ _ Hshape1 Hrun) as (e2 & Ha2 & Hc2).
    exists (e1 ++ e2). split; [exact (added_trans Ha1 Ha2) |].
    rewrite count_calls_app, Hc1, Hc2. reflexivity.
Qed.

(* ===================================================================== *)
(** ** updateSubAccount *)
(* ===================================================================== *)

Lemma signIn_ok_shape args params w v w' :
  signIn args params w = (Ok v, w') -> signUp_shape v.
Proof.
  intros H. apply signIn_ok in H.
  destruct H as (user & w1 & fromApi & updRes & resJWT & before & after & H).
  cbv zeta in H. destruct H as (_ & _ & -> & _). unfold signUp_shape. eauto.
Qed.

(** [reconcile] needs the sub-users of the aggregate, which an answer of
    [signIn] does not have: past the validation it throws on
    [subUsers.find]. *)
Lemma reconcile_shape_rejects v keys w :
  signUp_shape v ->
  reconcile v keys w =
  (Err (if badUpdateRequest v keys then SubAccountUpdatingError
        else TypeError), w).
Proof.
  intros (e & i & j & ->). unfold reconcile.
  destruct (badUpdateRequest _ keys); reflexivity.
Qed.

(** C5.  [updateSubAccount] never succeeds: [signIn] answers an email, a
    flag and a token only, so the aggregate it hands on has no sub-users
    to reconcile; the call is rejected by [signIn], by the validation
    ([SubAccountUpdatingError]) or by the read of [subUsers.find] on
    [undefined] ([TypeError]), and nothing is removed or added. *)
Theorem updateSubAccount_never_succeeds (args : JsVal) w :
  exists e, fst (updateSubAccount args w) = Err e.
Proof.
  unfold updateSubAccount, executeQueriesInTrans.
  unfold bind at 1. destruct (call DaoTransBegin w) as [[b | e] w1];
    [| simpl; eauto].
  unfold updateSubAccountTrans. unfold bind at 1.
  destruct (signIn _ _ w1) as [[v | e] w2] eqn:Hs; [| simpl; eauto].
  apply signIn_ok_shape in Hs.
  rewrite (reconcile_shape_rejects _ _ _ Hs). simpl. eauto.
Qed.

(* ===================================================================== *)
(** ** The session cache *)
(* ===================================================================== *)

Lemma val_eqb_eq : forall a b, val_eqb a b = true -> a = b.
Proof.
  fix IH 1. intros [| | x | x | | x | f | l] [| | y | y | | y | g | m];
    simpl; try discriminate; try reflexivity; intros H.
  - apply Bool.eqb_prop in H. now subst.
  - apply Z.eqb_eq in H. now subst.
  - apply String.eqb_eq in H. now subst.
  - f_equal. revert f g H. fix IHf 1.
    intros [| [k v] f] [| [k' v'] g]; try discriminate; [reflexivity |].
    intros H. apply andb_true_iff in H. destruct H as [H Hr].
    apply andb_true_iff in H. destruct H as [Hk Hv].
    apply String.eqb_eq in Hk. apply IH in Hv. apply IHf in Hr.
    now subst.
  - f_equal. revert l m H. fix IHl 1.
    intros [| v l] [| v' m]; try discriminate; [reflexivity |].
    intros H. apply andb_true_iff in H. destruct H as [Hv Hr].
    apply IH in Hv. apply IHl in Hr. now subst.
Qed.

Lemma val_eqb_sym a b : val_eqb a b = val_eqb b a.
Proof.
  destruct (val_eqb a b) eqn:E1, (val_eqb b a) eqn:E2; try reflexivity.
  - apply val_eqb_eq in E1. subst. now rewrite val_eqb_refl in E2.
  - apply val_eqb_eq in E2. subst. now rewrite val_eqb_refl in E1.
Qed.

Lemma field_obj_set_same k v o : field (obj_set k v o) k = v.
Proof.
  unfold field. induction o as [| [k' v'] o IH]; simpl.
  - now rewrite String.eqb_refl.
  - destruct (k =? k') eqn:E; simpl.
    + now rewrite String.eqb_refl.
    + rewrite E. exact IH.
Qed.

Lemma field_obj_set_other k k' v o :
  (k' =? k) = false -> field (obj_set k v o) k' = field o k'.
Proof.
  unfold field. intros Hk. induction o as [| [k0 v0] o IH]; simpl.
  - now rewrite Hk.
  - destruct (k =? k0) eqn:E; simpl.
    + apply String.eqb_eq in E. subst k0. now rewrite Hk.
    + destruct (k' =? k0); [reflexivity | exact IH].
Qed.

Lemma map_get_set_other k k' v m :
  val_eqb k' k = false -> map_get k' (map_set k v m) = map_get k' m.
Proof.
  intros Hk. induction m as [| [k0 v0] m IH]; simpl.
  - now rewrite Hk.
  - destruct (val_eqb k k0) eqn:E; simpl.
    + apply val_eqb_eq in E. subst k0. now rewrite Hk.
    + destruct (val_eqb k' k0); [reflexivity | exact IH].
Qed.

Lemma map_set_length k v m :
  map_get k m <> None -> length (map_set k v m) = length m.
Proof.
  induction m as [| [k0 v0] m IH]; simpl; [congruence |].
  destruct (val_eqb k k0); simpl; [reflexivity |].
  intros H. now rewrite IH.
Qed.

Lemma map_get_none k m :
  map_get k m = None <-> existsb (fun kv => val_eqb k (fst kv)) m = false.
Proof.
  induction m as [| [k0 v0] m IH]; simpl; [tauto |].
  destruct (val_eqb k k0); simpl; [split; discriminate | exact IH].
Qed.

Lemma map_get_delete k m :
  unique_keys m = true -> map_get k (map_delete k m) = None.
Proof.
  induction m as [| [k0 v0] m IH]; simpl; [reflexivity |].
  intros H. apply andb_true_iff in H. destruct H as [Hn Hu].
  destruct (val_eqb k k0) eqn:E; simpl.
  - apply val_eqb_eq in E. subst k0. apply map_get_none.
    now apply negb_true_iff in Hn.
  - rewrite E. now apply IH.
Qed.

Lemma map_get_delete_other k k' m :
  val_eqb k' k = false -> map_get k' (map_delete k m) = map_get k' m.
Proof.
  intros Hk. induction m as [| [k0 v0] m IH]; simpl; [reflexivity |].
  destruct (val_eqb k k0) eqn:E; simpl.
  - apply val_eqb_eq in E. subst k0. now rewrite Hk.
  - destruct (val_eqb k' k0); [reflexivity | exact IH].
Qed.

Lemma map_set_keys k v m k' :
  existsb (fun kv => val_eqb k' (fst kv)) (map_set k v m) =
  val_eqb k' k || existsb (fun kv => val_eqb k' (fst kv)) m.
Proof.
  induction m as [| [k0 v0] m IH]; simpl.
  - reflexivity.
  - destruct (val_eqb k k0) eqn:E; simpl.
    + apply val_eqb_eq in E. subst k0.
      destruct (val_eqb k' k); reflexivity.
    + rewrite IH. destruct (val_eqb k' k0), (val_eqb k' k); reflexivity.
Qed.

Lemma map_set_unique k v m :
  unique_keys m = true -> unique_keys (map_set k v m) = true.
Proof.
  induction m as [| [k0 v0] m IH]; simpl; [reflexivity |].
  intros H. apply andb_true_iff in H. destruct H as [Hn Hu].
  destruct (val_eqb k k0) eqn:E; simpl.
  - now rewrite Hn, Hu.
  - rewrite map_set_keys, (val_eqb_sym k0 k), E, IH by assumption.
    simpl. now rewrite Hn.
Qed.

Lemma map_delete_keys k m k' :
  existsb (fun kv => val_eqb k' (fst kv)) m = false ->
  existsb (fun kv => val_eqb k' (fst kv)) (map_delete k m) = false.
Proof.
  induction m as [| [k0 v0] m IH]; simpl; [reflexivity |].
  intros H. apply orb_false_iff in H. destruct H as [H0 Hm].
  destruct (val_eqb k k0); simpl; [exact Hm |].
  now rewrite H0, IH.
Qed.

Lemma map_delete_unique k m :
  unique_keys m = true -> unique_keys (map_delete k m) = true.
Proof.
  induction m as [| [k0 v0] m IH]; simpl; [reflexivity |].
  intros H. apply andb_true_iff in H. destruct H as [Hn Hu].
  destruct (val_eqb k k0); simpl; [exact Hu |].
  rewrite IH by assumption. apply negb_true_iff in Hn.
  now rewrite map_delete_keys.
Qed.

Lemma getUserSessionById_absent id params w :
  map_get id (sessions w) = None ->
  getUserSessionById id params w = (Ok JUndefined, w).
Proof.
  unfold getUserSessionById, session_of. intros ->.
  assert (H : truthy (js_and (field (spread params) "isFilledUsers")
                             (field (spread JUndefined) "jwt")) = false).
  { unfold js_and.
    destruct (truthy (field (spread params) "isFilledUsers")) eqn:E;
      [reflexivity | exact E]. }
  cbv zeta. rewrite H. reflexivity.
Qed.

Lemma getUserSessionById_cached id params w :
  truthy (js_and (paramField params "isFilledUsers")
                 (field (spread (session_of id w)) "jwt")) = false ->
  getUserSessionById id params w =
  (Ok (if truthy (session_of id w) && is_object (session_of id w)
       then JObj (spread (session_of id w))
       else session_of id w), w).
Proof.
  unfold getUserSessionById, paramField. intros ->. reflexivity.
Qed.

(** X1.  What [setUserSession] caches comes back from
    [getUserSessionById] under the [_id] of the data: an entry of exactly
    the [_id], the [email] and the [jwt] of the data, whatever else the
    data holds (asked without the live check, or with no jwt cached).
    Caching again under the same [_id], when that is a number, a string
    or another value a [Map] compares by value, replaces the entry: the
    cache has as many entries as before, and the entry read is the later
    one. *)
Theorem setUserSession_then_getUserSessionById (data params : JsVal) w :
  let _id := field (spread data) "_id" in
  truthy (js_and (paramField params "isFilledUsers")
                 (field (spread data) "jwt")) = false ->
  (setUserSession data ;;; getUserSessionById _id params) w
  = (Ok (sessionEntry _id (field (spread data) "email")
           (field (spread data) "jwt")),
     snd (setUserSession data w))
  /\
  (forall data',
     primitive _id = true ->
     field (spread data') "_id" = _id ->
     let w2 := snd ((setUserSession data ;;; setUserSession data') w) in
     length (sessions w2) = length (sessions (snd (setUserSession data w)))
     /\ map_get _id (sessions w2)
        = Some (sessionEntry _id (field (spread data') "email")
                  (field (spread data') "jwt"))).
Proof.
  intros _id Hlive. split.
  - unfold bind. simpl.
    rewrite getUserSessionById_cached.
    + unfold session_of. simpl. fold _id. rewrite map_get_set. reflexivity.
    + unfold session_of. simpl. fold _id. rewrite map_get_set. exact Hlive.
  - intros data' _ Hid. unfold bind. simpl. rewrite Hid. fold _id. split.
    + apply map_set_length. rewrite map_get_set. discriminate.
    + apply map_get_set.
Qed.

(** X2.  Once [removeUserSessionById] has run, [getUserSessionById]
    answers [undefined] for that id, with or without the live check and
    without any call; the entries of the other ids are as they were. *)
Theorem removeUserSessionById_forgets (id params : JsVal) w :
  unique_keys (sessions w) = true ->
  let w1 := snd (removeUserSessionById id w) in
  (removeUserSessionById id ;;; getUserSessionById id params) w
  = (Ok JUndefined, w1)
  /\ trace w1 = trace w
  /\ unique_keys (sessions w1) = true
  /\ (forall k, val_eqb k id = false ->
                map_get k (sessions w1) = map_get k (sessions w)).
Proof.
  intros Hu w1. subst w1. unfold bind. simpl. repeat split.
  - apply getUserSessionById_absent. simpl. now apply map_get_delete.
  - now apply map_delete_unique.
  - intros k Hk. now apply map_get_delete_other.
Qed.

Lemma spread_copy v :
  spread (if truthy v && is_object v then JObj (spread v) else v) = spread v.
Proof. destruct v; simpl; rewrite ?andb_false_r; reflexivity. Qed.

(** X3.  [getUserSessionById] never changes the cache and calls nothing
    but what [verifyUser] calls.  For an id that is not cached it answers
    [undefined] at once, live check or not; without the live check it
    answers at once too; and whatever it answers carries the jwt that is
    cached, also when the verified user has a [jwt] of its own. *)
Theorem getUserSessionById_only_reads (id params : JsVal) w r w' :
  getUserSessionById id params w = (r, w') ->
  logs verify_call w w'
  /\ (map_get id (sessions w) = None -> r = Ok JUndefined /\ w' = w)
  /\ (truthy (paramField params "isFilledUsers") = false -> w' = w)
  /\ (forall v, r = Ok v ->
        field (spread v) "jwt" = field (spread (session_of id w)) "jwt").
Proof.
  intros Hrun. split; [| split; [| split]].
  - revert Hrun. unfold getUserSessionById.
    destruct (truthy (js_and _ _)).
    + apply steady_run. apply steady_bind; [now apply steady_verifyUser |].
      intros u. apply steady_ret.
    + intros H. inversion H; subst. apply logs_refl.
  - intros Hnone. rewrite getUserSessionById_absent in Hrun by assumption.
    inversion Hrun; subst. now split.
  - intros Hf. rewrite getUserSessionById_cached in Hrun.
    + now inversion Hrun.
    + unfold js_and. now rewrite Hf.
  - intros v ->. revert Hrun. unfold getUserSessionById.
    destruct (truthy (js_and _ _)).
    + intros H. run_ok H user w1 Hv. inversion H; subst.
      simpl. apply field_obj_set_same.
    + intros H. inversion H; subst. now rewrite spread_copy.
Qed.

(* ===================================================================== *)
(** ** decryptApiKeys *)
(* ===================================================================== *)

(** [Promise.all] over calls: every call is made, in order, whatever the
    answers; the whole resolves exactly when all the calls do. *)
Lemma promise_all_calls cs w :
  exists rs,
    length rs = length cs /\
    added w (snd (promise_all (map call cs) w)) (combine cs rs) /\
    forall vs, fst (promise_all (map call cs) w) = Ok vs <-> rs = map Ok vs.
Proof.
  revert w. induction cs as [| c cs IH]; intros w.
  - exists []. split; [reflexivity |]. split; [apply added_refl |].
    intros vs. simpl. split.
    + intros H. inversion H. reflexivity.
    + destruct vs; [reflexivity | discriminate].
  - simpl. destruct (call c w) as [r w1] eqn:Hc.
    apply call_added in Hc. specialize (IH w1).
    destruct (promise_all (map call cs) w1) as [rs' w2]. simpl in IH.
    destruct IH as (rs & Hlen & Hadd & Hiff).
    exists (r :: rs). split; [simpl; now rewrite Hlen |]. split.
    + simpl. exact (added_trans Hc Hadd).
    + intros vs. simpl. destruct r as [a | e].
      * destruct rs' as [l0 | e].
        -- pose proof (proj1 (Hiff l0) eq_refl) as Hrs. split.
           ++ intros H. inversion H; subst. reflexivity.
           ++ destruct vs as [| v vs]; [discriminate |]. simpl.
              intros H. inversion H; subst.
              match goal with
              | Hm : map Ok l0 = map Ok vs |- _ =>
                  apply (proj2 (Hiff vs)) in Hm; inversion Hm; subst
              end.
              reflexivity.
        -- split; [discriminate |].
           destruct vs as [| v vs]; [discriminate |]. simpl.
           intros H. inversion H; subst.
           pose proof (proj2 (Hiff vs) eq_refl). discriminate.
      * split; [discriminate |].
        destruct vs as [| v vs]; discriminate.
Qed.

Lemma decrypt_calls_map password l :
  decrypt_calls password l = map call (flat_map (key_calls password) l).
Proof.
  unfold decrypt_calls. induction l as [| u l IH]; simpl; [reflexivity |].
  now rewrite IH.
Qed.

Lemma flat_map_key_calls_length password l :
  length (flat_map (key_calls password) l) = 2 * length l.
Proof. induction l as [| u l IH]; simpl; [reflexivity | lia]. Qed.

(** Answers paired up two by two, as [decryptedApiKeys[i * 2]] and
    [decryptedApiKeys[i * 2 + 1]] read them. *)
Lemma answers_in_pairs password l vs :
  length vs = 2 * length l ->
  exists keys,
    length keys = length l /\
    combine (flat_map (key_calls password) l) (map Ok vs)
    = flat_map (key_events password) (combine l keys) /\
    with_keys l vs = map decrypted (combine l keys).
Proof.
  revert vs. induction l as [| u l IH]; intros vs Hlen.
  - exists []. repeat split.
  - destruct vs as [| a [| s vs]]; simpl in Hlen; try lia.
    destruct (IH vs ltac:(lia)) as (keys & Hk & Hc & Hw).
    exists ((a, s) :: keys). split; [simpl; now rewrite Hk |]. split.
    + simpl. now rewrite Hc.
    + simpl. now rewrite Hw.
Qed.

Lemma decryptApiKeys_run password users w :
  let l := match users with JArr l => l | _ => [users] end in
  (exists rs,
     length rs = 2 * length l /\
     added w (snd (decryptApiKeys password users w))
       (combine (flat_map (key_calls password) l) rs))
  /\
  (forall v w',
     decryptApiKeys password users w = (Ok v, w') ->
     exists keys,
       length keys = length l /\
       added w w' (flat_map (key_events password) (combine l keys)) /\
       v = match users with
           | JArr _ => JArr (map decrypted (combine l keys))
           | _ => nth 0 (map decrypted (combine l keys)) JUndefined
           end).
Proof.
  intros l.
  destruct (promise_all_calls (flat_map (key_calls password) l) w)
    as (rs & Hlen & Hadd & Hiff).
  rewrite flat_map_key_calls_length in Hlen.
  assert (Hrun : decryptApiKeys password users w =
    (match fst (promise_all (decrypt_calls password l) w) with
     | Ok vs => Ok (match users with
                    | JArr _ => JArr (with_keys l vs)
                    | _ => nth 0 (with_keys l vs) JUndefined
                    end)
     | Err e => Err e
     end, snd (promise_all (decrypt_calls password l) w))).
  { unfold decryptApiKeys, bind. fold l.
    destruct (promise_all (decrypt_calls password l) w) as [[vs | e] w1];
      reflexivity. }
  rewrite decrypt_calls_map in Hrun. split.
  - exists rs. split; [exact Hlen |]. rewrite Hrun. exact Hadd.
  - intros v w' Hok. rewrite Hrun in Hok.
    destruct (fst (promise_all _ w)) as [vs | e] eqn:Hfst; [| discriminate].
    inversion Hok; subst. clear Hok.
    pose proof (proj1 (Hiff vs) eq_refl) as Hrs. subst rs.
    rewrite length_map in Hlen.
    destruct (answers_in_pairs password l vs Hlen) as (keys & Hk & Hc & Hw).
    exists keys. split; [exact Hk |]. split.
    + rewrite <- Hc. exact Hadd.
    + now rewrite Hw.
Qed.

(** X4.  [decryptApiKeys] asks crypto to decrypt the [apiKey] and then
    the [apiSecret] of every user, in the order of the array and with the
    one password, two calls a user; every call is made even when an
    earlier one is rejected.  When all are answered, it answers as many
    users as it was given, each a copy of the user given with the two
    answers of its own calls for [apiKey] and [apiSecret]; and a single
    user, for anything that is not an array. *)
Theorem decryptApiKeys_two_calls_per_user (password : JsVal) w :
  (forall l,
     exists rs,
       length rs = 2 * length l /\
       added w (snd (decryptApiKeys password (JArr l) w))
         (combine (flat_map (key_calls password) l) rs))
  /\
  (forall l v w',
     decryptApiKeys password (JArr l) w = (Ok v, w') ->
     exists keys,
       length keys = length l /\
       added w w' (flat_map (key_events password) (combine l keys)) /\
       v = JArr (map decrypted (combine l keys)))
  /\
  (forall user v w',
     isArray user = false ->
     decryptApiKeys password user w = (Ok v, w') ->
     exists apiKey apiSecret,
       added w w' (key_events password (user, (apiKey, apiSecret))) /\
       v = decrypted (user, (apiKey, apiSecret))).
Proof.
  split; [| split].
  - intros l. exact (proj1 (decryptApiKeys_run password (JArr l) w)).
  - intros l v w' H.
    exact (proj2 (decryptApiKeys_run password (JArr l) w) v w' H).
  - intros user v w' Harr H.
    destruct (proj2 (decryptApiKeys_run password user w) v w' H)
      as (keys & Hk & Hadd & Hv).
    destruct user; try discriminate;
      (destruct keys as [| [key secret] [| k keys]]; simpl in Hk; try lia;
       exists key, secret; simpl in *; rewrite ?app_nil_r in Hadd;
       now split).
Qed.

(* ===================================================================== *)
(** ** verifyUser, what it answers and when *)
(* ===================================================================== *)

Lemma assoc_obj_set k k' v o :
  assoc k (obj_set k' v o) = if k =? k' then Some v else assoc k o.
Proof.
  induction o as [| [k0 v0] o IH]; simpl.
  - reflexivity.
  - destruct (k' =? k0) eqn:E; simpl.
    + apply String.eqb_eq in E. subst k0.
      destruct (k =? k'); reflexivity.
    + rewrite IH. destruct (k =? k0) eqn:E0; [| reflexivity].
      apply String.eqb_eq in E0. subst k0.
      rewrite (String.eqb_sym k k'), E. reflexivity.
Qed.

(** A property that [pick] keeps has the value it had. *)
Lemma pick_assoc o props k :
  assoc k (pick o props) = None \/ assoc k (pick o props) = assoc k o.
Proof.
  unfold pick.
  assert (H : forall acc,
             (assoc k acc = None \/ assoc k acc = assoc k o) ->
             assoc k (fold_left (pick_step o) props acc) = None \/
             assoc k (fold_left (pick_step o) props acc) = assoc k o).
  { induction props as [| p props IH]; intros acc Hacc; simpl;
      [exact Hacc |].
    apply IH. unfold pick_step.
    destruct p; try exact Hacc.
    destruct (assoc s o) as [v |] eqn:Hs; [| exact Hacc].
    rewrite assoc_obj_set. destruct (k =? s) eqn:E; [| exact Hacc].
    apply String.eqb_eq in E. subst s. right. now rewrite Hs. }
  apply H. now left.
Qed.

Lemma pick_field o props k :
  field (pick o props) k = JUndefined \/ field (pick o props) k = field o k.
Proof.
  unfold field. destruct (pick_assoc o props k) as [-> | ->]; auto.
Qed.

Lemma verifyByPassword_ok e p s pr f d r w user w' :
  verifyByPassword e p s pr f d r w = (Ok user, w') ->
  exists _user w1 ok,
    getUser (JObj [("email", e)])
      (JObj (obj_merge
         [ ("isNotSubAccount", JBool (negb (truthy s)));
           ("isSubAccount", s); ("isFilledSubUsers", f) ]
         (pwdParam d p))) w = (Ok _user, w1) /\
    call (CryptoVerifyPassword p (field (spread _user) "passwordHash")) w1
    = (Ok ok, w') /\
    user = JObj (obj_set "password" (if truthy r then p else JNull)
                   (spread (excludeProps _user pr))).
Proof.
  unfold verifyByPassword. intros H.
  run_ok H _user w1 Hget. run_ok H ok w2 Hver. inversion H; subst.
  exists _user, w1, ok. repeat split; assumption.
Qed.

Lemma verifyByToken_ok j pr f d r w user w' :
  verifyByToken j pr f d r w = (Ok user, w') ->
  exists payload w1 password w2 _user w3 ok,
    call (CryptoVerifyJWT j) w = (Ok payload, w1) /\
    call (CryptoDecrypt (field (spread payload) "encryptedPassword")
            (secretKey env)) w1 = (Ok password, w2) /\
    getUser (JObj [("_id", field (spread payload) "_id");
                   ("email", field (spread payload) "email")])
      (JObj (obj_merge [("isFilledSubUsers", f)] (pwdParam d password))) w2
    = (Ok _user, w3) /\
    call (CryptoVerifyPassword password
            (field (spread _user) "passwordHash")) w3 = (Ok ok, w') /\
    user = excludeProps
             (JObj (obj_set "password" (if truthy r then password else JNull)
                      (spread _user))) pr.
Proof.
  unfold verifyByToken. intros H.
  run_ok H payload w1 Hjwt. run_ok H pl w2 Hpl.
  apply destructure_run in Hpl. destruct Hpl as [-> Hpl].
  destruct Hpl as [[Habs _] | [Hpl _]]; [discriminate |].
  inversion Hpl; subst pl. clear Hpl.
  run_ok H password w3 Hdec. run_ok H _user w4 Hget.
  run_ok H ok w5 Hver. inversion H; subst.
  exists payload, w1, password, w3, _user, w4, ok.
  repeat split; assumption.
Qed.

Lemma verifyUser_password_given args params w user w' :
  verifyUser args params w = (Ok user, w') ->
  valid_str (authField args "email")
  && valid_str (authField args "password") = true ->
  field (spread user) "password"
  = if truthy (paramField params "isReturnedPassword")
    then authField args "password" else JNull.
Proof.
  intros Hrun Hpair.
  rewrite verifyUser_by_password in Hrun by exact Hpair.
  apply verifyByPassword_ok in Hrun.
  destruct Hrun as (_user & w1 & ok & _ & _ & ->). simpl.
  apply field_obj_set_same.
Qed.

(** X5.  [verifyUser] hands a password back only when it is asked to.
    With an email and a password, the answer carries the password given
    when [isReturnedPassword] is set and [null] when it is not, whatever
    the projection.  With a token, and [isReturnedPassword] not set, the
    [password] of the answer is [null], or left out by the projection:
    never the password recovered from the token. *)
Theorem verifyUser_password_on_request (args params : JsVal) w user w' :
  verifyUser args params w = (Ok user, w') ->
  (valid_str (authField args "email")
   && valid_str (authField args "password") = true ->
   field (spread user) "password"
   = if truthy (paramField params "isReturnedPassword")
     then authField args "password" else JNull)
  /\
  (truthy (paramField params "isReturnedPassword") = false ->
   field (spread user) "password" = JNull
   \/ field (spread user) "password" = JUndefined).
Proof.
  intros Hrun.
  destruct (valid_str (authField args "email")
            && valid_str (authField args "password")) eqn:Hpair.
  - rewrite verifyUser_by_password in Hrun by exact Hpair.
    apply verifyByPassword_ok in Hrun.
    destruct Hrun as (_user & w1 & ok & _ & _ & ->). simpl. split.
    + intros _. apply field_obj_set_same.
    + intros Hr. rewrite field_obj_set_same, Hr. now left.
  - split; [discriminate |]. intros Hr.
    destruct (valid_str (authField args "jwt")) eqn:Hj.
    + rewrite verifyUser_by_token in Hrun by assumption.
      apply verifyByToken_ok in Hrun.
      destruct Hrun as (pl & w1 & pw & w2 & _user & w3 & ok & _ & _ & _ & _
                        & ->).
      rewrite Hr. unfold excludeProps.
      destruct (paramField params "projection")
        as [| | | | | | | [| p ps]]; simpl;
        try (left; apply field_obj_set_same).
      destruct (pick_field (obj_set "password" JNull (spread _user))
                  (p :: ps) "password") as [H | H].
      * now right.
      * left. rewrite H. apply field_obj_set_same.
    + revert Hrun. unfold verifyUser. unfold authField in *.
      rewrite Hpair, Hj. discriminate.
Qed.



(* ===================================================================== *)
(** ** What the email-and-password branch asks of storage *)
(* ===================================================================== *)

Lemma field_indexed_passwordHash i l :
  field (indexed i l) "passwordHash" = JUndefined.
Proof.
  unfold field. revert i.
  induction l as [| v l IH]; intros i; cbn [indexed assoc].
  - reflexivity.
  - destruct ("passwordHash" =? index_key i) eqn:E; [| apply IH].
    apply String.eqb_eq in E. unfold index_key in E.
    destruct (Nat.to_uint i); simpl in E; discriminate.
Qed.

Lemma all_key_events password l :
  all_calls (decrypt_under password) (flat_map (key_events password) l)
  = true.
Proof.
  unfold all_calls. induction l as [| [u [k s]] l IH]; simpl.
  - reflexivity.
  - now rewrite val_eqb_refl, IH.
Qed.

(** [decryptApiKeys] only decrypts under its password, and leaves the
    hash of what it is given as it is. *)
Lemma decryptApiKeys_keeps_hash password user w v w' :
  decryptApiKeys password user w = (Ok v, w') ->
  (exists keys,
     added w w' keys /\ all_calls (decrypt_under password) keys = true)
  /\ field (spread v) "passwordHash" = field (spread user) "passwordHash".
Proof.
  intros H.
  destruct (proj2 (decryptApiKeys_run password user w) v w' H)
    as (keys & Hk & Hadd & Hv).
  split.
  - eexists. split; [exact Hadd | apply all_key_events].
  - destruct user; cbn [length] in Hk; subst v;
      try (destruct keys as [| [key secret] [| k keys]];
           cbn [length] in Hk; try lia;
           cbn [combine map nth decrypted fst snd spread];
           now rewrite !field_obj_set_other by reflexivity).
    cbn [spread]. now rewrite !field_indexed_passwordHash.
Qed.

(** [getUser] without a projection: the read of the row comes first,
    only decryptions under the password of the parameters follow, and the
    hash of the answer is the hash of the row storage answered. *)
Lemma getUser_reads filter params w _user w1 :
  paramField params "projection" = JUndefined ->
  getUser filter params w = (Ok _user, w1) ->
  exists row keys,
    added w w1 ((DaoGetUser filter params, Ok row) :: keys) /\
    all_calls (decrypt_under (paramField params "password")) keys = true /\
    field (spread _user) "passwordHash" = field (spread row) "passwordHash".
Proof.
  unfold getUser, paramField. intros Hpr H. rewrite Hpr in H.
  run_ok H row w0 Hcall. apply call_added in Hcall.
  change (excludeProps row JUndefined) with row in H.
  destruct (negb (truthy (field (spread params) "password"))
            || negb (is_string (field (spread params) "password"))).
  - inversion H; subst. exists _user, []. repeat split. exact Hcall.
  - run_ok H du w2 Hdu.
    destruct (decryptApiKeys_keeps_hash _ _ _ _ _ Hdu)
      as ((keys & Hadd & Hall) & Hhash).
    destruct (negb (truthy (field (spread params) "isFilledSubUsers"))).
    + inversion H; subst. exists row, keys. repeat split.
      * exact (added_trans Hcall Hadd).
      * exact Hall.
      * exact Hhash.
    + run_ok H ds w3 Hds.
      destruct (decryptApiKeys_keeps_hash _ _ _ _ _ Hds)
        as ((keys' & Hadd' & Hall') & _).
      inversion H; subst. exists row, (keys ++ keys'). repeat split.
      * exact (added_trans Hcall (added_trans Hadd Hadd')).
      * unfold all_calls in *. rewrite forallb_app.
        apply andb_true_intro. split; assumption.
      * simpl. rewrite field_obj_set_other by reflexivity. exact Hhash.
Qed.

Lemma passwordLookupParams_fields args params :
  paramField (passwordLookupParams args params) "projection" = JUndefined
  /\ (paramField (passwordLookupParams args params) "password"
      = authField args "password"
      \/ valid_str (paramField (passwordLookupParams args params) "password")
         = false).
Proof.
  unfold passwordLookupParams, pwdParam, paramField.
  destruct (truthy (field (spread params) "isDecryptedApiKeys")); simpl.
  - split; [reflexivity | now left].
  - split; [reflexivity | now right].
Qed.

(** C10.  When the auth object holds a non-empty string email and a
    non-empty string password, [verifyUser] takes the email-and-password
    branch whatever the jwt field holds: the token is never handed to
    [crypto.verifyJWT] (every call made is a [getUser], a [decrypt] or a
    [verifyPassword]).  A successful call has made these calls and no
    other: first the read of the row from storage, by the email alone and
    with no projection; then decryptions under the password given, if
    any; last the verification of the password given against the
    [passwordHash] of the row storage answered.  And the outcome is the
    same for any two auth objects that differ only in their jwt. *)
Theorem verifyUser_password_takes_precedence (args params : JsVal) :
  let email := authField args "email" in
  let password := authField args "password" in
  valid_str email = true ->
  valid_str password = true ->
  steady password_call (verifyUser args params)
  /\
  (forall w user w',
     verifyUser args params w = (Ok user, w') ->
     exists row keys ok,
       added w w'
         ((DaoGetUser (JObj [("email", email)])
             (passwordLookupParams args params), Ok row)
          :: keys
          ++ [(CryptoVerifyPassword password
                 (field (spread row) "passwordHash"), Ok ok)])
       /\ all_calls (decrypt_under password) keys = true)
  /\
  (forall args',
     authField args' "email" = email ->
     authField args' "password" = password ->
     authField args' "isSubAccount" = authField args "isSubAccount" ->
     verifyUser args' params = verifyUser args params).
Proof.
  intros email password He Hp.
  assert (Hpath := verifyUser_by_password args params).
  fold email password in Hpath. rewrite He, Hp in Hpath.
  specialize (Hpath eq_refl).
  split; [| split].
  - rewrite Hpath. now apply steady_verifyByPassword.
  - rewrite Hpath. intros w user w' Hrun.
    apply verifyByPassword_ok in Hrun.
    destruct Hrun as (_user & w1 & ok & Hget & Hver & _).
    fold (passwordLookupParams args params) in Hget.
    destruct (passwordLookupParams_fields args params) as [Hpr Hpw].
    fold password in Hpw.
    apply call_added in Hver.
    destruct Hpw as [Hpw | Hpw].
    + destruct (getUser_reads _ _ _ _ _ Hpr Hget)
        as (row & keys & Hadd & Hall & Hhash).
      rewrite Hpw in Hall. rewrite Hhash in Hver.
      exists row, keys, ok. split; [| exact Hall].
      exact (added_trans Hadd Hver).
    + rewrite getUser_plain in Hget by assumption.
      apply call_added in Hget.
      exists _user, [], ok. split; [| reflexivity].
      exact (added_trans Hget Hver).
  - intros args' E1 E2 E3.
    assert (Hpath' := verifyUser_by_password args' params).
    rewrite E1, E2, E3 in Hpath'. fold email password in Hpath'.
    rewrite He, Hp in Hpath'. rewrite (Hpath' eq_refl), Hpath. reflexivity.
Qed.

(* ===================================================================== *)
(** ** signUp, call by call *)
(* ===================================================================== *)

Lemma signUp_lookup fromApi w :
  getUser (JObj [("email", field (spread fromApi) "email")])
          (JObj [("isNotSubAccount", JBool true)]) w
  = call (signUpLookup fromApi) w.
Proof. now rewrite getUser_plain. Qed.

(** A successful [signUp], from its first call to its last. *)
Lemma signUp_ok args params w res w' :
  signUp args params w = (Ok res, w') ->
  exists fromApi userFromDb encKey encSecret encPassword hash ins user jwt,
    let email := field (spread fromApi) "email" in
    let password := authField args "password" in
    let row := signUpRow params fromApi encKey encSecret hash in
    let _id := field (spread user) "_id" in
    added w w'
      [ (RCheckAuthInApi args, Ok fromApi);
        (signUpLookup fromApi, Ok userFromDb);
        (CryptoEncrypt (authField args "apiKey") password, Ok encKey);
        (CryptoEncrypt (authField args "apiSecret") password, Ok encSecret);
        (CryptoEncrypt password (secretKey env), Ok encPassword);
        (CryptoHashPassword password, Ok hash);
        (insertUser row, Ok ins);
        (rereadUser row, Ok user);
        (CryptoGenerateJWT
           (JObj [("_id", _id); ("email", email);
                  ("encryptedPassword", encPassword)]), Ok jwt) ] /\
    signUpRefused args = false /\
    valid_str email = true /\
    has_integer_id userFromDb = false /\
    has_integer_id user = true /\
    res = JObj [("email", email);
                ("isSubAccount", field (spread user) "isSubAccount");
                ("jwt", jwt)] /\
    sessions w' = map_set _id (sessionEntry _id email jwt) (sessions w).
Proof.
  unfold signUp. destruct (signUpRefused args) eqn:Href; [discriminate |].
  unfold signUpAccepted. intros H.
  run_ok H fromApi w1 Hchk.
  run_ok H prof w2 Hprof.
  apply destructure_run in Hprof. destruct Hprof as [-> Hprof].
  destruct Hprof as [[Habs _] | [Hprof _]]; [discriminate |].
  inversion Hprof; subst prof. clear Hprof.
  run_ok H userFromDb w3 Hpre. rewrite signUp_lookup in Hpre.
  match type of H with
  | (if ?c then _ else _) _ = _ => destruct c eqn:Hreg; [discriminate |]
  end.
  apply orb_false_iff in Hreg. destruct Hreg as [Hreg Hfound].
  apply orb_false_iff in Hreg. destruct Hreg as [Ht Hs].
  apply negb_false_iff in Ht. apply negb_false_iff in Hs.
  run_ok H enc w4 Henc.
  match type of Henc with
  | promise_all ?ms _ = _ =>
      change ms with
        (map call
           [ CryptoEncrypt (authField args "apiKey")
               (authField args "password");
             CryptoEncrypt (authField args "apiSecret")
               (authField args "password");
             CryptoEncrypt (authField args "password") (secretKey env);
             CryptoHashPassword (authField args "password") ]) in Henc
  end.
  match type of Henc with
  | promise_all (map call ?cs) _ = _ =>
      destruct (promise_all_calls cs w3) as (rs & Hlen & Hadd & Hiff)
  end.
  rewrite Henc in Hadd, Hiff. simpl fst in Hiff. simpl snd in Hadd.
  pose proof (proj1 (Hiff enc) eq_refl) as Hrs. subst rs.
  rewrite length_map in Hlen.
  destruct enc as [| encKey [| encSecret [| encPassword [| hash [| x enc]]]]];
    simpl in Hlen; try discriminate.
  simpl in H, Hadd.
  run_ok H user w5 Hcreate.
  apply createUser_ok in Hcreate.
  destruct Hcreate as (Hid & ins & w45 & Hins & Hre).
  run_ok H jwt w6 Hjwt.
  unfold generateAuthJWT in Hjwt. simpl spread in Hjwt.
  change (field _ "email") with (field (spread fromApi) "email") in Hjwt.
  change (field _ "encryptedPassword") with encPassword in Hjwt.
  change (field _ "password") with JUndefined in Hjwt.
  change (field _ "_id") with (field (spread user) "_id") in Hjwt.
  assert (Hemail : valid_str (field (spread fromApi) "email") = true).
  { unfold valid_str. now rewrite Ht, Hs. }
  rewrite Hemail in Hjwt.
  destruct (valid_str encPassword); [| discriminate].
  run_ok H u w7 Hset. inversion H; subst. clear H.
  apply setUserSession_run in Hset. destruct Hset as [Htr Hss].
  simpl in Hss.
  exists fromApi, userFromDb, encKey, encSecret, encPassword, hash, ins,
    user, jwt.
  cbv zeta.
  split; [| split; [reflexivity | split; [exact Hemail | split;
    [exact Hfound | split; [exact Hid | split; [reflexivity |]]]]]].
  - apply call_added in Hchk, Hpre, Hins, Hre, Hjwt.
    pose proof (added_trans Hchk Hpre) as H1.
    pose proof (added_trans H1 Hadd) as H2.
    pose proof (added_trans H2 Hins) as H3.
    pose proof (added_trans H3 Hre) as H4.
    pose proof (added_trans H4 Hjwt) as H5.
    unfold added in *. rewrite Htr, H5. reflexivity.
  - rewrite Hss.
    apply call_run in Hchk, Hpre, Hins, Hre, Hjwt.
    destruct Hchk as (_ & S1 & _). destruct Hpre as (_ & S2 & _).
    destruct Hins as (_ & S4 & _). destruct Hre as (_ & S5 & _).
    destruct Hjwt as (_ & S6 & _).
    assert (S3 : sessions w4 = sessions w3).
    { eapply steady_sessions with (P := any_call); [| exact Henc].
      apply steady_promise_all.
      repeat (constructor; [now apply steady_call |]). constructor. }
    change (field _ "_id") with (field (spread user) "_id").
    change (field [("_id", field (spread user) "_id");
                   ("email", field (spread fromApi) "email");
                   ("jwt", jwt)] "email")
      with (field (spread fromApi) "email").
    change (field _ "jwt") with jwt.
    f_equal. congruence.
Qed.

(** X8.  A successful [signUp] has made exactly these nine calls, in this
    order: the upstream check of the keys; the search of the upstream
    email, which found no row with an integer [_id]; the encryption of
    the key and of the secret under the password, of the password under
    the process secret, and the hashing of the password; the insertion of
    a row that holds the upstream profile, the two encrypted keys and the
    hash as crypto answered them; the read of that row, which found an
    integer [_id]; the signing of a token over that [_id], the upstream
    email and the encrypted password.  It answers the upstream email, the
    flag of the row and that token, and the token is cached under the
    [_id], whatever the parameters say. *)
Theorem signUp_registers (args params : JsVal) w res w' :
  signUp args params w = (Ok res, w') ->
  exists fromApi userFromDb encKey encSecret encPassword hash ins user jwt,
    let email := field (spread fromApi) "email" in
    let password := authField args "password" in
    let row := signUpRow params fromApi encKey encSecret hash in
    let _id := field (spread user) "_id" in
    added w w'
      [ (RCheckAuthInApi args, Ok fromApi);
        (signUpLookup fromApi, Ok userFromDb);
        (CryptoEncrypt (authField args "apiKey") password, Ok encKey);
        (CryptoEncrypt (authField args "apiSecret") password, Ok encSecret);
        (CryptoEncrypt password (secretKey env), Ok encPassword);
        (CryptoHashPassword password, Ok hash);
        (insertUser row, Ok ins);
        (rereadUser row, Ok user);
        (CryptoGenerateJWT
           (JObj [("_id", _id); ("email", email);
                  ("encryptedPassword", encPassword)]), Ok jwt) ] /\
    valid_str email = true /\
    has_integer_id userFromDb = false /\
    has_integer_id user = true /\
    res = JObj [("email", email);
                ("isSubAccount", field (spread user) "isSubAccount");
                ("jwt", jwt)] /\
    map_get _id (sessions w') = Some (sessionEntry _id email jwt).
Proof.
  intros H. apply signUp_ok in H.
  destruct H as (fromApi & userFromDb & encKey & encSecret & encPassword
                 & hash & ins & user & jwt & H).
  cbv zeta in H. destruct H as (Hadd & _ & He & Hf & Hid & Hres & Hss).
  exists fromApi, userFromDb, encKey, encSecret, encPassword, hash, ins,
    user, jwt.
  cbv zeta. repeat (split; [assumption |]).
  rewrite Hss. apply map_get_set.
Qed.

(** X9.  [signUp] refuses, with [AuthError], an upstream profile without a
    usable email and an email that storage already holds as a row with an
    integer [_id]: it stops right after the search, before anything is
    encrypted, hashed, written, signed or cached. *)
Theorem signUp_refuses_registered_email
  (args params : JsVal) w fromApi w1 userFromDb w2 :
  signUpRefused args = false ->
  call (RCheckAuthInApi args) w = (Ok fromApi, w1) ->
  fromApi <> JUndefined -> fromApi <> JNull ->
  call (signUpLookup fromApi) w1 = (Ok userFromDb, w2) ->
  valid_str (field (spread fromApi) "email") = false
  \/ has_integer_id userFromDb = true ->
  signUp args params w = (Err AuthError, w2)
  /\ added w w2 [ (RCheckAuthInApi args, Ok fromApi);
                  (signUpLookup fromApi, Ok userFromDb) ]
  /\ sessions w2 = sessions w.
Proof.
  intros Href Hchk Hu Hn Hpre Hbad. split; [| split].
  - unfold signUp. rewrite Href. unfold signUpAccepted.
    erewrite bind_ok by exact Hchk.
    assert (Hd : destructure fromApi w1 = (Ok (spread fromApi), w1)).
    { destruct fromApi; try reflexivity; congruence. }
    erewrite bind_ok by exact Hd.
    rewrite <- signUp_lookup in Hpre.
    erewrite bind_ok by exact Hpre.
    match goal with
    | |- (if ?c then _ else _) _ = _ =>
        assert (Hc : c = true); [| rewrite Hc; reflexivity]
    end.
    destruct Hbad as [Hbad | Hbad].
    + unfold valid_str in Hbad.
      destruct (truthy _), (is_string _); simpl in *;
        try reflexivity; discriminate.
    + unfold has_integer_id in Hbad. rewrite Hbad.
      now rewrite orb_true_r.
  - apply call_added in Hchk, Hpre. exact (added_trans Hchk Hpre).
  - apply call_run in Hchk, Hpre.
    destruct Hchk as (_ & S1 & _). destruct Hpre as (_ & S2 & _).
    congruence.
Qed.

(* ===================================================================== *)
(** ** signOut *)
(* ===================================================================== *)

Lemma signOut_unfold args params w :
  signOut args params w =
  (user <- verifyUser (signInAuth args) JUndefined ;;
   res <- call (signOutUpdate params user) ;;
   if no_changes res
   then throw AuthError
   else removeUserSessionById (field (spread user) "_id") ;;; ret (JBool true))
    w.
Proof. reflexivity. Qed.

(** The verification [signOut] asks for, which decrypts no key: the
    calls it is made of and what it answers. *)
Lemma signOut_verified args w user w1 :
  verifyUser (signInAuth args) JUndefined w = (Ok user, w1) ->
  exists row ok,
    user = JObj (obj_set "password" JNull (spread row)) /\
    if valid_str (authField args "email")
       && valid_str (authField args "password")
    then added w w1
           [ (signOutLookup args, Ok row);
             (CryptoVerifyPassword (authField args "password")
                (field (spread row) "passwordHash"), Ok ok) ]
    else exists payload password,
         added w w1
           [ (CryptoVerifyJWT (authField args "jwt"), Ok payload);
             (CryptoDecrypt (field (spread payload) "encryptedPassword")
                (secretKey env), Ok password);
             (tokenLookup payload, Ok row);
             (CryptoVerifyPassword password
                (field (spread row) "passwordHash"), Ok ok) ].
Proof.
  intros Hv.
  destruct (valid_str (authField args "email")
            && valid_str (authField args "password")) eqn:Hpair.
  - rewrite verifyUser_by_password in Hv by exact Hpair.
    apply verifyByPassword_ok in Hv.
    destruct Hv as (row & w0 & ok & Hget & Hver & ->).
    rewrite getUser_plain in Hget by reflexivity.
    exists row, ok. split; [reflexivity |].
    apply call_added in Hget, Hver. exact (added_trans Hget Hver).
  - destruct (valid_str (authField args "jwt")) eqn:Hj.
    + rewrite verifyUser_by_token in Hv by assumption.
      apply verifyByToken_ok in Hv.
      destruct Hv as (pl & wa & pw & wb & row & wc & ok
                      & H1 & H2 & H3 & H4 & ->).
      rewrite getUser_plain in H3 by reflexivity.
      exists row, ok. split; [reflexivity |]. exists pl, pw.
      apply call_added in H1, H2, H3, H4.
      exact (added_trans (added_trans (added_trans H1 H2) H3) H4).
    + revert Hv. unfold verifyUser.
      change (field (spread (field (spread (signInAuth args)) "auth")) "email")
        with (authField args "email").
      change (field (spread (field (spread (signInAuth args)) "auth"))
                "password")
        with (authField args "password").
      change (field (spread (field (spread (signInAuth args)) "auth")) "jwt")
        with (authField args "jwt").
      rewrite Hpair, Hj. discriminate.
Qed.

(** X10.  A successful [signOut] answers [true] and has made exactly
    these calls: with an email and a password, the read of the row by
    email, the check of the password against its hash and the update of
    the row to [active: serializeVal(false)] (or to the [active] of the
    parameters); with a token, the verification of the token, the
    decryption of its password under the process secret, the read of the
    row, the check of the password and the same update.  The API keys are
    never decrypted.  The update did not report fewer than one change,
    and the entry of the [_id] of the row is removed from the session
    cache. *)
Theorem signOut_deactivates (args params : JsVal) w res w' :
  signOut args params w = (Ok res, w') ->
  res = JBool true /\
  exists row ok updRes,
    let user := JObj (obj_set "password" JNull (spread row)) in
    no_changes updRes = false /\
    sessions w' = map_delete (field (spread user) "_id") (sessions w) /\
    if valid_str (authField args "email")
       && valid_str (authField args "password")
    then added w w'
           [ (signOutLookup args, Ok row);
             (CryptoVerifyPassword (authField args "password")
                (field (spread row) "passwordHash"), Ok ok);
             (signOutUpdate params user, Ok updRes) ]
    else exists payload password,
         added w w'
           [ (CryptoVerifyJWT (authField args "jwt"), Ok payload);
             (CryptoDecrypt (field (spread payload) "encryptedPassword")
                (secretKey env), Ok password);
             (tokenLookup payload, Ok row);
             (CryptoVerifyPassword password
                (field (spread row) "passwordHash"), Ok ok);
             (signOutUpdate params user, Ok updRes) ].
Proof.
  rewrite signOut_unfold. intros H.
  run_ok H user w1 Hv. run_ok H updRes w2 Hupd.
  destruct (no_changes updRes) eqn:Hnc; [discriminate |].
  run_ok H u w3 Hrm. inversion H; subst. clear H.
  split; [reflexivity |].
  pose proof (proj1 (verifyUser_logs _ _ _ _ _ Hv)) as S1.
  apply signOut_verified in Hv. destruct Hv as (row & ok & -> & Hlog).
  exists row, ok, updRes. cbv zeta. split; [exact Hnc |].
  pose proof (call_added _ _ _ _ Hupd) as Hupd'.
  apply call_run in Hupd. destruct Hupd as (_ & S2 & _).
  unfold removeUserSessionById in Hrm. inversion Hrm; subst. clear Hrm.
  split; [cbn [sessions spread]; now rewrite S2, S1 |].
  assert (Hlast : forall evs, added w w1 evs ->
            added w {| ext := ext w2;
                       sessions := map_delete
                         (field (obj_set "password" JNull (spread row)) "_id")
                         (sessions w2);
                       trace := trace w2 |}
              (evs ++ [(signOutUpdate params
                          (JObj (obj_set "password" JNull (spread row))),
                        Ok updRes)])).
  { intros evs Hevs. pose proof (added_trans Hevs Hupd') as Ht.
    unfold added in *. simpl. exact Ht. }
  destruct (valid_str (authField args "email")
            && valid_str (authField args "password")).
  - exact (Hlast _ Hlog).
  - destruct Hlog as (pl & pw & Hlog). exists pl, pw. exact (Hlast _ Hlog).
Qed.

(** X11.  [signOut] takes the update for done when storage answers it
    with nothing to read a count from: with an answer that is not truthy
    ([undefined], [null], [0], the empty string), or with one that has no
    [changes], it removes the session and answers [true]. *)
Theorem signOut_takes_no_answer_for_done
  (args params : JsVal) w user w1 updRes w2 :
  verifyUser (signInAuth args) JUndefined w = (Ok user, w1) ->
  call (signOutUpdate params user) w1 = (Ok updRes, w2) ->
  truthy updRes = false
  \/ field (spread updRes) "changes" = JUndefined ->
  signOut args params w
  = (Ok (JBool true),
     snd (removeUserSessionById (field (spread user) "_id") w2)).
Proof.
  intros Hv Hupd Hres. rewrite signOut_unfold.
  erewrite bind_ok by exact Hv. erewrite bind_ok by exact Hupd.
  assert (Hnc : no_changes updRes = false).
  { unfold no_changes, lt_one. destruct Hres as [-> | ->]; [reflexivity |].
    apply andb_false_r. }
  rewrite Hnc. reflexivity.
Qed.

(* ===================================================================== *)
(** ** Rejected calls and the session cache *)
(* ===================================================================== *)

Lemma steady_quiet {A} P (m : M A) : steady P m -> rejects_quietly m.
Proof. intros Hs w e w' Hr. exact (steady_sessions P m w _ w' Hs Hr). Qed.

Lemma quiet_bind {A B} P (m : M A) (k : A -> M B) :
  steady P m -> (forall a, rejects_quietly (k a)) ->
  rejects_quietly (bind m k).
Proof.
  intros Hm Hk w e w' Hr. apply bind_run in Hr.
  destruct Hr as [(a & w1 & Ha & Hr) | (e' & He & _)].
  - rewrite (Hk a w1 e w' Hr). exact (steady_sessions P m w _ w1 Hm Ha).
  - exact (steady_sessions P m w _ w' Hm He).
Qed.

Lemma quiet_if {A} (b : bool) (m1 m2 : M A) :
  rejects_quietly m1 -> rejects_quietly m2 ->
  rejects_quietly (if b then m1 else m2).
Proof. destruct b; auto. Qed.

Lemma quiet_throw {A} e : rejects_quietly (@throw A e).
Proof. intros w e' w' H. now inversion H. Qed.

Lemma quiet_setUserSession {A} data (a : A) :
  rejects_quietly (setUserSession data ;;; ret a).
Proof. intros w e w' H. discriminate. Qed.

Lemma quiet_removeUserSessionById {A} id (a : A) :
  rejects_quietly (removeUserSessionById id ;;; ret a).
Proof. intros w e w' H. discriminate. Qed.

Lemma quiet_signUp args params : rejects_quietly (signUp args params).
Proof.
  unfold signUp. apply quiet_if; [apply quiet_throw |].
  unfold signUpAccepted.
  apply (quiet_bind any_call); [now apply steady_call |]. intros fromApi.
  apply (quiet_bind any_call); [apply steady_destructure |]. intros prof.
  apply (quiet_bind any_call); [now apply steady_getUser |]. intros u.
  apply quiet_if; [apply quiet_throw |].
  apply (quiet_bind any_call).
  { apply steady_promise_all.
    repeat (constructor; [now apply steady_call |]). constructor. }
  intros enc.
  apply (quiet_bind any_call); [now apply steady_createUser |]. intros user.
  apply (quiet_bind any_call); [now apply steady_generateAuthJWT |].
  intros jwt. apply quiet_setUserSession.
Qed.

Lemma quiet_signIn args params : rejects_quietly (signIn args params).
Proof.
  unfold signIn.
  apply (quiet_bind any_call); [now apply steady_verifyUser |]. intros user.
  apply (quiet_bind any_call); [now apply steady_call |]. intros fromApi.
  apply (quiet_bind any_call); [apply steady_destructure |]. intros prof.
  apply (quiet_bind any_call); [now apply steady_call |]. intros res.
  apply quiet_if; [apply quiet_throw |].
  apply (quiet_bind any_call); [now apply steady_generateAuthJWT |].
  intros jwt. apply quiet_setUserSession.
Qed.

Lemma quiet_signOut args params : rejects_quietly (signOut args params).
Proof.
  unfold signOut.
  apply (quiet_bind any_call); [now apply steady_verifyUser |]. intros user.
  apply (quiet_bind any_call); [now apply steady_call |]. intros res.
  apply quiet_if; [apply quiet_throw |].
  apply quiet_removeUserSessionById.
Qed.

(** X12.  [signUp], [signIn] and [signOut] touch the session cache last,
    once nothing can fail any more: a call of theirs that is rejected,
    at whatever step, leaves the cache exactly as it was. *)
Theorem rejected_calls_leave_the_sessions (args params : JsVal) :
  rejects_quietly (signUp args params)
  /\ rejects_quietly (signIn args params)
  /\ rejects_quietly (signOut args params).
Proof.
  split; [apply quiet_signUp | split; [apply quiet_signIn |]].
  apply quiet_signOut.
Qed.

(* ===================================================================== *)
(** ** createSubAccount: tokens, sessions and the answer *)
(* ===================================================================== *)

Lemma verifyUser_no_path args params w :
  valid_str (authField args "email")
  && valid_str (authField args "password") = false ->
  valid_str (authField args "jwt") = false ->
  verifyUser args params w = (Err AuthError, w).
Proof.
  unfold verifyUser, authField. cbv zeta. intros Hpair Hjwt.
  now rewrite Hpair, Hjwt.
Qed.

(** [verifyUser] as [SubAccount] calls it, with the token under the name
    [token]: only an email and a password can pass. *)
Lemma verifyUser_without_jwt email password token params w :
  valid_str email && valid_str password = false ->
  verifyUser
    (JObj [("auth", JObj [("email", email); ("password", password);
                          ("token", token)])]) params w
  = (Err AuthError, w).
Proof.
  intros Hpair. apply verifyUser_no_path; [exact Hpair | reflexivity].
Qed.

Lemma resolveAuth_without_jwt subUserAuth w :
  truthy (js_or (str_field (field (spread subUserAuth) "email"))
                (str_field (field (spread subUserAuth) "token"))) = true ->
  valid_str (field (spread subUserAuth) "email")
  && valid_str (field (spread subUserAuth) "password") = false ->
  resolveAuth subUserAuth w = (Err AuthError, w).
Proof.
  intros Hchk Hpair. unfold resolveAuth. rewrite Hchk.
  erewrite bind_err; [reflexivity |].
  now apply verifyUser_without_jwt.
Qed.

(** X13.  [createSubAccount] takes no token.  It reads the caller's token
    as [token] and hands it to [verifyUser] under that name, where the
    token is read as [jwt]: without a usable email and password the call
    is rejected with [AuthError] before any call to a collaborator.  The
    same holds for an entry of the desired list that is to be checked in
    storage (it has an email or a token): without a usable email and
    password of its own it makes the turn of the loop, in
    [createSubAccount] and in [updateSubAccount], throw [AuthError]. *)
Theorem createSubAccount_takes_no_token :
  (forall args w,
     valid_str (authField args "email")
     && valid_str (authField args "password") = false ->
     createSubAccount args w = (Err AuthError, w))
  /\
  (forall subUserAuth w,
     truthy (js_or (str_field (field (spread subUserAuth) "email"))
                   (str_field (field (spread subUserAuth) "token"))) = true ->
     valid_str (field (spread subUserAuth) "email")
     && valid_str (field (spread subUserAuth) "password") = false ->
     (forall masterUser pw _id total st,
        createStep masterUser pw _id total st subUserAuth w
        = (Err AuthError, w))
     /\
     (forall subAccountUser masterUser _id subUsers st,
        updateStep subAccountUser masterUser _id subUsers st subUserAuth w
        = (Err AuthError, w))).
Proof.
  split.
  - intros args w Hpair. unfold createSubAccount.
    erewrite bind_err; [reflexivity |].
    now apply verifyUser_without_jwt.
  - intros subUserAuth w Hchk Hpair. split.
    + intros. unfold createStep.
      erewrite bind_err; [reflexivity |]. now apply resolveAuth_without_jwt.
    + intros. unfold updateStep.
      erewrite bind_err; [reflexivity |]. now apply resolveAuth_without_jwt.
Qed.

Lemma map_set_keeps k v m k' :
  map_get k' m <> None -> map_get k' (map_set k v m) <> None.
Proof.
  intros H. destruct (val_eqb k' k) eqn:E.
  - apply val_eqb_eq in E. subst k'. rewrite map_get_set. discriminate.
  - now rewrite map_get_set_other.
Qed.

Lemma keeps_steady {A} P (m : M A) : steady P m -> keeps_sessions m.
Proof.
  intros Hs w k Hk. destruct (m w) as [r w'] eqn:Hr. simpl.
  now rewrite (steady_sessions P m w r w' Hs Hr).
Qed.

Lemma keeps_bind {A B} (m : M A) (k : A -> M B) :
  keeps_sessions m -> (forall a, keeps_sessions (k a)) ->
  keeps_sessions (bind m k).
Proof.
  intros Hm Hk w key Hkey. unfold bind. specialize (Hm w key Hkey).
  destruct (m w) as [[a | e] w1]; simpl in *; [| exact Hm].
  now apply Hk.
Qed.

Lemma keeps_if {A} (b : bool) (m1 m2 : M A) :
  keeps_sessions m1 -> keeps_sessions m2 ->
  keeps_sessions (if b then m1 else m2).
Proof. destruct b; auto. Qed.

Lemma keeps_ret {A} (a : A) : keeps_sessions (ret a).
Proof. intros w k Hk. exact Hk. Qed.

Lemma keeps_throw {A} e : keeps_sessions (@throw A e).
Proof. intros w k Hk. exact Hk. Qed.

Lemma keeps_setUserSession data : keeps_sessions (setUserSession data).
Proof. intros w k Hk. simpl. now apply map_set_keeps. Qed.

Lemma keeps_signUp args params : keeps_sessions (signUp args params).
Proof.
  unfold signUp. apply keeps_if; [apply keeps_throw |].
  unfold signUpAccepted.
  apply keeps_bind; [now apply (keeps_steady any_call), steady_call |].
  intros fromApi.
  apply keeps_bind; [apply (keeps_steady any_call), steady_destructure |].
  intros prof.
  apply keeps_bind; [now apply (keeps_steady any_call), steady_getUser |].
  intros u. apply keeps_if; [apply keeps_throw |].
  apply keeps_bind.
  { apply (keeps_steady any_call), steady_promise_all.
    repeat (constructor; [now apply steady_call |]). constructor. }
  intros enc.
  apply keeps_bind; [now apply (keeps_steady any_call), steady_createUser |].
  intros user.
  apply keeps_bind;
    [now apply (keeps_steady any_call), steady_generateAuthJWT |].
  intros jwt.
  apply keeps_bind; [apply keeps_setUserSession |]. intros _.
  apply keeps_ret.
Qed.

Lemma keeps_pure {A} (m : M A) : pure_run m -> keeps_sessions m.
Proof. intros Hp. apply (keeps_steady any_call). now apply pure_steady. Qed.

Lemma keeps_resolveAuth subUserAuth : keeps_sessions (resolveAuth subUserAuth).
Proof.
  unfold resolveAuth. apply keeps_bind; [| intros a; apply keeps_ret].
  apply keeps_if; [| apply keeps_ret].
  now apply (keeps_steady any_call), steady_verifyUser.
Qed.

Lemma keeps_signUpSubUser auth pw chk masterUser :
  keeps_sessions (signUpSubUser auth pw chk masterUser).
Proof.
  unfold signUpSubUser.
  apply keeps_bind; [apply (keeps_steady any_call), steady_get |].
  intros id. apply keeps_signUp.
Qed.

Lemma keeps_insertLink _id subUser : keeps_sessions (insertLink _id subUser).
Proof.
  unfold insertLink.
  apply keeps_bind; [apply (keeps_steady any_call), steady_get |].
  intros id.
  apply keeps_bind; [now apply (keeps_steady any_call), steady_call |].
  intros _. apply keeps_ret.
Qed.

Lemma keeps_createStep masterUser pw _id total st entry :
  keeps_sessions (createStep masterUser pw _id total st entry).
Proof.
  unfold createStep.
  apply keeps_bind; [apply keeps_resolveAuth |]. intros ra.
  apply keeps_bind.
  { apply keeps_if; [| apply keeps_ret].
    apply keeps_bind; [apply keeps_pure, pure_same_creds |].
    intros b. apply keeps_ret. }
  intros guard. apply keeps_if; [apply keeps_throw |].
  apply keeps_bind.
  { apply keeps_pure, pure_someM. intros x. apply pure_same_creds. }
  intros dup. apply keeps_if; [apply keeps_ret |].
  apply keeps_bind; [apply keeps_signUpSubUser |]. intros subUser.
  apply keeps_bind; [apply keeps_insertLink |]. intros _.
  apply keeps_bind; [apply keeps_pure, pure_same_creds |].
  intros b. apply keeps_ret.
Qed.

Lemma keeps_createLoop masterUser pw _id total entries :
  forall st, keeps_sessions (createLoop masterUser pw _id total entries st).
Proof.
  induction entries as [| entry entries IH]; intros st; simpl.
  - apply keeps_ret.
  - apply keeps_bind; [apply keeps_createStep |]. intros st'. apply IH.
Qed.

Lemma keeps_executeQueriesInTrans {A} (work : M A) :
  keeps_sessions work -> keeps_sessions (executeQueriesInTrans work).
Proof.
  intros Hw. unfold executeQueriesInTrans.
  apply keeps_bind; [now apply (keeps_steady any_call), steady_call |].
  intros _ w k Hk. specialize (Hw w k Hk).
  destruct (work w) as [[a | e] w1]; simpl in *.
  - assert (Hc : keeps_sessions (call DaoTransCommit ;;; ret a)).
    { apply keeps_bind;
        [now apply (keeps_steady any_call), steady_call |].
      intros _. apply keeps_ret. }
    now apply Hc.
  - assert (Hc : keeps_sessions (call DaoTransRollback)).
    { now apply (keeps_steady any_call), steady_call. }
    now apply Hc.
Qed.

Lemma keeps_createSubAccountTrans masterUser pw subAccount keys :
  keeps_sessions (createSubAccountTrans masterUser pw subAccount keys).
Proof.
  unfold createSubAccountTrans.
  apply keeps_bind; [apply keeps_signUp |]. intros su.
  apply keeps_bind; [apply (keeps_steady any_call), steady_destructure |].
  intros o.
  apply keeps_bind; [apply keeps_createLoop |]. intros st.
  apply keeps_bind; [apply keeps_setUserSession |]. intros _.
  apply keeps_ret.
Qed.

Lemma keeps_createSubAccount args : keeps_sessions (createSubAccount args).
Proof.
  unfold createSubAccount.
  apply keeps_bind; [now apply (keeps_steady any_call), steady_verifyUser |].
  intros masterUser.
  apply keeps_bind.
  { apply keeps_if; [apply keeps_ret |].
    apply (keeps_steady any_call), steady_get. }
  intros pw. apply keeps_if; [apply keeps_throw |].
  apply keeps_executeQueriesInTrans, keeps_createSubAccountTrans.
Qed.

Lemma keeps_run {A} (m : M A) w r w' k :
  keeps_sessions m -> m w = (r, w') ->
  map_get k (sessions w) <> None -> map_get k (sessions w') <> None.
Proof. intros Hk Hr Hin. specialize (Hk w k Hin). now rewrite Hr in Hk. Qed.

Lemma executeQueriesInTrans_run {A} (work : M A) w b w0 r w' :
  call DaoTransBegin w = (Ok b, w0) ->
  executeQueriesInTrans work w = (r, w') ->
  (exists a w1 c, work w0 = (Ok a, w1) /\
                  call DaoTransCommit w1 = (c, w') /\
                  r = match c with Ok _ => Ok a | Err e => Err e end)
  \/
  (exists e w1 rb, work w0 = (Err e, w1) /\
                   call DaoTransRollback w1 = (rb, w') /\ r = Err e).
Proof.
  intros Hb. unfold executeQueriesInTrans.
  erewrite bind_ok by exact Hb.
  destruct (work w0) as [[a | e] w1].
  - unfold bind. destruct (call DaoTransCommit w1) as [[c | e] w2] eqn:Hc;
      intros H; inversion H; subst; left.
    + exists a, w1, (Ok c). auto.
    + exists a, w1, (Err e). auto.
  - destruct (call DaoTransRollback w1) as [rb w2] eqn:Hrb. simpl.
    intros H. inversion H; subst. right. exists e, w1, rb. auto.
Qed.

(** X14.  The session cache is outside the transaction of
    [createSubAccount].  [signUp] caches the identity it creates whatever
    its parameters say, and [createSubAccount] never removes an entry of
    the cache; so once the aggregate of the group is signed up inside the
    transaction, its [_id] is cached and stays cached to the end of the
    call, also when the call is rejected later on and storage is told to
    roll back. *)
Theorem createSubAccount_sessions_outlive_rollback :
  (forall args, keeps_sessions (createSubAccount args))
  /\
  (forall masterUser pw subAccount keys w b w0 su w1 r w',
     call DaoTransBegin w = (Ok b, w0) ->
     signUp (JObj [("auth", subAccount)]) aggregateParams w0 = (Ok su, w1) ->
     executeQueriesInTrans
       (createSubAccountTrans masterUser pw subAccount keys) w = (r, w') ->
     exists _id,
       isInteger _id = true /\
       map_get _id (sessions w0) = map_get _id (sessions w) /\
       map_get _id (sessions w1) <> None /\
       map_get _id (sessions w') <> None /\
       (forall e w2,
          createSubAccountTrans masterUser pw subAccount keys w0
          = (Err e, w2) ->
          r = Err e /\
          exists rb, trace w' = trace w2 ++ [(DaoTransRollback, rb)])).
Proof.
  split; [exact keeps_createSubAccount |].
  intros masterUser pw subAccount keys w b w0 su w1 r w' Hb Hsu Hrun.
  pose proof Hsu as Hsu'. apply signUp_ok in Hsu'.
  destruct Hsu' as (fromApi & userFromDb & ek & es & ep & hash & ins & user
                    & jwt & Hsu').
  cbv zeta in Hsu'. destruct Hsu' as (_ & _ & _ & _ & Hid & _ & Hss).
  exists (field (spread user) "_id").
  assert (Hint : isInteger (field (spread user) "_id") = true).
  { unfold has_integer_id in Hid. now apply andb_true_iff in Hid. }
  assert (Hin1 : map_get (field (spread user) "_id") (sessions w1) <> None).
  { rewrite Hss, map_get_set. discriminate. }
  assert (Hwork : forall r1 w2,
            createSubAccountTrans masterUser pw subAccount keys w0 = (r1, w2) ->
            map_get (field (spread user) "_id") (sessions w2) <> None).
  { intros r1 w2. unfold createSubAccountTrans.
    fold aggregateParams. intros H.
    erewrite bind_ok in H by exact Hsu.
    eapply keeps_run; [| exact H | exact Hin1].
    apply keeps_bind; [apply (keeps_steady any_call), steady_destructure |].
    intros o.
    apply keeps_bind; [apply keeps_createLoop |]. intros st.
    apply keeps_bind; [apply keeps_setUserSession |]. intros _.
    apply keeps_ret. }
  split; [exact Hint |]. split.
  { apply call_run in Hb. destruct Hb as (_ & S0 & _). now rewrite S0. }
  split; [exact Hin1 |].
  destruct (executeQueriesInTrans_run _ _ _ _ _ _ Hb Hrun)
    as [(a & w2 & c & Hw & Hc & Hr) | (e & w2 & rb & Hw & Hrb & Hr)].
  - pose proof (Hwork _ _ Hw) as Hin2.
    apply call_run in Hc. destruct Hc as (_ & S2 & T2).
    split; [now rewrite S2 |].
    intros e w3 He. rewrite Hw in He. discriminate.
  - pose proof (Hwork _ _ Hw) as Hin2.
    apply call_run in Hrb. destruct Hrb as (_ & S2 & T2).
    split; [now rewrite S2 |].
    intros e' w3 He. rewrite Hw in He. inversion He; subst.
    split; [reflexivity |]. exists rb. exact T2.
Qed.

Lemma executeQueriesInTrans_ok {A} (work : M A) w a w' :
  executeQueriesInTrans work w = (Ok a, w') ->
  exists b w0 w1 c,
    call DaoTransBegin w = (Ok b, w0) /\
    work w0 = (Ok a, w1) /\
    call DaoTransCommit w1 = (Ok c, w').
Proof.
  unfold executeQueriesInTrans. intros H. run_ok H b w0 Hb.
  destruct (work w0) as [[a' | e] w1] eqn:Hw; [| discriminate].
  run_ok H c w2 Hc. inversion H; subst.
  exists b, w0, w1, c. auto.
Qed.

(** X15.  What a successful [createSubAccount] leaves behind.  It reads
    [_id] and [token] off the answer of [signUp], which holds an email, a
    flag and a [jwt]: so its own answer is the email of the aggregate and
    [isSubAccount: true] with an undefined [token], and the session of
    the group is cached under the key [undefined], with the jwt of the
    aggregate and without the sub-users. *)
Theorem createSubAccount_answers_no_token (args : JsVal) w res w' :
  createSubAccount args w = (Ok res, w') ->
  exists email jwt,
    valid_str email = true /\
    res = JObj [("email", email); ("isSubAccount", JBool true);
                ("token", JUndefined)] /\
    map_get JUndefined (sessions w')
    = Some (sessionEntry JUndefined email jwt).
Proof.
  unfold createSubAccount. intros H.
  run_ok H masterUser w1 Hv. run_ok H pw w2 Hpw.
  destruct (badCreateRequest _ _); [discriminate |].
  apply executeQueriesInTrans_ok in H.
  destruct H as (b & w3 & w4 & c & Hb & Hwork & Hc).
  unfold createSubAccountTrans in Hwork.
  run_ok Hwork su w5 Hsu.
  apply signUp_ok in Hsu.
  destruct Hsu as (fromApi & userFromDb & ek & es & ep & hash & ins & user
                   & jwt & Hsu).
  cbv zeta in Hsu. destruct Hsu as (_ & _ & Hemail & _ & _ & -> & _).
  run_ok Hwork o w6 Ho. inversion Ho; subst o w6. clear Ho.
  run_ok Hwork st w7 Hloop.
  run_ok Hwork u w8 Hset. inversion Hwork; subst. clear Hwork.
  apply setUserSession_run in Hset. destruct Hset as [_ Hss].
  apply call_run in Hc. destruct Hc as (_ & Sc & _).
  exists (field (spread fromApi) "email"), jwt.
  split; [exact Hemail |]. split; [reflexivity |].
  rewrite Sc, Hss.
  change (field _ "_id") with JUndefined.
  change (field (spread (JObj (obj_set "subUsers" (JArr (subUsers st))
            (spread (JObj [("email", field (spread fromApi) "email");
                           ("isSubAccount", field (spread user) "isSubAccount");
                           ("jwt", jwt)]))))) "email")
    with (field (spread fromApi) "email").
  change (field _ "jwt") with jwt.
  apply map_get_set.
Qed.

(* ===================================================================== *)
(** ** getUser and getUsers with sub-users *)
(* ===================================================================== *)

Lemma excludeProps_not_array data props :
  isArray data = false -> isArray (excludeProps data props) = false.
Proof.
  intros Hd. unfold excludeProps.
  destruct props as [| | | | | | | [| p ps]]; try exact Hd.
  destruct data; try discriminate; unfold pick_item; simpl;
    try reflexivity.
  - destruct b; reflexivity.
  - destruct (negb (n =? 0)%Z); reflexivity.
  - destruct (negb (s =? "")); reflexivity.
Qed.

Lemma decryptApiKeys_single password user w v w' :
  isArray user = false ->
  decryptApiKeys password user w = (Ok v, w') ->
  exists key secret,
    added w w' (key_events password (user, (key, secret))) /\
    v = decrypted (user, (key, secret)).
Proof.
  intros Harr H.
  destruct (proj2 (decryptApiKeys_run password user w) v w' H)
    as (keys & Hk & Hadd & Hv).
  destruct user; try discriminate;
    (destruct keys as [| [key secret] [| k keys]]; simpl in Hk; try lia;
     exists key, secret; simpl in *; rewrite ?app_nil_r in Hadd;
     now split).
Qed.

(** X16.  [getUser] with a password and [isFilledSubUsers], on a row that
    is not an array: after the read, the two keys of the row (cut to the
    projection first) are decrypted with the password, and then, with the
    same password, the two keys of every sub-user of the row, in order.
    The answer is the row with its keys and those of its sub-users
    replaced by what crypto answered.  A [subUsers] that is not an array
    is taken for one sub-user: for a row without [subUsers], two
    decryptions of [undefined] are asked for and the answer holds a
    [subUsers] object made of their answers. *)
Theorem getUser_fills_sub_users (filter params : JsVal) w row w1 v w' :
  let password := paramField params "password" in
  let user := excludeProps row (paramField params "projection") in
  let subUsers := field (spread user) "subUsers" in
  let subs := match subUsers with JArr l => l | _ => [subUsers] end in
  valid_str password = true ->
  truthy (paramField params "isFilledSubUsers") = true ->
  call (DaoGetUser filter params) w = (Ok row, w1) ->
  isArray row = false ->
  getUser filter params w = (Ok v, w') ->
  exists key secret answers,
    length answers = length subs /\
    added w w'
      ((DaoGetUser filter params, Ok row)
       :: key_events password (user, (key, secret))
       ++ flat_map (key_events password) (combine subs answers)) /\
    v = JObj (obj_set "subUsers"
                (match subUsers with
                 | JArr _ => JArr (map decrypted (combine subs answers))
                 | _ => nth 0 (map decrypted (combine subs answers)) JUndefined
                 end)
                (spread (decrypted (user, (key, secret))))).
Proof.
  intros password user subUsers subs Hpw Hfill Hcall Harr H.
  unfold getUser in H. unfold paramField in *.
  erewrite bind_ok in H by exact Hcall.
  fold password in H. fold user in H.
  assert (Hc : negb (truthy password) || negb (is_string password) = false).
  { unfold valid_str in Hpw. apply andb_true_iff in Hpw.
    destruct Hpw as [-> ->]. reflexivity. }
  rewrite Hc in H. run_ok H du w2 Hdu.
  rewrite Hfill in H. simpl negb in H. cbv iota in H.
  apply decryptApiKeys_single in Hdu;
    [| now apply excludeProps_not_array].
  destruct Hdu as (key & secret & Hadd1 & ->).
  run_ok H ds w3 Hds. inversion H; subst. clear H.
  assert (Hsub : field (spread (decrypted (user, (key, secret)))) "subUsers"
                 = subUsers).
  { unfold decrypted. simpl fst. simpl snd. simpl spread.
    now rewrite !field_obj_set_other by reflexivity. }
  rewrite Hsub in Hds.
  destruct (proj2 (decryptApiKeys_run password subUsers w2) ds w' Hds)
    as (answers & Hlen & Hadd2 & Hv).
  exists key, secret, answers. split; [exact Hlen |]. split.
  - apply call_added in Hcall.
    pose proof (added_trans (added_trans Hcall Hadd1) Hadd2) as Ht.
    unfold added in *. rewrite Ht. norm_app. reflexivity.
  - rewrite Hv. reflexivity.
Qed.

Lemma started_run (m : M JsVal) w :
  started m w = (Ok (fst (m w)), snd (m w)).
Proof. unfold started. destruct (m w). reflexivity. Qed.

Lemma subUsersPromises_throws pwds users w :
  (exists user, In user users /\
                passwordEntry pwds (field (spread user) "email") = None) ->
  exists w', subUsersPromises pwds users w = (Err TypeError, w').
Proof.
  revert w. induction users as [| u users IH]; intros w (user & Hin & Hnone).
  - destruct Hin.
  - simpl.
    destruct (passwordEntry pwds (field (spread u) "email")) as [ep |] eqn:Hu.
    + destruct Hin as [-> | Hin]; [congruence |].
      erewrite bind_ok by apply started_run.
      destruct (IH (snd (decryptApiKeys (field (spread ep) "password")
                           (field (spread u) "subUsers") w))
                  (ex_intro _ user (conj Hin Hnone))) as (w' & Hw').
      exists w'. erewrite bind_err by exact Hw'. reflexivity.
    + exists w. reflexivity.
Qed.

(** X17.  [getUsers] with a password and [isFilledSubUsers] needs, for
    the email of every user found, an entry of [emailPasswordsMap] with
    that email and a password, both non-empty strings: when one user has
    none (so, whenever [emailPasswordsMap] is left out and a user is
    found) the call is rejected with a [TypeError], not an [AuthError];
    and so it is when storage answers anything but an array. *)
Theorem getUsers_needs_the_password_of_every_email
  (daoGetUsers : JsVal -> JsVal -> M JsVal)
  (filter params : JsVal) w _users w1 decryptedUsers w2 :
  let password := paramField params "password" in
  valid_str password = true ->
  truthy (paramField params "isFilledSubUsers") = true ->
  daoGetUsers filter params w = (Ok _users, w1) ->
  decryptApiKeys password
    (excludeProps _users (paramField params "projection")) w1
  = (Ok decryptedUsers, w2) ->
  isArray decryptedUsers = false
  \/ (exists user,
        In user (items decryptedUsers) /\
        passwordEntry (filteredEmailPwdsMap params)
          (field (spread user) "email") = None) ->
  exists w', getUsers daoGetUsers filter params w = (Err TypeError, w').
Proof.
  intros password Hpw Hfill Hdao Hdec Hbad.
  unfold getUsers. unfold paramField in *.
  erewrite bind_ok by exact Hdao. fold password.
  assert (Hc : negb (truthy password) || negb (is_string password) = false).
  { unfold valid_str in Hpw. apply andb_true_iff in Hpw.
    destruct Hpw as [-> ->]. reflexivity. }
  rewrite Hc. erewrite bind_ok by exact Hdec. rewrite Hfill. simpl negb.
  cbv iota. destruct Hbad as [Hna | Hmiss].
  - exists w2. destruct decryptedUsers; try reflexivity. discriminate.
  - destruct decryptedUsers as [| | | | | | | l];
      try (destruct Hmiss as (u & [] & _)).
    destruct (subUsersPromises_throws _ l w2 Hmiss) as (w' & Hw').
    exists w'. change (negb true) with false. cbv iota.
    erewrite bind_err by exact Hw'. reflexivity.
Qed.

(* ===================================================================== *)
(** ** SubAccount.recoverPassword *)
(* ===================================================================== *)

Section Recovering.

Variable rp : JsVal -> JsVal -> M JsVal.

Lemma isNotExistInDb_run subUsers user w :
  user <> JUndefined -> user <> JNull ->
  isNotExistInDb subUsers user w
  = (Ok (negb (existsb (fun subUser =>
                          strict_eq (field (spread user) "_id")
                                    (field (spread subUser) "_id"))
                       subUsers)), w).
Proof.
  intros Hu Hn. unfold isNotExistInDb.
  assert (Hget : forall w0, get user "_id" w0
                            = (Ok (field (spread user) "_id"), w0)).
  { intros w0. destruct user; try reflexivity; congruence. }
  induction subUsers as [| s subUsers IH]; simpl; [reflexivity |].
  erewrite bind_ok by (erewrite bind_ok by apply Hget; reflexivity).
  destruct (strict_eq _ _); simpl; [reflexivity | exact IH].
Qed.

Lemma isNotExistInDb_pure subUsers user : pure_run (isNotExistInDb subUsers user).
Proof.
  unfold isNotExistInDb. apply pure_everyM. intros x.
  apply pure_bind; [apply pure_get |]. intros a. apply pure_ret.
Qed.

Lemma isNotExistInDb_known subUsers user w w' :
  isNotExistInDb subUsers user w = (Ok false, w') ->
  existsb (fun subUser =>
             strict_eq (field (spread user) "_id")
                       (field (spread subUser) "_id")) subUsers = true.
Proof.
  unfold isNotExistInDb. revert w.
  induction subUsers as [| s subUsers IH]; intros w; simpl;
    [discriminate |].
  intros H. run_ok H b w1 Hb. run_ok Hb rid w2 Hid. inversion Hb; subst.
  assert (Hid' : rid = field (spread user) "_id").
  { unfold get in Hid. run_ok Hid o w3 Ho.
    apply destructure_run in Ho. destruct Ho as [-> Ho].
    destruct Ho as [[Habs _] | [Ho _]]; [discriminate |].
    inversion Ho; subst. now inversion Hid. }
  subst rid. destruct (strict_eq _ _); simpl in *; [reflexivity |].
  now apply IH in H.
Qed.

Lemma recoverStep_ok subUsers np inp entry w w' :
  recoverStep rp subUsers np inp entry w = (Ok tt, w') ->
  exists user,
    rp (recoverSubUserArgs np inp entry) recoverSubUserParams w
    = (Ok user, w') /\
    existsb (fun subUser =>
               strict_eq (field (spread user) "_id")
                         (field (spread subUser) "_id")) subUsers = true.
Proof.
  unfold recoverStep. intros H. run_ok H user w1 Hrp.
  run_ok H missing w2 Hm.
  pose proof (isNotExistInDb_pure _ _ _ _ _ Hm) as ->.
  destruct missing; [discriminate |]. inversion H; subst.
  exists user. split; [exact Hrp |].
  now apply isNotExistInDb_known in Hm.
Qed.

Lemma recoverLoop_ok subUsers np inp entries :
  forall w w',
    recoverLoop rp subUsers np inp entries w = (Ok tt, w') ->
    refreshed rp subUsers np inp entries w w'.
Proof.
  induction entries as [| entry entries IH]; intros w w'; simpl.
  - intros H. inversion H; subst. constructor.
  - intros H. run_ok H u w1 Hstep. destruct u.
    apply recoverStep_ok in Hstep. destruct Hstep as (user & Hrp & Hk).
    econstructor; [exact Hrp | exact Hk | now apply IH].
Qed.

Lemma recoverStep_stranger subUsers np inp entry w user w1 :
  rp (recoverSubUserArgs np inp entry) recoverSubUserParams w
  = (Ok user, w1) ->
  user <> JUndefined -> user <> JNull ->
  existsb (fun subUser =>
             strict_eq (field (spread user) "_id")
                       (field (spread subUser) "_id")) subUsers = false ->
  recoverStep rp subUsers np inp entry w = (Err AuthError, w1).
Proof.
  intros Hrp Hu Hn Hk. unfold recoverStep.
  erewrite bind_ok by exact Hrp.
  erewrite bind_ok by (now apply isNotExistInDb_run).
  now rewrite Hk.
Qed.

End Recovering.

(** X18.  [recoverPassword] of [SubAccount] refuses, with [AuthError] and
    before the transaction is opened or the authenticator asked anything,
    a caller that is not flagged [isSubAccount] and a desired list that is
    not an array or is empty. *)
Theorem recoverPassword_refuses_at_once
  (authenticatorRecoverPassword : JsVal -> JsVal -> M JsVal)
  (args : JsVal) w :
  truthy (authField args "isSubAccount") = false
  \/ isArray (requestParam args "subAccountApiKeys") = false
  \/ items (requestParam args "subAccountApiKeys") = [] ->
  recoverPassword authenticatorRecoverPassword args w = (Err AuthError, w).
Proof.
  intros Hbad. unfold recoverPassword.
  assert (Hb : badRecoverRequest args = true).
  { unfold badRecoverRequest. destruct Hbad as [-> | [-> | ->]]; simpl;
      now rewrite ?orb_true_r. }
  now rewrite Hb.
Qed.

(** X19.  [recoverPassword] of [SubAccount] answers only when, inside one
    transaction that is then committed, the authenticator recovered the
    aggregate with a non-empty array of sub-users and then, for every
    entry of the desired list in order and for the caller's own pair of
    keys last, answered a user whose [_id] is that of one of those
    sub-users.  The answer is the email, the flag and the token of the
    aggregate.  A turn whose user has an [_id] that none of the sub-users
    has throws [AuthError]. *)
Theorem recoverPassword_refreshes_members_only
  (authenticatorRecoverPassword : JsVal -> JsVal -> M JsVal)
  (args : JsVal) :
  (forall w res w',
     recoverPassword authenticatorRecoverPassword args w = (Ok res, w') ->
     exists b w0 subAccount w1 w2 c,
       let subUsers := field (spread subAccount) "subUsers" in
       call DaoTransBegin w = (Ok b, w0) /\
       authenticatorRecoverPassword args recoverAggregateParams w0
       = (Ok subAccount, w1) /\
       isArray subUsers = true /\ items subUsers <> [] /\
       refreshed authenticatorRecoverPassword (items subUsers)
         (authField args "newPassword") (authField args "isNotProtected")
         (items (requestParam args "subAccountApiKeys") ++ [ownKeys args])
         w1 w2 /\
       call DaoTransCommit w2 = (Ok c, w') /\
       res = JObj [ ("email", field (spread subAccount) "email");
                    ("isSubAccount", field (spread subAccount) "isSubAccount");
                    ("token", field (spread subAccount) "token") ])
  /\
  (forall subUsers np inp entry w user w1,
     authenticatorRecoverPassword (recoverSubUserArgs np inp entry)
       recoverSubUserParams w = (Ok user, w1) ->
     user <> JUndefined -> user <> JNull ->
     existsb (fun subUser =>
                strict_eq (field (spread user) "_id")
                          (field (spread subUser) "_id")) subUsers = false ->
     recoverStep authenticatorRecoverPassword subUsers np inp entry w
     = (Err AuthError, w1)).
Proof.
  split.
  - intros w res w'. unfold recoverPassword.
    destruct (badRecoverRequest args); [discriminate |]. intros H.
    apply executeQueriesInTrans_ok in H.
    destruct H as (b & w0 & w2 & c & Hb & Hwork & Hc).
    unfold recoverPasswordTrans in Hwork.
    run_ok Hwork subAccount w1 Hagg.
    destruct (negb (isArray (field (spread subAccount) "subUsers"))
              || (length (items (field (spread subAccount) "subUsers")) =? 0)%nat)
      eqn:Hsub; [discriminate |].
    apply orb_false_iff in Hsub. destruct Hsub as [Harr Hlen].
    apply negb_false_iff in Harr. apply Nat.eqb_neq in Hlen.
    run_ok Hwork u w3 Hloop. destruct u. inversion Hwork; subst.
    apply recoverLoop_ok in Hloop.
    exists b, w0, subAccount, w1, w2, c. cbv zeta.
    repeat (split; [assumption |]).
    split; [| repeat (split; [assumption |]); reflexivity].
    intros Hnil. rewrite Hnil in Hlen. now apply Hlen.
  - intros subUsers np inp entry w user w1 Hrp Hu Hn Hk.
    eapply recoverStep_stranger; eassumption.
Qed.

(* ===================================================================== *)
(** ** createSubAccount: what it refuses and which password it uses *)
(* ===================================================================== *)

Lemma createSubAccount_verified args w :
  createSubAccount args w =
  (masterUser <- verifyUser (masterAuth args) masterParams ;;
   _subAccountPassword <-
     (if valid_str (requestParam args "subAccountPassword")
      then ret (requestParam args "subAccountPassword")
      else get masterUser "password") ;;
   if badCreateRequest masterUser (requestParam args "subAccountApiKeys")
   then throw SubAccountCreatingError
   else
     executeQueriesInTrans
       (createSubAccountTrans masterUser _subAccountPassword
          (JObj (obj_set "password" _subAccountPassword
                   (obj_merge (spread masterUser)
                      (spread (getSubAccountAuthFromAuth env masterUser)))))
          (items (requestParam args "subAccountApiKeys")))) w.
Proof. reflexivity. Qed.

(** The password [createSubAccount] goes on with, once the master is
    verified. *)
Lemma createSubAccount_password args w masterUser w1 :
  verifyUser (masterAuth args) masterParams w = (Ok masterUser, w1) ->
  forall w2,
    (if valid_str (requestParam args "subAccountPassword")
     then ret (requestParam args "subAccountPassword")
     else get masterUser "password") w2
    = (Ok (subAccountPasswordOf args), w2).
Proof.
  intros Hv w2. unfold subAccountPasswordOf.
  destruct (valid_str (requestParam args "subAccountPassword"));
    [reflexivity |].
  destruct (verifyUser_ok_obj _ _ _ _ _ Hv) as (o & ->).
  rewrite get_obj. f_equal. f_equal.
  destruct (valid_str (authField args "email")
            && valid_str (authField args "password")) eqn:Hpair.
  - exact (verifyUser_password_given _ _ _ _ _ Hv Hpair).
  - rewrite verifyUser_no_path in Hv; [discriminate | exact Hpair |].
    reflexivity.
Qed.

(** X20.  [createSubAccount] refuses to nest groups: when the verified
    master holds the keys of a sub-account, or one entry of the desired
    list does, the call is rejected with [SubAccountCreatingError] as soon
    as the master is verified: no transaction is opened and nothing is
    written or cached. *)
Theorem createSubAccount_refuses_sub_account_keys
  (args : JsVal) w masterUser w1 :
  verifyUser (masterAuth args) masterParams w = (Ok masterUser, w1) ->
  isSubAccountApiKeys env masterUser = true
  \/ existsb (isSubAccountApiKeys env)
       (items (requestParam args "subAccountApiKeys")) = true ->
  createSubAccount args w = (Err SubAccountCreatingError, w1)
  /\ logs verify_call w w1.
Proof.
  intros Hv Hbad. split; [| exact (verifyUser_logs _ _ _ _ _ Hv)].
  rewrite createSubAccount_verified.
  erewrite bind_ok by exact Hv.
  erewrite bind_ok
    by exact (createSubAccount_password args w masterUser w1 Hv w1).
  assert (Hb : badCreateRequest masterUser
                 (requestParam args "subAccountApiKeys") = true).
  { unfold badCreateRequest. destruct Hbad as [-> | ->];
      now rewrite ?orb_true_r. }
  now rewrite Hb.
Qed.

Lemma hashes_only_not_hash pw c :
  match c with CryptoHashPassword _ => False | _ => True end ->
  hashes_only pw c = true.
Proof. destruct c; simpl; tauto. Qed.

Lemma only_signUp_hashes pw args params :
  authField args "password" = pw ->
  only_calls (hashes_only pw) (signUp args params).
Proof.
  intros Hpw. unfold signUp. apply only_if; [apply only_throw |].
  unfold signUpAccepted.
  apply only_bind; [now apply steady_only, steady_call |]. intros fromApi.
  apply only_bind; [apply steady_only, steady_destructure |]. intros prof.
  apply only_bind; [now apply steady_only, steady_getUser |]. intros u.
  apply only_if; [apply only_throw |].
  apply only_bind.
  { apply steady_only, steady_promise_all.
    repeat (constructor; [now apply steady_call |]).
    constructor; [| constructor].
    apply steady_call. simpl. unfold authField in Hpw. rewrite Hpw.
    apply val_eqb_refl. }
  intros enc.
  apply only_bind; [now apply steady_only, steady_createUser |]. intros user.
  apply only_bind; [now apply steady_only, steady_generateAuthJWT |].
  intros jwt.
  apply only_bind; [apply only_setUserSession |]. intros _.
  apply only_ret.
Qed.

Lemma only_pure {A} P (m : M A) : pure_run m -> only_calls P m.
Proof. intros Hp. now apply steady_only, pure_steady. Qed.

Lemma only_createStep_hashes masterUser pw _id total st entry :
  only_calls (hashes_only pw) (createStep masterUser pw _id total st entry).
Proof.
  unfold createStep.
  apply only_bind.
  { unfold resolveAuth. apply only_bind; [| intros a; apply only_ret].
    apply only_if; [| apply only_ret].
    now apply steady_only, steady_verifyUser. }
  intros ra. apply only_bind.
  { apply only_if; [| apply only_ret].
    apply only_bind; [apply only_pure, pure_same_creds |].
    intros b. apply only_ret. }
  intros guard. apply only_if; [apply only_throw |].
  apply only_bind.
  { apply only_pure, pure_someM. intros x. apply pure_same_creds. }
  intros dup. apply only_if; [apply only_ret |].
  apply only_bind.
  { unfold signUpSubUser.
    apply only_bind; [apply steady_only, steady_get |]. intros id0.
    apply only_signUp_hashes. unfold authField. simpl spread.
    change (field [("auth", JObj (obj_set "password" pw (spread (snd ra))))]
              "auth")
      with (JObj (obj_set "password" pw (spread (snd ra)))).
    simpl spread. apply field_obj_set_same. }
  intros subUser.
  apply only_bind.
  { unfold insertLink.
    apply only_bind; [apply steady_only, steady_get |]. intros id0.
    apply only_bind; [now apply steady_only, steady_call |]. intros _.
    apply only_ret. }
  intros _.
  apply only_bind; [apply only_pure, pure_same_creds |].
  intros b. apply only_ret.
Qed.

Lemma only_createLoop_hashes masterUser pw _id total entries :
  forall st,
    only_calls (hashes_only pw)
      (createLoop masterUser pw _id total entries st).
Proof.
  induction entries as [| entry entries IH]; intros st; simpl.
  - apply only_ret.
  - apply only_bind; [apply only_createStep_hashes |]. intros st'. apply IH.
Qed.

Lemma only_executeQueriesInTrans {A} P (work : M A) :
  P DaoTransBegin = true -> P DaoTransCommit = true ->
  P DaoTransRollback = true ->
  only_calls P work -> only_calls P (executeQueriesInTrans work).
Proof.
  intros Hb Hc Hr Hw. unfold executeQueriesInTrans.
  apply only_bind; [now apply steady_only, steady_call |].
  intros _ w. destruct (Hw w) as (e1 & Ha1 & Hp1).
  destruct (work w) as [[a | e] w1]; simpl in *.
  - assert (Hk : only_calls P (call DaoTransCommit ;;; ret a)).
    { apply only_bind; [now apply steady_only, steady_call |].
      intros _. apply only_ret. }
    destruct (Hk w1) as (e2 & Ha2 & Hp2).
    exists (e1 ++ e2). split; [exact (added_trans Ha1 Ha2) |].
    unfold all_calls in *. rewrite forallb_app.
    apply andb_true_intro. split; assumption.
  - assert (Hk : only_calls P (call DaoTransRollback)).
    { now apply steady_only, steady_call. }
    destruct (Hk w1) as (e2 & Ha2 & Hp2).
    exists (e1 ++ e2). split; [exact (added_trans Ha1 Ha2) |].
    unfold all_calls in *. rewrite forallb_app.
    apply andb_true_intro. split; assumption.
Qed.

Lemma only_bind_at {A B} P (m : M A) (k : A -> M B) w :
  (exists evs, added w (snd (m w)) evs /\ all_calls P evs = true) ->
  (forall a w1, m w = (Ok a, w1) ->
     exists evs, added w1 (snd (k a w1)) evs /\ all_calls P evs = true) ->
  exists evs, added w (snd (bind m k w)) evs /\ all_calls P evs = true.
Proof.
  intros (e1 & Ha1 & Hp1) Hk. unfold bind.
  destruct (m w) as [[a | e] w1]; simpl in *.
  - destruct (Hk a w1 eq_refl) as (e2 & Ha2 & Hp2).
    exists (e1 ++ e2). split; [exact (added_trans Ha1 Ha2) |].
    unfold all_calls in *. rewrite forallb_app.
    apply andb_true_intro. split; assumption.
  - exists e1. now split.
Qed.

(** X21.  One password protects a whole group.  In every run of
    [createSubAccount] the only password handed to
    [crypto.hashPassword], for the aggregate and for every sub-user, is
    [subAccountPassword] when that is a non-empty string and the password
    the caller was verified with otherwise. *)
Theorem createSubAccount_hashes_one_password (args : JsVal) :
  only_calls (hashes_only (subAccountPasswordOf args)) (createSubAccount args).
Proof.
  intros w. rewrite createSubAccount_verified.
  apply only_bind_at.
  { apply steady_only. now apply steady_verifyUser. }
  intros masterUser w1 Hv.
  apply only_bind_at.
  { rewrite (createSubAccount_password args w masterUser w1 Hv w1).
    exists []. split; [apply added_refl | reflexivity]. }
  intros pw w2 Hpw.
  rewrite (createSubAccount_password args w masterUser w1 Hv w1) in Hpw.
  inversion Hpw; subst pw w2. clear Hpw.
  apply only_if; [apply only_throw |].
  apply only_executeQueriesInTrans; try reflexivity.
  unfold createSubAccountTrans.
  apply only_bind.
  { apply only_signUp_hashes. unfold authField. simpl spread.
    apply field_obj_set_same. }
  intros su.
  apply only_bind; [apply steady_only, steady_destructure |]. intros o.
  apply only_bind; [apply only_createLoop_hashes |]. intros st.
  apply only_bind; [apply only_setUserSession |]. intros _.
  apply only_ret.
Qed.

(* ===================================================================== *)
(** ** The last block of updateSubAccount *)
(* ===================================================================== *)

Lemma mapM_get_ok k l :
  forall w ids w',
    mapM (fun u => get u k) l w = (Ok ids, w') ->
    ids = map (fun u => field (spread u) k) l /\ w' = w.
Proof.
  induction l as [| u l IH]; intros w ids w'; simpl.
  - intros H. inversion H. now split.
  - intros H. run_ok H y w1 Hy. run_ok H r w2 Hr. inversion H; subst.
    unfold get in Hy. run_ok Hy o w3 Ho.
    apply destructure_run in Ho. destruct Ho as [-> Ho].
    destruct Ho as [[Habs _] | [Ho _]]; [discriminate |].
    inversion Ho; subst o. inversion Hy; subst.
    apply IH in Hr. destruct Hr as [-> ->]. now split.
Qed.

Lemma removingOf_run subUsers processed w removing :
  fst (removingOf subUsers processed w) = Ok removing ->
  removingOf subUsers processed w = (Ok removing, w).
Proof.
  destruct (removingOf subUsers processed w) as [r w1] eqn:Hr. simpl.
  intros ->. now rewrite (pure_removingOf _ _ _ _ _ Hr).
Qed.

(** X22.  The last block of [updateSubAccount] writes only when the group
    changes.  When no sub-user is left out and none was added, it calls
    nothing: it caches the session and answers.  Otherwise a run that
    answers has made, in this order, one removal that names the [_id] of
    every sub-user left out (when there is one; storage did not report
    fewer than one change) and then exactly one invalidation of the
    balances of the ledgers of the group. *)
Theorem updateFinish_writes_only_on_change
  (subAccountUser _id email token : JsVal) (subUsers : list JsVal)
  (st : UpdateState) w (removing : list JsVal) :
  let answer := JObj [("email", email); ("isSubAccount", JBool true);
                      ("token", token)] in
  let cache := setUserSession
                 (JObj (obj_set "subUsers" (JArr (processedSubUsers st))
                          (spread subAccountUser))) in
  fst (removingOf subUsers (processedSubUsers st) w) = Ok removing ->
  (removing = [] -> addedSubUsers st = [] ->
   updateFinish subAccountUser _id email token subUsers st w
   = (Ok answer, snd (cache w)))
  /\
  (forall r w',
     updateFinish subAccountUser _id email token subUsers st w = (Ok r, w') ->
     removing <> [] \/ addedSubUsers st <> [] ->
     r = answer /\
     exists removal ans,
       added w w' (removal ++ [(ledgerInvalidation _id, Ok ans)]) /\
       (removing = [] -> removal = []) /\
       (removing <> [] ->
        exists res, removal = [(removalOf removing, Ok res)] /\
                    no_changes res = false)).
Proof.
  intros answer cache Hrem. apply removingOf_run in Hrem. split.
  - intros -> Hadded. unfold updateFinish.
    erewrite bind_ok by exact Hrem. rewrite Hadded. reflexivity.
  - intros r w' H Hchange. unfold updateFinish in H.
    erewrite bind_ok in H by exact Hrem.
    destruct removing as [| u removing].
    + destruct Hchange as [Habs | Hadded]; [congruence |].
      simpl in H.
      destruct (addedSubUsers st) as [| a l]; [congruence |].
      simpl in H. run_ok H x0 w1 H0. inversion H0; subst x0 w1. clear H0.
      run_ok H x1 w2 Hledger. run_ok Hledger ans w3 Hcall.
      inversion Hledger; subst w3. clear Hledger.
      run_ok H x2 w4 Hset.
      inversion H; subst. split; [reflexivity |].
      apply setUserSession_run in Hset. destruct Hset as [Htr _].
      apply call_added in Hcall.
      exists [], ans. split; [| split; [reflexivity | congruence]].
      unfold added in *. simpl. now rewrite Htr.
    + change (0 <? length (u :: removing))%nat with true in H.
      cbv iota in H. rewrite orb_true_r in H.
      run_ok H x0 w1 Hremoval. run_ok Hremoval ids w2 Hids.
      apply mapM_get_ok in Hids. destruct Hids as [-> ->].
      run_ok Hremoval res w3 Hcall.
      destruct (no_changes res) eqn:Hnc; [discriminate |].
      inversion Hremoval; subst w3. clear Hremoval.
      run_ok H x1 w4 Hledger. run_ok Hledger ans w5 Hcall2.
      inversion Hledger; subst w5. clear Hledger.
      run_ok H x2 w6 Hset. inversion H; subst. clear H.
      split; [reflexivity |].
      apply setUserSession_run in Hset. destruct Hset as [Htr _].
      apply call_added in Hcall, Hcall2.
      exists [(removalOf (u :: removing), Ok res)], ans.
      split; [| split; [discriminate |]].
      * pose proof (added_trans Hcall Hcall2) as Ht.
        unfold added in *. now rewrite Htr.
      * intros _. exists res. now split.
Qed.

(* ===================================================================== *)
(** ** The close price of a position *)
(* ===================================================================== *)

Lemma isContained_has_status positions status :
  _isContainedPosStatus positions status = negb (has_status positions status).
Proof.
  unfold _isContainedPosStatus, has_status.
  induction positions as [| pos positions IH]; simpl; [reflexivity |].
  rewrite IH.
  destruct (truthy pos), (is_object pos), (strict_eq _ _); reflexivity.
Qed.

Lemma upper_of_cases c :
  (PassRegEx.lower c = true /\ PassRegEx.upper (upper_of c) = true)
  \/ upper_of c = c.
Proof.
  destruct c as [[] [] [] [] [] [] [] []]; vm_compute; auto.
Qed.

(** Under the flag [i] a character that is not a letter matches itself
    only. *)
Lemma same_letter_exact p c :
  PassRegEx.lower p = false -> PassRegEx.upper p = false ->
  same_letter p c = true -> c = p.
Proof.
  intros Hl Hu H. unfold same_letter in H. apply Ascii.eqb_eq in H.
  assert (Hp : upper_of p = p) by (unfold upper_of; now rewrite Hl).
  rewrite Hp in H.
  destruct (upper_of_cases c) as [[_ Hup] | Hc].
  - rewrite <- H in Hup. congruence.
  - congruence.
Qed.

Lemma starts_with_exact pat s rest :
  no_letters pat = true -> starts_with pat s = Some rest ->
  s = (pat ++ rest)%string.
Proof.
  revert s. induction pat as [| p pat IH]; intros s Hn H; simpl in *.
  - now inversion H.
  - destruct s as [| c s]; [discriminate |].
    apply andb_true_iff in Hn. destruct Hn as [Hp Hn].
    apply andb_true_iff in Hp. destruct Hp as [Hl Hu].
    apply negb_true_iff in Hl. apply negb_true_iff in Hu.
    destruct (same_letter p c) eqn:Hs; [| discriminate].
    apply same_letter_exact in Hs; try assumption. subst c.
    f_equal. now apply IH.
Qed.

Lemma starts_with_split pat s rest :
  starts_with pat s = Some rest ->
  exists word, s = (word ++ rest)%string /\ starts_with pat word = Some "".
Proof.
  revert s. induction pat as [| p pat IH]; intros s H; simpl in *.
  - inversion H; subst. exists "". now split.
  - destruct s as [| c s]; [discriminate |].
    destruct (same_letter p c) eqn:Hs; [| discriminate].
    destruct (IH _ H) as (word & -> & Hw).
    exists (String c word). split; [reflexivity |].
    simpl. now rewrite Hs.
Qed.

Lemma dots_then_split word s :
  dots_then word s = true ->
  exists between found after,
    s = (between ++ found ++ after)%string /\
    PassRegEx.all_chars (fun c => negb (PassRegEx.line_terminator c))
      between = true /\
    starts_with word found = Some "".
Proof.
  induction s as [| c s IH]; simpl.
  - destruct (starts_with word "") as [rest |] eqn:Hw; [| discriminate].
    intros _. apply starts_with_split in Hw.
    destruct Hw as (found & Hs & Hf).
    exists "", found, rest. now repeat split.
  - destruct (starts_with word (String c s)) as [rest |] eqn:Hw.
    + intros _. apply starts_with_split in Hw.
      destruct Hw as (found & Hs & Hf).
      exists "", found, rest. now repeat split.
    + intros H. apply andb_true_iff in H. destruct H as [Hc H].
      destruct (IH H) as (between & found & after & -> & Hb & Hf).
      exists (String c between), found, after. repeat split.
      * simpl. now rewrite Hc, Hb.
      * exact Hf.
Qed.

Lemma string_app_assoc (a b c : string) :
  ((a ++ b) ++ c = a ++ (b ++ c))%string.
Proof. induction a as [| x a IH]; simpl; [reflexivity | now rewrite IH]. Qed.

Lemma marker_test_sound marker s :
  no_letters marker = true -> marker_test marker s = true ->
  exists before between word after,
    s = (before ++ marker ++ between ++ word ++ after)%string /\
    PassRegEx.all_chars (fun c => negb (PassRegEx.line_terminator c))
      between = true /\
    starts_with "settlement" word = Some "".
Proof.
  intros Hn. induction s as [| c s IH]; simpl.
  - destruct (starts_with marker "") as [rest |] eqn:Hm.
    + rewrite orb_false_r. intros H.
      apply starts_with_exact in Hm; [| exact Hn].
      apply dots_then_split in H.
      destruct H as (between & word & after & -> & Hb & Hw).
      exists "", between, word, after. now repeat split.
    + discriminate.
  - destruct (starts_with marker (String c s)) as [rest |] eqn:Hm.
    + intros H. apply orb_true_iff in H. destruct H as [H | H].
      * apply starts_with_exact in Hm; [| exact Hn].
        apply dots_then_split in H.
        destruct H as (between & word & after & -> & Hb & Hw).
        exists "", between, word, after. now repeat split.
      * destruct (IH H) as (before & between & word & after & -> & Hb & Hw).
        exists (String c before), between, word, after. now repeat split.
    + simpl. intros H.
      destruct (IH H) as (before & between & word & after & -> & Hb & Hw).
      exists (String c before), between, word, after. now repeat split.
Qed.

Lemma no_letters_uint d : no_letters (NilEmpty.string_of_uint d) = true.
Proof. induction d; simpl; try reflexivity; exact IHd. Qed.

Lemma no_letters_marker id : no_letters (marker_of id) = true.
Proof.
  unfold marker_of. destruct id as [| p | p]; simpl;
    try reflexivity; apply no_letters_uint.
Qed.

Section Pricing.

Variable findInCollBy : JsVal -> JsVal -> M JsVal.
Variable getPositionsAudit : JsVal -> JsVal -> M JsVal.
Variables auth symbol end_ : JsVal.
Variable id : Z.
Variables (w w1 w2 : World) (trades audit : JsVal).

Hypothesis trades_found :
  findInCollBy (JStr "_getTrades") (tradesQuery auth symbol end_) w
  = (Ok trades, w1).
Hypothesis audit_found :
  getPositionsAudit JNull (auditQuery auth id) w1 = (Ok audit, w2).
Hypothesis audit_defined : audit <> JUndefined /\ audit <> JNull.

Lemma closePriceOf_start :
  closePriceOf findInCollBy getPositionsAudit auth symbol end_ id w =
  (let positionsAudit := field (spread audit) "res" in
   if nothingToPrice trades positionsAudit
   then ret (priced JNull JNull)
   else if closedByTrade trades
   then
     activePosition <- activePositionOf positionsAudit ;;
     sumAmount <- get activePosition "amount" ;;
     ret (priced (field (spread (nth 0 (items trades) JUndefined))
                    "execPrice") sumAmount)
   else
     _ledgers <- findInCollBy (JStr "_getLedgers")
                   (ledgersQuery auth end_) ;;
     ret (priced
            (let closedPosition :=
               match find (settles id) (items _ledgers) with
               | Some ledger => ledger
               | None => JUndefined
               end in
             let description := field (spread closedPosition) "description" in
             if truthy closedPosition && is_object closedPosition
                && truthy description && is_string description
             then description
             else JNull)
            JNull)) w2.
Proof.
  unfold closePriceOf.
  erewrite bind_ok by exact trades_found.
  erewrite bind_ok by exact audit_found.
  assert (Hres : get audit "res" w2 = (Ok (field (spread audit) "res"), w2)).
  { destruct audit_defined as [Hu Hn].
    destruct audit; try reflexivity; congruence. }
  erewrite bind_ok by exact Hres. reflexivity.
Qed.

Lemma activePositionOf_run positions w0 :
  Forall (fun pos => pos <> JUndefined /\ pos <> JNull) positions ->
  activePositionOf (JArr positions) w0
  = (Ok (match firstActive positions with
         | Some pos => pos
         | None => JUndefined
         end), w0).
Proof.
  unfold activePositionOf, firstActive. simpl items.
  induction 1 as [| pos positions [Hu Hn] _ IH]; simpl; [reflexivity |].
  assert (Hget : get pos "status" w0
                 = (Ok (field (spread pos) "status"), w0)).
  { destruct pos; try reflexivity; congruence. }
  erewrite bind_ok by (erewrite bind_ok by exact Hget; reflexivity).
  destruct (strict_eq _ _); [reflexivity | exact IH].
Qed.

Lemma has_status_firstActive positions :
  has_status positions "ACTIVE" = true ->
  exists pos, firstActive positions = Some pos /\ In pos positions.
Proof.
  unfold has_status, firstActive.
  induction positions as [| p positions IH]; simpl; [discriminate |].
  destruct (strict_eq (field (spread p) "status") (JStr "ACTIVE")) eqn:Hs.
  - intros _. exists p. split; [reflexivity | now left].
  - rewrite andb_false_r. simpl. intros H.
    destruct (IH H) as (pos & Hf & Hin). exists pos.
    split; [exact Hf | now right].
Qed.

End Pricing.

(** X23.  No price without both positions.  Once the trades and the
    audit of the position are read, the function answers
    [{ closePrice: null, sumAmount: null }] and reads no ledger whenever
    the trades are not a non-empty array, or the audit is not an array of
    at least two positions of which one is an object with status
    [CLOSED] and one an object with status [ACTIVE]. *)
Theorem closePriceOf_needs_both_positions
  (findInCollBy getPositionsAudit : JsVal -> JsVal -> M JsVal)
  (auth symbol end_ : JsVal) (id : Z) w trades w1 audit w2 :
  let positionsAudit := field (spread audit) "res" in
  findInCollBy (JStr "_getTrades") (tradesQuery auth symbol end_) w
  = (Ok trades, w1) ->
  getPositionsAudit JNull (auditQuery auth id) w1 = (Ok audit, w2) ->
  audit <> JUndefined /\ audit <> JNull ->
  isArray trades = false \/ items trades = []
  \/ isArray positionsAudit = false
  \/ length (items positionsAudit) < 2
  \/ has_status (items positionsAudit) "CLOSED" = false
  \/ has_status (items positionsAudit) "ACTIVE" = false ->
  closePriceOf findInCollBy getPositionsAudit auth symbol end_ id w
  = (Ok (priced JNull JNull), w2).
Proof.
  intros positionsAudit Ht Ha Hd Hbad.
  rewrite (closePriceOf_start _ _ _ _ _ _ _ _ _ _ _ Ht Ha Hd). cbv zeta.
  fold positionsAudit.
  assert (Hn : nothingToPrice trades positionsAudit = true).
  { unfold nothingToPrice. rewrite !isContained_has_status.
    destruct Hbad as [-> | [-> | [-> | [H | [-> | ->]]]]]; simpl;
      rewrite ?orb_true_r; try reflexivity.
    apply Nat.ltb_lt in H. rewrite H. now rewrite ?orb_true_r. }
  now rewrite Hn.
Qed.

(** X24.  Closed by a trade.  When the first test passes and the two
    last trades are objects of different orders (the [orderID] of the
    first being truthy), no ledger is read: the close price is the
    [execPrice] of the first trade and the amount is the [amount] of the
    first position of the audit whose status is [ACTIVE], provided no
    position of the audit is [undefined] or [null].  An audit that begins
    with [null] or [undefined] makes the call throw a [TypeError]
    instead, although it passed the first test. *)
Theorem closePriceOf_by_trade
  (findInCollBy getPositionsAudit : JsVal -> JsVal -> M JsVal)
  (auth symbol end_ : JsVal) (id : Z) w trades w1 audit w2 :
  let positionsAudit := field (spread audit) "res" in
  findInCollBy (JStr "_getTrades") (tradesQuery auth symbol end_) w
  = (Ok trades, w1) ->
  getPositionsAudit JNull (auditQuery auth id) w1 = (Ok audit, w2) ->
  audit <> JUndefined /\ audit <> JNull ->
  nothingToPrice trades positionsAudit = false ->
  closedByTrade trades = true ->
  (Forall (fun pos => pos <> JUndefined /\ pos <> JNull)
          (items positionsAudit) ->
   exists activePosition,
     firstActive (items positionsAudit) = Some activePosition /\
     closePriceOf findInCollBy getPositionsAudit auth symbol end_ id w
     = (Ok (priced (field (spread (nth 0 (items trades) JUndefined))
                      "execPrice")
                   (field (spread activePosition) "amount")), w2))
  /\
  (forall pos rest,
     items positionsAudit = pos :: rest ->
     pos = JUndefined \/ pos = JNull ->
     closePriceOf findInCollBy getPositionsAudit auth symbol end_ id w
     = (Err TypeError, w2)).
Proof.
  intros positionsAudit Ht Ha Hd Hn Hc.
  rewrite (closePriceOf_start _ _ _ _ _ _ _ _ _ _ _ Ht Ha Hd). cbv zeta.
  fold positionsAudit. rewrite Hn, Hc.
  assert (Harr : positionsAudit = JArr (items positionsAudit)).
  { unfold nothingToPrice in Hn.
    destruct positionsAudit; simpl in Hn;
      rewrite ?orb_true_r in Hn; try discriminate. reflexivity. }
  split.
  - intros Hall.
    assert (Hact : has_status (items positionsAudit) "ACTIVE" = true).
    { unfold nothingToPrice in Hn. rewrite !isContained_has_status in Hn.
      apply orb_false_iff in Hn. destruct Hn as [_ Hn].
      now apply negb_false_iff in Hn. }
    destruct (has_status_firstActive _ Hact) as (pos & Hf & Hin).
    exists pos. split; [exact Hf |].
    rewrite Harr at 1.
    erewrite bind_ok by (now apply activePositionOf_run).
    rewrite Hf.
    assert (Hpos : pos <> JUndefined /\ pos <> JNull).
    { rewrite Forall_forall in Hall. now apply Hall. }
    assert (Hget : get pos "amount" w2
                   = (Ok (field (spread pos) "amount"), w2)).
    { destruct Hpos as [Hu Hnl].
      destruct pos; try reflexivity; congruence. }
    erewrite bind_ok by exact Hget. reflexivity.
  - intros pos rest Hitems Hpos.
    rewrite Harr at 1. rewrite Hitems.
    unfold activePositionOf. simpl items. simpl findM.
    destruct Hpos as [-> | ->]; reflexivity.
Qed.

(** X25.  Closed by a settlement.  When the first test passes and the
    trades do not tell, the ledgers are read and the amount is [null].
    The close price is [null] too, unless it is the [description] of a
    ledger read, as it stands: a text that holds [#] and the identifier
    of the position and, further on the same line, the word
    [settlement] in any letter case.  No number is read out of that
    text.  The identifier is a safe integer, which the template writes
    in plain digits. *)
Theorem closePriceOf_by_settlement
  (findInCollBy getPositionsAudit : JsVal -> JsVal -> M JsVal)
  (auth symbol end_ : JsVal) (id : Z) w trades w1 audit w2 _ledgers w3 :
  let positionsAudit := field (spread audit) "res" in
  (Z.abs id < 2 ^ 53)%Z ->
  findInCollBy (JStr "_getTrades") (tradesQuery auth symbol end_) w
  = (Ok trades, w1) ->
  getPositionsAudit JNull (auditQuery auth id) w1 = (Ok audit, w2) ->
  audit <> JUndefined /\ audit <> JNull ->
  nothingToPrice trades positionsAudit = false ->
  closedByTrade trades = false ->
  findInCollBy (JStr "_getLedgers") (ledgersQuery auth end_) w2
  = (Ok _ledgers, w3) ->
  exists closePrice,
    closePriceOf findInCollBy getPositionsAudit auth symbol end_ id w
    = (Ok (priced closePrice JNull), w3) /\
    (closePrice = JNull \/
     exists ledger text,
       In ledger (items _ledgers) /\
       field (spread ledger) "description" = JStr text /\
       closePrice = JStr text /\
       mentions_settlement id text).
Proof.
  intros positionsAudit _ Ht Ha Hd Hn Hc Hl.
  rewrite (closePriceOf_start _ _ _ _ _ _ _ _ _ _ _ Ht Ha Hd). cbv zeta.
  fold positionsAudit. rewrite Hn, Hc.
  erewrite bind_ok by exact Hl.
  eexists. split; [reflexivity |].
  destruct (find (settles id) (items _ledgers)) as [ledger |] eqn:Hf;
    [| now left].
  apply find_some in Hf. destruct Hf as [Hin Hs].
  destruct (truthy ledger && is_object ledger
            && truthy (field (spread ledger) "description")
            && is_string (field (spread ledger) "description")) eqn:Hd';
    [| now left].
  right. apply andb_true_iff in Hd'. destruct Hd' as [_ Hstr].
  destruct (field (spread ledger) "description") as [| | | | | text | |] eqn:Hdesc;
    try discriminate.
  exists ledger, text. repeat split; try assumption.
  unfold settles in Hs. rewrite Hdesc in Hs.
  apply andb_true_iff in Hs. destruct Hs as [_ Hs]. simpl in Hs.
  unfold mentions_settlement.
  apply marker_test_sound; [apply no_letters_marker | exact Hs].
Qed.

(* ===================================================================== *)
(** ** The test on the last entry of [createSubAccount] *)
(* ===================================================================== *)

(** The flag stays down: the sub-user pushed is the answer of [signUp],
    which has no keys, so it never compares equal to a master that has an
    [apiKey]. *)
Lemma createStep_flag_down o pw _id total st entry w st' w' :
  field o "apiKey" <> JUndefined ->
  isSubUserFromMasterCreated st = false ->
  createStep (JObj o) pw _id total st entry w = (Ok st', w') ->
  isSubUserFromMasterCreated st' = false.
Proof.
  intros Hk Hflag H. unfold createStep in H.
  run_ok H ra w1 Hra. run_ok H guard w2 Hg.
  destruct guard; [discriminate |].
  run_ok H dup w3 Hdup. destruct dup.
  - inversion H; subst. exact Hflag.
  - run_ok H subUser w4 Hsu. run_ok H u w5 Hlink.
    run_ok H fromMaster w6 Hfm. inversion H; subst. simpl.
    unfold signUpSubUser in Hsu. run_ok Hsu mid w7 Hmid.
    apply signUp_ok_shape in Hsu.
    rewrite (same_creds_shape o subUser w5 Hk Hsu) in Hfm.
    inversion Hfm; subst. exact Hflag.
Qed.

(** With the flag down a turn does not look at the length of the list:
    it is the turn of a list in which no entry is the last. *)
Lemma createStep_not_last masterUser pw _id total st entry w :
  isSubUserFromMasterCreated st = false ->
  createStep masterUser pw _id total st entry w
  = createStep masterUser pw _id 0 st entry w.
Proof.
  intros Hflag. unfold createStep. rewrite Hflag, !andb_false_r.
  reflexivity.
Qed.

Lemma createLoop_guard_dead o pw _id total entries :
  field o "apiKey" <> JUndefined ->
  forall st w,
    isSubUserFromMasterCreated st = false ->
    createLoop (JObj o) pw _id total entries st w
    = createLoop (JObj o) pw _id 0 entries st w
    /\
    forall st' w',
      createLoop (JObj o) pw _id total entries st w = (Ok st', w') ->
      isSubUserFromMasterCreated st' = false.
Proof.
  intros Hk. induction entries as [| entry entries IH]; intros st w Hflag.
  - simpl. split; [reflexivity |].
    intros st' w' H. inversion H; subst. exact Hflag.
  - simpl. unfold bind.
    rewrite (createStep_not_last (JObj o) pw _id total st entry w Hflag).
    destruct (createStep (JObj o) pw _id 0 st entry w) as [[st1 | e] w1]
      eqn:Hstep.
    + apply IH. exact (createStep_flag_down _ _ _ _ _ _ _ _ _ Hk Hflag Hstep).
    + split; [reflexivity | discriminate].
Qed.

End Program.

(* ===================================================================== *)
(** ** Concrete runs *)
(* ===================================================================== *)

Lemma run_with {A W} (x : Res A * W) (r : Res A) :
  fst x = r -> x = (r, snd x).
Proof. destruct x. simpl. now intros ->. Qed.

(** A call with an email but no password and an empty jwt is rejected
    untouched; with an email and a password the first branch runs; with a
    token alone the second. *)
Lemma verifyUser_one_path_or_reject_witness :
  verifyUser demo_env auth_email_only decrypting (start answers_password)
  = (Err AuthError, start answers_password)
  /\ verifyUser demo_env auth_password decrypting
     = verifyByPassword demo_env (JStr "master@x.io") (JStr "Passw0rd1")
         JUndefined JUndefined JUndefined (JBool true) JUndefined
  /\ verifyUser demo_env auth_token decrypting
     = verifyByToken demo_env (JStr "jwt-1")
         JUndefined JUndefined (JBool true) JUndefined.
Proof.
  split; [| split].
  - apply (verifyUser_one_path_or_reject demo_env auth_email_only decrypting);
      reflexivity.
  - apply (verifyUser_one_path_or_reject demo_env auth_password decrypting).
    reflexivity.
  - apply (verifyUser_one_path_or_reject demo_env auth_token decrypting);
      reflexivity.
Defined.

(** With an email, a password and a jwt, the run is the one of the email
    and password alone: the row is read by the email, its two keys are
    decrypted under the password, and the password is checked against the
    hash of the row. *)
Lemma verifyUser_password_takes_precedence_witness :
  steady demo_env password_call (verifyUser demo_env auth_both decrypting)
  /\ (exists row keys ok,
        added demo_env (start answers_password)
          (snd (verifyUser demo_env auth_both decrypting
                  (start answers_password)))
          ((DaoGetUser (JObj [("email", JStr "master@x.io")])
              (passwordLookupParams auth_both decrypting), Ok row)
           :: keys
           ++ [(CryptoVerifyPassword (JStr "Passw0rd1")
                  (field (spread row) "passwordHash"), Ok ok)])
        /\ all_calls (decrypt_under (JStr "Passw0rd1")) keys = true)
  /\ verifyUser demo_env auth_password decrypting
     = verifyUser demo_env auth_both decrypting.
Proof.
  destruct (verifyUser_password_takes_precedence demo_env auth_both decrypting
              eq_refl eq_refl) as (Hsteady & Hrun & Hsame).
  split; [exact Hsteady | split].
  - assert (Hok : exists user,
              fst (verifyUser demo_env auth_both decrypting
                     (start answers_password)) = Ok user).
    { vm_compute. eexists. reflexivity. }
    destruct Hok as (user & Hok).
    exact (Hrun _ _ _ (run_with _ _ Hok)).
  - apply Hsame; reflexivity.
Defined.

Lemma generateAuthJWT_three_way_witness :
  generateAuthJWT demo_env
    (JObj [("_id", JNum 1); ("email", JStr "a@x.io");
           ("encryptedPassword", JStr "enc-password")])
  = call demo_env
      (CryptoGenerateJWT
         (JObj [("_id", JNum 1); ("email", JStr "a@x.io");
                ("encryptedPassword", JStr "enc-password")]))
  /\ generateAuthJWT demo_env payload_plain
     = bind demo_env
         (call demo_env (CryptoEncrypt (JStr "Passw0rd1") (secretKey demo_env)))
         (fun c =>
            call demo_env
              (CryptoGenerateJWT
                 (JObj [("_id", JNum 1); ("email", JStr "a@x.io");
                        ("encryptedPassword", c)])))
  /\ generateAuthJWT demo_env
       (JObj [("_id", JNum 1); ("email", JStr "a@x.io")])
       (start [Ok (JStr "jwt-2")])
     = (Err AuthError, start [Ok (JStr "jwt-2")])
  /\ (exists evs c,
        added demo_env (start [Ok (JStr "enc-password"); Ok (JStr "jwt-2")])
          (snd (generateAuthJWT demo_env payload_plain
                  (start [Ok (JStr "enc-password"); Ok (JStr "jwt-2")])))
          (evs ++
           [(CryptoGenerateJWT
               (JObj [("_id", JNum 1); ("email", JStr "a@x.io");
                      ("encryptedPassword", c)]), Ok (JStr "jwt-2"))])
        /\ count_calls is_sign
             (evs ++
              [(CryptoGenerateJWT
                  (JObj [("_id", JNum 1); ("email", JStr "a@x.io");
                         ("encryptedPassword", c)]), Ok (JStr "jwt-2"))])
           = 1)
  /\ generateAuthJWT demo_env
       (JObj [("_id", JNum 1); ("jwt", JStr "jwt-1")])
       (start [Ok (JStr "jwt-2")])
     = (Ok (JStr "jwt-1"), start [Ok (JStr "jwt-2")])
  /\ generateAuthJWT demo_env (JObj [("_id", JNum 1)])
       (start [Ok (JStr "jwt-2")])
     = (Err AuthError, start [Ok (JStr "jwt-2")]).
Proof.
  split; [| split; [| split; [| split; [| split]]]].
  - destruct (generateAuthJWT_three_way demo_env
                (JObj [("_id", JNum 1); ("email", JStr "a@x.io");
                       ("encryptedPassword", JStr "enc-password")]))
      as [Hemail _].
    destruct (Hemail eq_refl) as (Hsign & _). exact (Hsign eq_refl).
  - destruct (generateAuthJWT_three_way demo_env payload_plain)
      as [Hemail _].
    destruct (Hemail eq_refl) as (_ & Hplain & _).
    exact (Hplain eq_refl eq_refl).
  - destruct (generateAuthJWT_three_way demo_env
                (JObj [("_id", JNum 1); ("email", JStr "a@x.io")]))
      as [Hemail _].
    destruct (Hemail eq_refl) as (_ & _ & Hnone & _).
    exact (Hnone eq_refl eq_refl _).
  - destruct (generateAuthJWT_three_way demo_env payload_plain)
      as [Hemail _].
    destruct (Hemail eq_refl) as (_ & _ & _ & Hone).
    eapply Hone. apply run_with. vm_compute. reflexivity.
  - destruct (generateAuthJWT_three_way demo_env
                (JObj [("_id", JNum 1); ("jwt", JStr "jwt-1")]))
      as [_ Hnoemail].
    destruct (Hnoemail eq_refl) as (Hpass & _). exact (Hpass eq_refl _).
  - destruct (generateAuthJWT_three_way demo_env (JObj [("_id", JNum 1)]))
      as [_ Hnoemail].
    destruct (Hnoemail eq_refl) as (_ & Hrej). exact (Hrej eq_refl _).
Defined.

(** Against C9 as stated: a password of nine characters with a lowercase
    letter, an uppercase letter and a digit is refused, for its exclamation
    mark, with [AuthError] and before any call; the same request with a
    password of letters and digits passes the first test of [signUp]. *)
Lemma signUp_rejects_password_with_symbol :
  8 <= String.length "Passw0rd!"
  /\ PassRegEx.some_char PassRegEx.lower "Passw0rd!" = true
  /\ PassRegEx.some_char PassRegEx.upper "Passw0rd!" = true
  /\ PassRegEx.some_char PassRegEx.digit "Passw0rd!" = true
  /\ isSecurePassword (JStr "Passw0rd!") = false
  /\ signUp demo_env (signup_request "Passw0rd!") JUndefined
       (start (answers_signUp upstream_a 2 "jwt-2"))
     = (Err AuthError, start (answers_signUp upstream_a 2 "jwt-2"))
  /\ signUpRefused demo_env (signup_request "Passw0rd1") = false.
Proof. vm_compute. repeat split; (reflexivity || lia). Qed.

Lemma signUp_password_policy_witness :
  isSecurePassword (JStr "Passw0rd1") = true
  /\ signUp demo_env (signup_request "short1A") JUndefined
       (start (answers_signUp upstream_a 2 "jwt-2"))
     = (Err AuthError, start (answers_signUp upstream_a 2 "jwt-2"))
  /\ exists r evs,
       added demo_env (start (answers_signUp upstream_a 2 "jwt-2"))
         (snd (signUp demo_env (signup_request "Passw0rd1") JUndefined
                 (start (answers_signUp upstream_a 2 "jwt-2"))))
         ((RCheckAuthInApi (signup_request "Passw0rd1"), r) :: evs).
Proof.
  destruct (signUp_password_policy demo_env) as (Hiff & Hweak & Hgo).
  split; [| split].
  - apply Hiff. vm_compute. repeat split; (reflexivity || lia).
  - apply Hweak. reflexivity.
  - apply Hgo; reflexivity.
Defined.

Lemma createUser_rereads_integer_id_witness :
  (has_integer_id (new_row 2) = true
   /\ exists ins,
        added demo_env (start [Ok JUndefined; Ok (new_row 2)])
          (snd (createUser demo_env user_data
                  (start [Ok JUndefined; Ok (new_row 2)])))
          [(insertUser user_data, Ok ins);
           (rereadUser user_data, Ok (new_row 2))])
  /\ fst (createUser demo_env user_data
            (start [Ok JUndefined; Ok (JObj [("_id", JStr "2")])]))
     = Err AuthError
  /\ exists data ins user before after,
       added demo_env (start (answers_signUp upstream_a 2 "jwt-2"))
         (snd (signUp demo_env (signup_request "Passw0rd1") JUndefined
                 (start (answers_signUp upstream_a 2 "jwt-2"))))
         (before ++ [(insertUser data, Ok ins); (rereadUser data, Ok user)]
                 ++ after)
       /\ has_integer_id user = true.
Proof.
  destruct (createUser_rereads_integer_id demo_env) as (Hok & Hbad & Hsign).
  split; [| split].
  - eapply Hok. apply run_with. vm_compute. reflexivity.
  - erewrite Hbad; [reflexivity | | | ].
    + apply run_with. vm_compute. reflexivity.
    + apply run_with. vm_compute. reflexivity.
    + reflexivity.
  - eapply Hsign. apply run_with. vm_compute. reflexivity.
Defined.

Lemma zero_changes_is_an_error_witness :
  fst (signIn demo_env auth_password JUndefined
         (start (answers_password ++ [Ok upstream_master; Ok (changes 0)])))
  = Err AuthError
  /\ fst (signOut demo_env auth_password JUndefined
            (start [Ok master_row; Ok (JBool true); Ok (changes 0)]))
     = Err AuthError
  /\ fst (updateFinish demo_env aggregate (JNum 9) (JStr "master@x.io")
            JUndefined
            [sub_user 1 "master-key" "master-secret";
             sub_user 2 "key-b" "secret-b"]
            {| processedSubUsers := [sub_user 1 "master-key" "master-secret"];
               addedSubUsers := [] |}
            (start [Ok (changes 0)]))
     = Err UserRemovingError.
Proof.
  destruct (zero_changes_is_an_error demo_env) as (Hin & Hout & Hrem).
  split; [| split].
  - eapply Hin with (res := changes 0).
    + apply surjective_pairing.
    + vm_compute. reflexivity.
    + vm_compute. do 5 right. left. reflexivity.
    + exists [("changes", JNum 0)]. split; reflexivity.
  - eapply Hout with (res := changes 0).
    + apply surjective_pairing.
    + vm_compute. reflexivity.
    + vm_compute. do 2 right. left. reflexivity.
    + exists [("changes", JNum 0)]. split; reflexivity.
  - eapply Hrem with (res := changes 0).
    + apply surjective_pairing.
    + vm_compute. reflexivity.
    + vm_compute. left. reflexivity.
    + exists [("changes", JNum 0)]. split; reflexivity.
Defined.

(** Against C8 as stated: a successful sign-in by token for which upstream
    answers the stored email.  The token handed in comes back, and no
    token was signed. *)
Lemma signIn_by_token_returns_the_same_token :
  let run := signIn demo_env auth_token JUndefined
               (start (answers_token ++ [Ok upstream_master; Ok (changes 1)])) in
  fst run = Ok (JObj [("email", JStr "master@x.io");
                      ("isSubAccount", JBool false);
                      ("jwt", JStr "jwt-1")])
  /\ authField auth_token "jwt" = JStr "jwt-1"
  /\ count_calls is_sign (trace (snd run)) = 0.
Proof. vm_compute. repeat split; reflexivity. Qed.

Lemma signIn_refreshes_identity_witness :
  let w := start answers_signIn in
  let run := signIn demo_env auth_password JUndefined w in
  fst run = Ok (JObj [("email", JStr "master@x.io");
                      ("isSubAccount", JBool false);
                      ("jwt", JStr "jwt-2")])
  /\
  exists user w1 fromApi updRes resJWT before after,
    verifyUser demo_env (signInAuth auth_password) signInParams w
    = (Ok user, w1)
    /\ added demo_env w (snd run)
         (before ++
          [(signInCheck user, Ok fromApi);
           (signInUpdate demo_env JUndefined user fromApi, Ok updRes)]
          ++ after)
    /\ JObj [("email", JStr "master@x.io"); ("isSubAccount", JBool false);
             ("jwt", JStr "jwt-2")]
       = JObj [("email", field (spread fromApi) "email");
               ("isSubAccount", field (spread user) "isSubAccount");
               ("jwt", resJWT)]
    /\ map_get (field (spread user) "_id") (sessions (snd run))
       = Some (sessionEntry (field (spread user) "_id")
                 (field (spread fromApi) "email") resJWT)
    /\ (if valid_str (freshEmail (authField auth_password "email")
                        (field (spread fromApi) "email")
                        (field (spread user) "email"))
        then exists c,
               after =
               [(CryptoEncrypt (field (spread user) "password")
                   (secretKey demo_env), Ok c);
                (CryptoGenerateJWT
                   (JObj [("_id", field (spread user) "_id");
                          ("email", field (spread fromApi) "email");
                          ("encryptedPassword", c)]), Ok resJWT)]
        else after = [] /\ resJWT = authField auth_password "jwt"
             /\ valid_str resJWT = true).
Proof.
  intros w run.
  assert (Hrun : fst run = Ok (JObj [("email", JStr "master@x.io");
                                     ("isSubAccount", JBool false);
                                     ("jwt", JStr "jwt-2")])).
  { vm_compute. reflexivity. }
  split; [exact Hrun |].
  exact (signIn_refreshes_identity demo_env auth_password JUndefined w
           _ _ (run_with run _ Hrun)).
Defined.

(** C2.  [createSubAccount] does not refuse the group that holds the
    master alone.  Without a list of desired sub-users (not an array, or
    an empty one) the call is rejected with [SubAccountCreatingError]
    once the master is verified, before any write to storage; that half
    of the claim holds.  The test made at the last entry of the loop
    never fires: it waits for a flag
    that is set when a registered sub-user has the keys of the master,
    and what is registered is the answer of [signUp], which has no keys.
    For a master that has an [apiKey], every state the loop reaches has
    the flag down, and every run of the loop is the run of a list in
    which no entry is the last.  On the desired list made of the pair of
    the master alone, a storage that lets the sign-ups through commits
    the group: the keys of the master are checked upstream and signed up
    twice, two links are written, nothing is rolled back.  A storage that
    finds the row just inserted rejects the call with [AuthError], thrown
    by the second sign-up, and so do helpers that know the keys of a
    sub-account, at the sign-up of the aggregate: never with
    [SubAccountCreatingError]. *)
Theorem createSubAccount_accepts_master_alone :
  (forall (env : Env) args w,
     isArray (requestParam args "subAccountApiKeys") = false
     \/ items (requestParam args "subAccountApiKeys") = [] ->
     (forall masterUser w1,
        verifyUser env (masterAuth args) masterParams w = (Ok masterUser, w1) ->
        createSubAccount env args w = (Err SubAccountCreatingError, w1))
     /\
     (forall r w',
        createSubAccount env args w = (r, w') ->
        (exists e, r = Err e) /\
        exists evs, added env w w' evs /\ all_calls not_write evs = true))
  /\
  (forall (env : Env) o pw _id total entries w,
     field o "apiKey" <> JUndefined ->
     createLoop env (JObj o) pw _id total entries createInit w
     = createLoop env (JObj o) pw _id 0 entries createInit w
     /\
     forall st w',
       createLoop env (JObj o) pw _id total entries createInit w
       = (Ok st, w') ->
       isSubUserFromMasterCreated st = false)
  /\
  (let request := create_request (JArr [keys_master]) in
   let alone :=
     createSubAccount lenient_env request (start answers_master_alone) in
   let found :=
     createSubAccount lenient_env request (start answers_master_found) in
   let strict :=
     createSubAccount demo_env request (start answers_master_alone) in
   (fst alone = Ok (JObj [("email", JStr "master@x.io");
                          ("isSubAccount", JBool true);
                          ("token", JUndefined)])
    /\ count_calls (is_check_of "master-key") (trace (snd alone)) = 2
    /\ count_calls is_link (trace (snd alone)) = 2
    /\ count_calls is_commit (trace (snd alone)) = 1
    /\ count_calls is_rollback (trace (snd alone)) = 0)
   /\
   (fst found = Err AuthError
    /\ count_calls (is_check_of "master-key") (trace (snd found)) = 2
    /\ count_calls is_rollback (trace (snd found)) = 1)
   /\
   (fst strict = Err AuthError
    /\ count_calls is_link (trace (snd strict)) = 0)).
Proof.
  split; [| split].
  - intros env args w Hbad.
    exact (createSubAccount_no_list env args w Hbad).
  - intros env o pw _id total entries w Hk.
    now apply createLoop_guard_dead.
  - vm_compute. repeat split; reflexivity.
Qed.

(** The empty list refused, and the loop over the pair of the master and
    the master itself: two sub-users registered and the flag down. *)
Lemma createSubAccount_accepts_master_alone_witness :
  createSubAccount demo_env (create_request (JArr [])) (start answers_password)
  = (Err SubAccountCreatingError,
     snd (verifyUser demo_env (masterAuth (create_request (JArr [])))
            masterParams (start answers_password)))
  /\
  exists st w',
    createLoop demo_env verified_master (JStr "Passw0rd1") (JNum 10) 2
      [keys_master; verified_master] createInit (start answers_master_loop)
    = (Ok st, w')
    /\ length (subUsers st) = 2
    /\ isSubUserFromMasterCreated st = false.
Proof.
  destruct createSubAccount_accepts_master_alone as (Hlist & Hdead & _).
  split.
  - eapply (proj1 (Hlist demo_env (create_request (JArr []))
                     (start answers_password) (or_intror eq_refl))).
    apply run_with. vm_compute. reflexivity.
  - set (run := createLoop demo_env verified_master (JStr "Passw0rd1")
                  (JNum 10) 2 [keys_master; verified_master] createInit
                  (start answers_master_loop)).
    assert (Hst : exists st, fst run = Ok st /\ length (subUsers st) = 2).
    { vm_compute. eexists. split; reflexivity. }
    destruct Hst as (st & Hst & Hlen). exists st, (snd run).
    split; [now apply run_with |]. split; [exact Hlen |].
    assert (Hk : field (spread verified_master) "apiKey" <> JUndefined)
      by discriminate.
    exact (proj2 (Hdead demo_env (spread verified_master) (JStr "Passw0rd1")
                    (JNum 10) 2 [keys_master; verified_master]
                    (start answers_master_loop) Hk)
             st (snd run) (run_with run _ Hst)).
Defined.

(** C4.  On the desired list [[a; a]] the second pair is not skipped: the
    answer of [signUp] registered for the first carries no keys to compare
    with, so [signUp] runs again.  On a storage that lets it through, the
    call succeeds with the keys of [a] checked upstream twice, two rows
    inserted for them and three links (twice [a], once the master); on a
    storage that finds the row just inserted for [a], the second sign-up
    is refused and the whole call rejected with [AuthError]; and with the
    helpers that know the keys of a sub-account the call is rejected with
    [AuthError] by the sign-up of the aggregate, before any sub-user.  In
    no case is the pair registered once and its repetition skipped. *)
Theorem createSubAccount_registers_equal_keys_twice :
  let request := create_request (JArr [keys_a; keys_a]) in
  let twice :=
    createSubAccount lenient_env request (start answers_create_twice) in
  let found :=
    createSubAccount lenient_env request (start answers_create_found) in
  let strict :=
    createSubAccount demo_env request (start answers_create_twice) in
  (fst twice = Ok (JObj [("email", JStr "master@x.io");
                         ("isSubAccount", JBool true);
                         ("token", JUndefined)])
   /\ count_calls (is_check_of "key-a") (trace (snd twice)) = 2
   /\ count_calls is_link (trace (snd twice)) = 3)
  /\
  (fst found = Err AuthError
   /\ count_calls (is_check_of "key-a") (trace (snd found)) = 2)
  /\
  (fst strict = Err AuthError
   /\ count_calls is_link (trace (snd strict)) = 0).
Proof. vm_compute. repeat split; reflexivity. Qed.

(** The call of [updateSubAccount] that should drop the sub-users stored
    and add the pair [c]: [signIn] succeeds and the validation that
    follows throws; nothing is removed and nobody is signed up. *)
Lemma updateSubAccount_rejected_after_signIn :
  let run := updateSubAccount demo_env update_request
               (start (Ok JUndefined :: answers_signIn ++ [Ok JUndefined])) in
  fst run = Err SubAccountUpdatingError
  /\ count_calls is_remove (trace (snd run)) = 0
  /\ count_calls is_link (trace (snd run)) = 0.
Proof. vm_compute. repeat split; reflexivity. Qed.

(** What the reconciliation does when it is given an aggregate with its
    sub-users: for the desired list [[c]] on the group of the master and
    [b], one sub-user is signed up and linked, the row of [b] is removed,
    and the ledgers are invalidated once. *)
Lemma reconcile_drops_one_adds_one :
  let run := reconcile demo_env full_aggregate (JArr [keys_c])
               (start answers_reconcile) in
  fst run = Ok (JObj [("email", JStr "master@x.io");
                      ("isSubAccount", JBool true);
                      ("token", JUndefined)])
  /\ filter (fun ev => is_remove (fst ev)) (trace (snd run))
     = [(DaoRemoveElemsFromDb USERS JNull
           (JObj [("$in", JObj [("_id", JArr [JNum 2])])]), Ok (changes 1))]
  /\ count_calls (is_check_of "key-c") (trace (snd run)) = 1
  /\ count_calls is_link (trace (snd run)) = 1
  /\ count_calls is_ledger_update (trace (snd run)) = 1.
Proof. vm_compute. repeat split; reflexivity. Qed.

(* ===================================================================== *)
(** ** Concrete runs of the other methods *)
(* ===================================================================== *)

(** A session cached and read back, then replaced by a later one. *)
Lemma setUserSession_then_getUserSessionById_witness :
  bind demo_env (setUserSession demo_env session_data)
    (fun _ => getUserSessionById demo_env (JNum 1) JUndefined) (start [])
  = (Ok (sessionEntry (JNum 1) (JStr "master@x.io") (JStr "jwt-1")),
     snd (setUserSession demo_env session_data (start [])))
  /\
  (let w2 := snd (bind demo_env (setUserSession demo_env session_data)
                    (fun _ => setUserSession demo_env session_data_later)
                    (start [])) in
   length (sessions w2)
   = length (sessions (snd (setUserSession demo_env session_data
                              (start []))))
   /\ map_get (JNum 1) (sessions w2)
      = Some (sessionEntry (JNum 1) (JStr "master@x.io") (JStr "jwt-2"))).
Proof.
  destruct (setUserSession_then_getUserSessionById demo_env session_data
              JUndefined (start []) eq_refl) as [Hread Hagain].
  split; [exact Hread |].
  exact (Hagain session_data_later eq_refl eq_refl).
Defined.

(** The session of the identity 1 removed from a cache of two. *)
Lemma removeUserSessionById_forgets_witness :
  let w1 := snd (removeUserSessionById demo_env (JNum 1) (cached [])) in
  bind demo_env (removeUserSessionById demo_env (JNum 1))
    (fun _ => getUserSessionById demo_env (JNum 1) live) (cached [])
  = (Ok JUndefined, w1)
  /\ trace w1 = trace (cached [])
  /\ unique_keys (sessions w1) = true
  /\ (forall k, val_eqb k (JNum 1) = false ->
                map_get k (sessions w1) = map_get k (sessions (cached []))).
Proof.
  exact (removeUserSessionById_forgets demo_env (JNum 1) live (cached [])
           eq_refl).
Defined.

(** A cached session read with the live check: the token is verified and
    the answer carries the cached jwt. *)
Lemma getUserSessionById_only_reads_witness :
  let w := cached answers_token in
  let run := getUserSessionById demo_env (JNum 1) live w in
  logs demo_env verify_call w (snd run)
  /\ (map_get (JNum 1) (sessions w) = None ->
      fst run = Ok JUndefined /\ snd run = w)
  /\ (truthy (paramField live "isFilledUsers") = false -> snd run = w)
  /\ (forall v, fst run = Ok v ->
        field (spread v) "jwt"
        = field (spread (session_of demo_env (JNum 1) w)) "jwt").
Proof.
  exact (getUserSessionById_only_reads demo_env (JNum 1) live
           (cached answers_token) _ _ (run_with _ _ eq_refl)).
Defined.

(** The keys of one user decrypted. *)
Lemma decryptApiKeys_two_calls_per_user_witness :
  let run := decryptApiKeys demo_env (JStr "Passw0rd1") master_row
               (start answers_keys) in
  exists apiKey apiSecret,
    added demo_env (start answers_keys) (snd run)
      (key_events (JStr "Passw0rd1") (master_row, (apiKey, apiSecret)))
    /\ fst run = Ok (decrypted (master_row, (apiKey, apiSecret))).
Proof.
  assert (Hrun : fst (decryptApiKeys demo_env (JStr "Passw0rd1") master_row
                        (start answers_keys))
                 = Ok (decrypted (master_row,
                                  (JStr "master-key", JStr "master-secret"))))
    by (vm_compute; reflexivity).
  destruct (proj2 (proj2 (decryptApiKeys_two_calls_per_user demo_env
                            (JStr "Passw0rd1") (start answers_keys)))
              master_row _ _ eq_refl (run_with _ _ Hrun))
    as (apiKey & apiSecret & Hadd & Hv).
  exists apiKey, apiSecret. split; [exact Hadd |].
  cbv zeta. rewrite Hrun. now rewrite Hv.
Defined.

(** Verified by email and password without [isReturnedPassword]: the
    answer carries [null] for a password. *)
Lemma verifyUser_password_on_request_witness :
  let run := verifyUser demo_env auth_password decrypting
               (start answers_password) in
  exists user,
    fst run = Ok user /\
    (valid_str (authField auth_password "email")
     && valid_str (authField auth_password "password") = true ->
     field (spread user) "password"
     = if truthy (paramField decrypting "isReturnedPassword")
       then authField auth_password "password" else JNull)
    /\
    (truthy (paramField decrypting "isReturnedPassword") = false ->
     field (spread user) "password" = JNull
     \/ field (spread user) "password" = JUndefined).
Proof.
  assert (Hrun : exists user,
            fst (verifyUser demo_env auth_password decrypting
                   (start answers_password)) = Ok user).
  { eexists. vm_compute. reflexivity. }
  destruct Hrun as (user & Hrun). exists user. split; [exact Hrun |].
  exact (verifyUser_password_on_request demo_env auth_password decrypting
           (start answers_password) user _ (run_with _ _ Hrun)).
Defined.



(** A sign-up, from the upstream check to the cached token. *)
Lemma signUp_registers_witness :
  let w := start (answers_signUp upstream_a 11 "jwt-11") in
  let run := signUp demo_env (signup_request "Passw0rd1") JUndefined w in
  exists fromApi user jwt,
    has_integer_id user = true /\
    fst run = Ok (JObj [("email", field (spread fromApi) "email");
                        ("isSubAccount", field (spread user) "isSubAccount");
                        ("jwt", jwt)]) /\
    map_get (field (spread user) "_id") (sessions (snd run))
    = Some (sessionEntry (field (spread user) "_id")
              (field (spread fromApi) "email") jwt).
Proof.
  assert (Hrun : exists res,
            fst (signUp demo_env (signup_request "Passw0rd1") JUndefined
                   (start (answers_signUp upstream_a 11 "jwt-11")))
            = Ok res).
  { eexists. vm_compute. reflexivity. }
  destruct Hrun as (res & Hrun).
  destruct (signUp_registers demo_env (signup_request "Passw0rd1") JUndefined
              (start (answers_signUp upstream_a 11 "jwt-11")) res _
              (run_with _ _ Hrun))
    as (fromApi & userFromDb & ek & es & ep & hash & ins & user & jwt & H).
  cbv zeta in H. destruct H as (_ & _ & _ & Hid & Hres & Hss).
  exists fromApi, user, jwt. cbv zeta.
  split; [exact Hid |]. split; [| exact Hss].
  rewrite Hrun. now rewrite Hres.
Defined.

(** A sign-up for an email that storage holds already. *)
Lemma signUp_refuses_registered_email_witness :
  let args := signup_request "Passw0rd1" in
  let w := start answers_registered in
  let w1 := snd (call demo_env (RCheckAuthInApi args) w) in
  let w2 := snd (call demo_env (signUpLookup upstream_a) w1) in
  signUp demo_env args JUndefined w = (Err AuthError, w2)
  /\ added demo_env w w2 [ (RCheckAuthInApi args, Ok upstream_a);
                           (signUpLookup upstream_a, Ok (new_row 11)) ]
  /\ sessions w2 = sessions w.
Proof.
  apply (signUp_refuses_registered_email demo_env
           (signup_request "Passw0rd1") JUndefined (start answers_registered)
           upstream_a
           (snd (call demo_env (RCheckAuthInApi (signup_request "Passw0rd1"))
                   (start answers_registered)))
           (new_row 11)).
  - reflexivity.
  - reflexivity.
  - discriminate.
  - discriminate.
  - reflexivity.
  - right. reflexivity.
Defined.

(** A sign-out by email and password from a cache of two sessions. *)
Lemma signOut_deactivates_witness :
  let w := cached (answers_signOut (changes 1)) in
  let run := signOut demo_env auth_password JUndefined w in
  fst run = Ok (JBool true) /\
  exists row ok updRes,
    let user := JObj (obj_set "password" JNull (spread row)) in
    no_changes updRes = false /\
    sessions (snd run)
    = map_delete (field (spread user) "_id") (sessions w) /\
    added demo_env w (snd run)
      [ (signOutLookup auth_password, Ok row);
        (CryptoVerifyPassword (authField auth_password "password")
           (field (spread row) "passwordHash"), Ok ok);
        (signOutUpdate demo_env JUndefined user, Ok updRes) ].
Proof.
  assert (Hrun : fst (signOut demo_env auth_password JUndefined
                        (cached (answers_signOut (changes 1))))
                 = Ok (JBool true)) by (vm_compute; reflexivity).
  split; [exact Hrun |].
  exact (proj2 (signOut_deactivates demo_env auth_password JUndefined
                  (cached (answers_signOut (changes 1))) _ _
                  (run_with _ _ Hrun))).
Defined.

(** A sign-out to whose update storage answers nothing. *)
Lemma signOut_takes_no_answer_for_done_witness :
  fst (signOut demo_env auth_password JUndefined
         (cached (answers_signOut JUndefined)))
  = Ok (JBool true).
Proof.
  assert (Hv : fst (verifyUser demo_env (signInAuth auth_password) JUndefined
                      (cached (answers_signOut JUndefined)))
               = Ok (JObj (obj_set "password" JNull (spread master_row))))
    by (vm_compute; reflexivity).
  rewrite (signOut_takes_no_answer_for_done demo_env auth_password JUndefined
             (cached (answers_signOut JUndefined)) _ _ JUndefined _
             (run_with _ _ Hv) (run_with _ _ eq_refl) (or_introl eq_refl)).
  reflexivity.
Defined.

(** A sign-out whose update changes no row is rejected, and the cache is
    as it was. *)
Lemma rejected_calls_leave_the_sessions_witness :
  let w := cached (answers_signOut (changes 0)) in
  fst (signOut demo_env auth_password JUndefined w) = Err AuthError
  /\ sessions (snd (signOut demo_env auth_password JUndefined w)) = sessions w.
Proof.
  assert (Hrun : fst (signOut demo_env auth_password JUndefined
                        (cached (answers_signOut (changes 0))))
                 = Err AuthError) by (vm_compute; reflexivity).
  split; [exact Hrun |].
  exact (proj2 (proj2 (rejected_calls_leave_the_sessions demo_env
                         auth_password JUndefined))
           (cached (answers_signOut (changes 0))) AuthError _
           (run_with _ _ Hrun)).
Defined.

(** A caller, and an entry of the desired list, named by a token. *)
Lemma createSubAccount_takes_no_token_witness :
  createSubAccount demo_env token_request (start answers_token)
  = (Err AuthError, start answers_token)
  /\ createStep demo_env verified_master (JStr "Passw0rd1") (JNum 9) 2
       createInit token_entry (start answers_token)
     = (Err AuthError, start answers_token).
Proof.
  destruct (createSubAccount_takes_no_token demo_env) as [Hcall Hentry].
  split.
  - apply Hcall. reflexivity.
  - apply (Hentry token_entry (start answers_token)); reflexivity.
Defined.

(** The transaction for the desired list [[a; a]], rejected at the second
    [a] and rolled back: the session of the aggregate, row 10, stays. *)
Lemma createSubAccount_sessions_outlive_rollback_witness :
  let w := start answers_found_in_trans in
  let work := createSubAccountTrans lenient_env verified_master
                (JStr "Passw0rd1") aggregate_auth [keys_a; keys_a] in
  let run := executeQueriesInTrans lenient_env work w in
  fst run = Err AuthError /\
  exists _id,
    isInteger _id = true /\
    map_get _id (sessions w) = None /\
    map_get _id (sessions (snd run)) <> None /\
    exists w2 rb,
      work (snd (call lenient_env DaoTransBegin w)) = (Err AuthError, w2) /\
      trace (snd run) = trace w2 ++ [(DaoTransRollback, rb)].
Proof.
  assert (Hrun : fst (executeQueriesInTrans lenient_env
                        (createSubAccountTrans lenient_env verified_master
                           (JStr "Passw0rd1") aggregate_auth [keys_a; keys_a])
                        (start answers_found_in_trans))
                 = Err AuthError) by (vm_compute; reflexivity).
  assert (Hsu : fst (signUp lenient_env (JObj [("auth", aggregate_auth)])
                       aggregateParams
                       (snd (call lenient_env DaoTransBegin
                               (start answers_found_in_trans))))
                = Ok (JObj [("email", JStr "master@x.io");
                            ("isSubAccount", JBool false);
                            ("jwt", JStr "jwt-10")]))
    by (vm_compute; reflexivity).
  assert (Hwork : fst (createSubAccountTrans lenient_env verified_master
                         (JStr "Passw0rd1") aggregate_auth [keys_a; keys_a]
                         (snd (call lenient_env DaoTransBegin
                                 (start answers_found_in_trans))))
                  = Err AuthError) by (vm_compute; reflexivity).
  split; [exact Hrun |].
  destruct (proj2 (createSubAccount_sessions_outlive_rollback lenient_env)
              verified_master (JStr "Passw0rd1") aggregate_auth
              [keys_a; keys_a] (start answers_found_in_trans)
              JUndefined _ _ _ _ _
              (run_with _ _ eq_refl) (run_with _ _ Hsu) (run_with _ _ Hrun))
    as (_id & Hint & Hfresh & _ & Hkept & Hrb).
  exists _id. split; [exact Hint |]. split; [exact Hfresh |].
  split; [exact Hkept |].
  destruct (Hrb _ _ (run_with _ _ Hwork)) as (_ & rb & Htr).
  eexists _, rb. split; [exact (run_with _ _ Hwork) | exact Htr].
Defined.

(** A group created: the answer has no token, and the session of the
    group is under the key [undefined]. *)
Lemma createSubAccount_answers_no_token_witness :
  let run := createSubAccount lenient_env
               (create_request (JArr [keys_a; keys_a]))
               (start answers_create_twice) in
  exists email jwt,
    valid_str email = true /\
    fst run = Ok (JObj [("email", email); ("isSubAccount", JBool true);
                        ("token", JUndefined)]) /\
    map_get JUndefined (sessions (snd run))
    = Some (sessionEntry JUndefined email jwt).
Proof.
  assert (Hrun : exists res,
            fst (createSubAccount lenient_env
                   (create_request (JArr [keys_a; keys_a]))
                   (start answers_create_twice)) = Ok res).
  { eexists. vm_compute. reflexivity. }
  destruct Hrun as (res & Hrun).
  destruct (createSubAccount_answers_no_token lenient_env
              (create_request (JArr [keys_a; keys_a]))
              (start answers_create_twice) res _ (run_with _ _ Hrun))
    as (email & jwt & He & Hres & Hss).
  exists email, jwt. cbv zeta. split; [exact He |]. split; [| exact Hss].
  rewrite Hrun. now rewrite Hres.
Defined.

(** A row without sub-users read with [isFilledSubUsers]. *)
Lemma getUser_fills_sub_users_witness :
  let filter := JObj [("email", JStr "master@x.io")] in
  let w := start answers_filling in
  let run := getUser demo_env filter filling w in
  exists v key secret answers,
    fst run = Ok v /\
    length answers = 1 /\
    added demo_env w (snd run)
      ((DaoGetUser filter filling, Ok master_row)
       :: key_events (JStr "Passw0rd1") (master_row, (key, secret))
       ++ flat_map (key_events (JStr "Passw0rd1"))
            (combine [JUndefined] answers)) /\
    v = JObj (obj_set "subUsers"
                (nth 0 (map decrypted (combine [JUndefined] answers))
                   JUndefined)
                (spread (decrypted (master_row, (key, secret))))).
Proof.
  assert (Hrun : exists v,
            fst (getUser demo_env (JObj [("email", JStr "master@x.io")])
                   filling (start answers_filling)) = Ok v).
  { eexists. vm_compute. reflexivity. }
  destruct Hrun as (v & Hrun).
  destruct (getUser_fills_sub_users demo_env
              (JObj [("email", JStr "master@x.io")]) filling
              (start answers_filling) master_row _ v _
              eq_refl eq_refl (run_with _ _ eq_refl) eq_refl
              (run_with _ _ Hrun))
    as (key & secret & answers & Hlen & Hadd & Hv).
  exists v, key, secret, answers.
  split; [exact Hrun |]. split; [exact Hlen |]. split; [exact Hadd |].
  exact Hv.
Defined.

(** One user found, and no [emailPasswordsMap]. *)
Lemma getUsers_needs_the_password_of_every_email_witness :
  exists w',
    getUsers demo_env (getUsersAnswers demo_env (JArr [master_row]))
      JUndefined all_users (start answers_keys)
    = (Err TypeError, w').
Proof.
  assert (Hdec : fst (decryptApiKeys demo_env (JStr "Passw0rd1")
                        (JArr [master_row]) (start answers_keys))
                 = Ok (JArr [decrypted (master_row,
                                        (JStr "master-key",
                                         JStr "master-secret"))]))
    by (vm_compute; reflexivity).
  apply (getUsers_needs_the_password_of_every_email demo_env
           (getUsersAnswers demo_env (JArr [master_row])) JUndefined all_users
           (start answers_keys) (JArr [master_row]) (start answers_keys)
           _ _ eq_refl eq_refl eq_refl (run_with _ _ Hdec)).
  right. eexists. split; [left; reflexivity | reflexivity].
Defined.

(** A caller that is not flagged as a sub-account. *)
Lemma recoverPassword_refuses_at_once_witness :
  recoverPassword demo_env
    (recoverAnswers demo_env recovered_aggregate recovered_member)
    (recover_request false) (start [])
  = (Err AuthError, start []).
Proof.
  apply recoverPassword_refuses_at_once. left. reflexivity.
Defined.

(** A group recovered: the desired pair and the caller's own are both
    answered with a member.  And a turn answered with a stranger. *)
Lemma recoverPassword_refreshes_members_only_witness :
  let rp := recoverAnswers demo_env recovered_aggregate recovered_member in
  let w := start [Ok JUndefined; Ok JUndefined] in
  (exists w1 w2,
     refreshed demo_env rp [recovered_member] (JStr "Passw0rd2") JUndefined
       [keys_a; ownKeys (recover_request true)] w1 w2 /\
     fst (recoverPassword demo_env rp (recover_request true) w)
     = Ok (JObj [ ("email", JStr "master@x.io");
                  ("isSubAccount", JBool true);
                  ("token", JStr "jwt-9") ]))
  /\
  recoverStep demo_env
    (recoverAnswers demo_env recovered_aggregate recovered_stranger)
    [recovered_member] (JStr "Passw0rd2") JUndefined keys_a w
  = (Err AuthError, w).
Proof.
  split.
  - assert (Hrun : exists res,
              fst (recoverPassword demo_env
                     (recoverAnswers demo_env recovered_aggregate
                        recovered_member)
                     (recover_request true)
                     (start [Ok JUndefined; Ok JUndefined])) = Ok res).
    { eexists. vm_compute. reflexivity. }
    destruct Hrun as (res & Hrun).
    destruct (proj1 (recoverPassword_refreshes_members_only demo_env
                       (recoverAnswers demo_env recovered_aggregate
                          recovered_member)
                       (recover_request true))
                (start [Ok JUndefined; Ok JUndefined]) res _
                (run_with _ _ Hrun))
      as (b & w0 & subAccount & w1 & w2 & c & H).
    cbv zeta in H. destruct H as (_ & Hagg & _ & _ & Href & _ & Hres).
    inversion Hagg; subst subAccount w1. clear Hagg.
    exists w0, w2. split; [exact Href |].
    rewrite Hrun. now rewrite Hres.
  - apply (proj2 (recoverPassword_refreshes_members_only demo_env
                    (recoverAnswers demo_env recovered_aggregate
                       recovered_stranger)
                    (recover_request true))
             [recovered_member] (JStr "Passw0rd2") JUndefined keys_a
             (start [Ok JUndefined; Ok JUndefined]) recovered_stranger).
    + reflexivity.
    + discriminate.
    + discriminate.
    + reflexivity.
Defined.

(** A desired list with the keys of a sub-account in it. *)
Lemma createSubAccount_refuses_sub_account_keys_witness :
  let w := start answers_password in
  let w1 := snd (verifyUser demo_env (masterAuth nested_request)
                   masterParams w) in
  createSubAccount demo_env nested_request w
  = (Err SubAccountCreatingError, w1)
  /\ logs demo_env verify_call w w1.
Proof.
  assert (Hv : fst (verifyUser demo_env (masterAuth nested_request)
                      masterParams (start answers_password))
               = Ok verified_master) by (vm_compute; reflexivity).
  apply (createSubAccount_refuses_sub_account_keys demo_env nested_request
           (start answers_password) verified_master _ (run_with _ _ Hv)).
  right. reflexivity.
Defined.

(** A group created under the password of the master. *)
Lemma createSubAccount_hashes_one_password_witness :
  let args := create_request (JArr [keys_a; keys_a]) in
  let w := start answers_create_twice in
  exists evs,
    added lenient_env w (snd (createSubAccount lenient_env args w)) evs /\
    all_calls (hashes_only (JStr "Passw0rd1")) evs = true.
Proof.
  exact (createSubAccount_hashes_one_password lenient_env
           (create_request (JArr [keys_a; keys_a]))
           (start answers_create_twice)).
Defined.

(** A group left as it was, and a group with [b] left out and [c]
    added. *)
Lemma updateFinish_writes_only_on_change_witness :
  let answer := JObj [("email", JStr "master@x.io");
                      ("isSubAccount", JBool true); ("token", JUndefined)] in
  let kept := updateFinish demo_env full_aggregate (JNum 9)
                (JStr "master@x.io") JUndefined group_members
                group_unchanged (start []) in
  let w := start [Ok (changes 1); Ok (changes 4)] in
  let changed := updateFinish demo_env full_aggregate (JNum 9)
                   (JStr "master@x.io") JUndefined group_members
                   group_changed w in
  kept = (Ok answer,
          snd (setUserSession demo_env
                 (JObj (obj_set "subUsers" (JArr group_members)
                          (spread full_aggregate))) (start [])))
  /\ exists res ans,
       added demo_env w (snd changed)
         [ (removalOf [sub_user 2 "key-b" "secret-b"], Ok res);
           (ledgerInvalidation (JNum 9), Ok ans) ].
Proof.
  assert (Hkept : fst (removingOf demo_env group_members
                         (processedSubUsers group_unchanged) (start []))
                  = Ok []) by (vm_compute; reflexivity).
  assert (Hleft : fst (removingOf demo_env group_members
                         (processedSubUsers group_changed)
                         (start [Ok (changes 1); Ok (changes 4)]))
                  = Ok [sub_user 2 "key-b" "secret-b"])
    by (vm_compute; reflexivity).
  assert (Hrun : fst (updateFinish demo_env full_aggregate (JNum 9)
                        (JStr "master@x.io") JUndefined group_members
                        group_changed
                        (start [Ok (changes 1); Ok (changes 4)]))
                 = Ok (JObj [("email", JStr "master@x.io");
                             ("isSubAccount", JBool true);
                             ("token", JUndefined)]))
    by (vm_compute; reflexivity).
  cbv zeta. split.
  - exact (proj1 (updateFinish_writes_only_on_change demo_env
                    full_aggregate (JNum 9) (JStr "master@x.io") JUndefined
                    group_members group_unchanged (start []) [] Hkept)
             eq_refl eq_refl).
  - assert (Hne : [sub_user 2 "key-b" "secret-b"] <> []) by discriminate.
    destruct (proj2 (updateFinish_writes_only_on_change demo_env
                       full_aggregate (JNum 9) (JStr "master@x.io")
                       JUndefined group_members group_changed
                       (start [Ok (changes 1); Ok (changes 4)])
                       [sub_user 2 "key-b" "secret-b"] Hleft)
                _ _ (run_with _ _ Hrun) (or_introl Hne))
      as (_ & removal & ans & Hadd & _ & Hrem).
    destruct (Hrem Hne) as (res & -> & _).
    exists res, ans. exact Hadd.
Defined.

(** An audit with active positions only, and no trade at all. *)
Lemma closePriceOf_needs_both_positions_witness :
  closePriceOf demo_env
    (collAnswers demo_env trades_two_orders ledgers_settled)
    (auditAnswers demo_env audit_active_only)
    (JStr "auth") (JStr "tBTCUSD") (JNum 1700) 42 (start [])
  = (Ok (priced JNull JNull), start [])
  /\
  closePriceOf demo_env
    (collAnswers demo_env (JArr []) ledgers_settled)
    (auditAnswers demo_env audit_closed_active)
    (JStr "auth") (JStr "tBTCUSD") (JNum 1700) 42 (start [])
  = (Ok (priced JNull JNull), start []).
Proof.
  split.
  - apply (closePriceOf_needs_both_positions demo_env
             (collAnswers demo_env trades_two_orders ledgers_settled)
             (auditAnswers demo_env audit_active_only)
             (JStr "auth") (JStr "tBTCUSD") (JNum 1700) 42
             (start []) trades_two_orders (start [])
             audit_active_only (start []));
      [reflexivity | reflexivity | split; discriminate |].
    right. right. right. right. left. reflexivity.
  - apply (closePriceOf_needs_both_positions demo_env
             (collAnswers demo_env (JArr []) ledgers_settled)
             (auditAnswers demo_env audit_closed_active)
             (JStr "auth") (JStr "tBTCUSD") (JNum 1700) 42
             (start []) (JArr []) (start [])
             audit_closed_active (start []));
      [reflexivity | reflexivity | split; discriminate |].
    right. left. reflexivity.
Defined.

(** Two trades of different orders: the price of the first trade and the
    amount of the active position; and an audit that begins with
    [null]. *)
Lemma closePriceOf_by_trade_witness :
  closePriceOf demo_env
    (collAnswers demo_env trades_two_orders ledgers_settled)
    (auditAnswers demo_env audit_closed_active)
    (JStr "auth") (JStr "tBTCUSD") (JNum 1700) 42 (start [])
  = (Ok (priced (JNum 105) (JNum 3)), start [])
  /\
  closePriceOf demo_env
    (collAnswers demo_env trades_two_orders ledgers_settled)
    (auditAnswers demo_env audit_null_first)
    (JStr "auth") (JStr "tBTCUSD") (JNum 1700) 42 (start [])
  = (Err TypeError, start []).
Proof.
  assert (Hdef : audit_closed_active <> JUndefined
                 /\ audit_closed_active <> JNull) by (split; discriminate).
  assert (Hnull : audit_null_first <> JUndefined
                  /\ audit_null_first <> JNull) by (split; discriminate).
  split.
  - destruct (proj1 (closePriceOf_by_trade demo_env
                       (collAnswers demo_env trades_two_orders
                          ledgers_settled)
                       (auditAnswers demo_env audit_closed_active)
                       (JStr "auth") (JStr "tBTCUSD") (JNum 1700) 42
                       (start []) trades_two_orders (start [])
                       audit_closed_active (start [])
                       eq_refl eq_refl
                       Hdef
                       eq_refl eq_refl))
      as (activePosition & Hfirst & Hrun).
    + repeat constructor; discriminate.
    + injection Hfirst as <-. exact Hrun.
  - apply (proj2 (closePriceOf_by_trade demo_env
                    (collAnswers demo_env trades_two_orders
                       ledgers_settled)
                    (auditAnswers demo_env audit_null_first)
                    (JStr "auth") (JStr "tBTCUSD") (JNum 1700) 42
                    (start []) trades_two_orders (start [])
                    audit_null_first (start [])
                    eq_refl eq_refl
                    Hnull
                    eq_refl eq_refl)
             JNull [position_of "CLOSED" 0; position_of "ACTIVE" 3]);
      [reflexivity | now right].
Defined.

(** Two trades of one order: the description of the ledger of the
    settlement. *)
Lemma closePriceOf_by_settlement_witness :
  exists closePrice,
    closePriceOf demo_env
      (collAnswers demo_env trades_one_order ledgers_settled)
      (auditAnswers demo_env audit_closed_active)
      (JStr "auth") (JStr "tBTCUSD") (JNum 1700) 42 (start [])
    = (Ok (priced closePrice JNull), start []) /\
    (closePrice = JNull \/
     exists ledger text,
       In ledger (items ledgers_settled) /\
       field (spread ledger) "description" = JStr text /\
       closePrice = JStr text /\
       mentions_settlement 42 text).
Proof.
  apply (closePriceOf_by_settlement demo_env
           (collAnswers demo_env trades_one_order ledgers_settled)
           (auditAnswers demo_env audit_closed_active)
           (JStr "auth") (JStr "tBTCUSD") (JNum 1700) 42
           (start []) trades_one_order (start [])
           audit_closed_active (start []) ledgers_settled (start []));
    try reflexivity.
  split; discriminate.
Defined.
